(** * obspy.core.event.resourceid: the ResourceIdentifier registry

    A shallow embedding of [obspy/core/event/resourceid.py] and the
    properties of its resolution registry.

    Conventions of the embedding.
    - A Python [str] is a [string] whose characters are code points below 256.
    - An object is known by its address ([id(obj)]) and carries the value its
      [__eq__]/[__ne__] compare.
    - A [_ResourceKey] instance is known by its identity, a [positive] drawn
      from an allocator; [id(key)] is that number as an integer.
    - The instance [__dict__] of a [ResourceIdentifier] is a record of
      optional entries: [None] means the entry is not in the dict.
    - Methods run in a state-and-exception monad over the receiver [self],
      the class-level tables and the hook list.  A raised exception keeps
      every mutation made before it, as in Python.
    - Weak references die by explicit environment events ([gc_object],
      [gc_key]); nothing dies in the middle of a method.  The one key a
      method creates and lets go itself, in [__setstate__], is released
      when that method returns. *)

From stdpp Require Import gmap strings list fin_maps.
From Stdlib Require Import ZArith Ascii String.

Local Open Scope Z_scope.
Local Open Scope string_scope.
Local Open Scope list_scope.

(** ** Python values *)

(** Identity of a [_ResourceKey] instance. *)
Abbreviation Key := positive.

(** A referred object: its address and the value its equality compares. *)
Record Obj := mkObj { oid : Z; oval : Z }.

#[global] Instance Obj_eq_dec : EqDecision Obj.
Proof. solve_decision. Defined.

(** [old != referred_object] *)
Definition py_ne (a b : Obj) : bool := negb (Z.eqb (oval a) (oval b)).

(** What the interner is keyed on: [None], an [int] or a [str]. *)
Abbreviation Raw := (option (Z + string)).

Definition RInt (z : Z) : Raw := Some (inl z).
Definition RStr (s : string) : Raw := Some (inr s).

(** The value of [.id]: a [str], or [None]. *)
Abbreviation PyId := (option string).

(** [(self._object_id, self.id)] *)
Abbreviation ObjKey := (option Z * option string)%type.

(** Values that reach [id=], [parent=] and the key descriptor. *)
Inductive PyVal :=
| PNone
| PInt (z : Z)
| PStr (s : string)
| PKey (k : Key)
| PObj (o : Obj).

(** [id(value)] for a value that is neither [int] nor [str]. *)
Definition key_addr (k : Key) : Z := Z.pos k.

Inductive Exn :=
| TypeError
| KeyError
| IndexError
| ValueError
| AttributeError
| PyException.

Inductive Warning :=
| LivenessLost (object_id : Z) (rid : PyId)
| RebindingConflict (rid : PyId)
| IdOverwrite.

#[global] Instance Warning_eq_dec : EqDecision Warning.
Proof. solve_decision. Defined.

Definition is_rebinding_conflict (w : Warning) : bool :=
  match w with RebindingConflict _ => true | _ => false end.

(** ** The instance dict of a ResourceIdentifier *)

Record RID := mkRID {
  fixed : option bool;
  _prefix : option string;
  _uuid : option string;
  id_ : option string;              (* __dict__["id"] *)
  _resource_key__ : option Key;
  _parent_key__ : option Key;
  _object_id : option Z
}.

#[global] Instance RID_eq_dec : EqDecision RID.
Proof. solve_decision. Defined.

(** [ResourceIdentifier.__new__(ResourceIdentifier)] *)
Definition empty_dict : RID := mkRID None None None None None None None.

Definition or_else {A} (new old : option A) : option A :=
  match new with Some _ => new | None => old end.

(** [self.__dict__.update(other.__dict__)] *)
Definition dict_update (s other : RID) : RID :=
  mkRID (or_else (fixed other) (fixed s))
        (or_else (_prefix other) (_prefix s))
        (or_else (_uuid other) (_uuid s))
        (or_else (id_ other) (id_ s))
        (or_else (_resource_key__ other) (_resource_key__ s))
        (or_else (_parent_key__ other) (_parent_key__ s))
        (or_else (_object_id other) (_object_id s)).

Definition set_fixed (b : bool) (s : RID) : RID :=
  mkRID (Some b) (_prefix s) (_uuid s) (id_ s) (_resource_key__ s) (_parent_key__ s) (_object_id s).
Definition set_prefix (p : string) (s : RID) : RID :=
  mkRID (fixed s) (Some p) (_uuid s) (id_ s) (_resource_key__ s) (_parent_key__ s) (_object_id s).
Definition set_uuid (u : string) (s : RID) : RID :=
  mkRID (fixed s) (_prefix s) (Some u) (id_ s) (_resource_key__ s) (_parent_key__ s) (_object_id s).
Definition set_id_ (v : string) (s : RID) : RID :=
  mkRID (fixed s) (_prefix s) (_uuid s) (Some v) (_resource_key__ s) (_parent_key__ s) (_object_id s).
Definition set_resource_key (k : Key) (s : RID) : RID :=
  mkRID (fixed s) (_prefix s) (_uuid s) (id_ s) (Some k) (_parent_key__ s) (_object_id s).
Definition set_parent_key (k : Key) (s : RID) : RID :=
  mkRID (fixed s) (_prefix s) (_uuid s) (id_ s) (_resource_key__ s) (Some k) (_object_id s).
Definition set_object_id (a : Z) (s : RID) : RID :=
  mkRID (fixed s) (_prefix s) (_uuid s) (id_ s) (_resource_key__ s) (_parent_key__ s) (Some a).

(** ** Class-level state *)

Record ClassState := mkClass {
  _singleton_cache : gmap Raw Key;                 (* WeakValueDictionary *)
  next_key : Key;                                  (* allocator of fresh instances *)
  _parent_id_tree : gmap Key (gmap Key ObjKey);    (* weak keys, weak keys *)
  _id_order : gmap Key (list ObjKey);              (* weak keys *)
  _id_object_map : gmap ObjKey Obj;                (* weak values *)
  warnings : list Warning                          (* what warnings.warn was given *)
}.

Definition empty_class : ClassState := mkClass ∅ 1%positive ∅ ∅ ∅ [].

Definition set_cache (c : gmap Raw Key) (n : Key) (st : ClassState) : ClassState :=
  mkClass c n (_parent_id_tree st) (_id_order st) (_id_object_map st) (warnings st).
Definition set_tree (t : gmap Key (gmap Key ObjKey)) (st : ClassState) : ClassState :=
  mkClass (_singleton_cache st) (next_key st) t (_id_order st) (_id_object_map st) (warnings st).
Definition set_order (o : gmap Key (list ObjKey)) (st : ClassState) : ClassState :=
  mkClass (_singleton_cache st) (next_key st) (_parent_id_tree st) o (_id_object_map st) (warnings st).
Definition set_map (m : gmap ObjKey Obj) (st : ClassState) : ClassState :=
  mkClass (_singleton_cache st) (next_key st) (_parent_id_tree st) (_id_order st) m (warnings st).
Definition add_warning (w : Warning) (st : ClassState) : ClassState :=
  mkClass (_singleton_cache st) (next_key st) (_parent_id_tree st) (_id_order st)
          (_id_object_map st) (warnings st ++ [w]).

(** A get-object hook: called with the id, it may touch the registry. *)
Definition Hook : Type := PyId -> ClassState -> ClassState * option Obj.

Record State := mkState {
  self : RID;
  cls : ClassState;
  _get_object_hook : list Hook
}.

(** ** Weak-reference death, as events of the environment *)

(** The last strong reference to the object at address [a] is dropped:
    its rows leave the weak-value object map. *)
Definition gc_object (a : Z) (st : ClassState) : ClassState :=
  set_map (filter (λ kv, oid kv.2 ≠ a) (_id_object_map st)) st.

(** The [_ResourceKey] [k] becomes unreachable: it leaves the interner and
    every weak-key table. *)
Definition gc_key (k : Key) (st : ClassState) : ClassState :=
  mkClass (filter (λ kv, kv.2 ≠ k) (_singleton_cache st))
          (next_key st)
          (delete k (delete k <$> _parent_id_tree st))
          (delete k (_id_order st))
          (_id_object_map st)
          (warnings st).

(** ** The method monad *)

Inductive Result (A : Type) :=
| Ok (a : A)
| Raise (e : Exn).
Arguments Ok {A} a.
Arguments Raise {A} e.

Definition M (A : Type) : Type := State -> State * Result A.

Definition ret {A} (a : A) : M A := fun st => (st, Ok a).

Definition bind {A B} (m : M A) (f : A -> M B) : M B :=
  fun st => match m st with
            | (st', Ok a) => f a st'
            | (st', Raise e) => (st', Raise e)
            end.

Definition raise {A} (e : Exn) : M A := fun st => (st, Raise e).

(** [try: m  except <handled>: h] *)
Definition try_except {A} (m : M A) (handled : Exn -> bool) (h : M A) : M A :=
  fun st => match m st with
            | (st', Ok a) => (st', Ok a)
            | (st', Raise e) => if handled e then h st' else (st', Raise e)
            end.

Notation "'let!' x ':=' m 'in' k" := (bind m (fun x => k))
  (at level 10, x name, m at level 100, k at level 200).

Definition get_self : M RID := fun st => (st, Ok (self st)).
Definition put_self (s : RID) : M unit :=
  fun st => (mkState s (cls st) (_get_object_hook st), Ok tt).
Definition get_cls : M ClassState := fun st => (st, Ok (cls st)).
Definition put_cls (c : ClassState) : M unit :=
  fun st => (mkState (self st) c (_get_object_hook st), Ok tt).
Definition get_hooks : M (list Hook) := fun st => (st, Ok (_get_object_hook st)).
Definition put_hooks (h : list Hook) : M unit :=
  fun st => (mkState (self st) (cls st) h, Ok tt).

(** [warnings.warn(msg, UserWarning)] *)
Definition warn (w : Warning) : M unit :=
  let! c := get_cls in put_cls (add_warning w c).

(** A method call on another handle [h]: the callee runs with [h] as its
    [self]; the caller gets back the result and the callee's handle. *)
Definition call_on {A} (h : RID) (m : M A) : M (A * RID) :=
  fun st =>
    match m (mkState h (cls st) (_get_object_hook st)) with
    | (st', Ok a) => (mkState (self st) (cls st') (_get_object_hook st'), Ok (a, self st'))
    | (st', Raise e) => (mkState (self st) (cls st') (_get_object_hook st'), Raise e)
    end.

(** A [_ResourceKey] that nothing references any more leaves the weak
    tables. *)
Definition release_key (k : Key) : M unit :=
  let! c := get_cls in put_cls (gc_key k c).

(** ** _ResourceKey *)

Module _ResourceKey.

(** [get_resource_key(cls, unique_id)] *)
Definition get_resource_key (unique_id : Raw) : M Key :=
  let! c := get_cls in
  match _singleton_cache c !! unique_id with
  | Some single => ret single
  | None =>
      let single := next_key c in
      let! _ := put_cls (set_cache (<[unique_id := single]> (_singleton_cache c)) (Pos.succ single) c) in
      ret single
  end.

(** [__deepcopy__] and [__copy__] return the instance itself. *)
Definition __deepcopy__ (k : Key) : Key := k.
Definition __copy__ (k : Key) : Key := k.

End _ResourceKey.

(** ** _ResourceKeyDescriptor *)

Inductive KeyAttr := parent_key_attr | resource_key_attr.

Module _ResourceKeyDescriptor.

Definition __get__ (name : KeyAttr) (instance : RID) : option Key :=
  match name with
  | parent_key_attr => _parent_key__ instance
  | resource_key_attr => _resource_key__ instance
  end.

Definition setattr (name : KeyAttr) (k : Key) : M unit :=
  let! s := get_self in
  match name with
  | parent_key_attr => put_self (set_parent_key k s)
  | resource_key_attr => put_self (set_resource_key k s)
  end.

(** [__set__(self, instance, value)]: nothing is stored for [None]; a
    value that is neither [int] nor [str] is replaced by its [id()]. *)
Definition __set__ (name : KeyAttr) (value : PyVal) : M unit :=
  match value with
  | PNone => ret tt
  | PInt z => let! k := _ResourceKey.get_resource_key (RInt z) in setattr name k
  | PStr s => let! k := _ResourceKey.get_resource_key (RStr s) in setattr name k
  | PKey k0 => let! k := _ResourceKey.get_resource_key (RInt (key_addr k0)) in setattr name k
  | PObj o => let! k := _ResourceKey.get_resource_key (RInt (oid o)) in setattr name k
  end.

End _ResourceKeyDescriptor.

(** ** Weak dictionaries indexed by a key that may be [None] *)

(** [d[k]] on a [WeakKeyDictionary]: [ref(None)] is a [TypeError]. *)
Definition weak_getitem {V} (d : gmap Key V) (k : option Key) : M V :=
  match k with
  | None => raise TypeError
  | Some k => match d !! k with
              | Some v => ret v
              | None => raise KeyError
              end
  end.

(** [k in d] on a [WeakKeyDictionary]: [False] for [None]. *)
Definition weak_contains {V} (d : gmap Key V) (k : option Key) : bool :=
  match k with
  | None => false
  | Some k => bool_decide (is_Some (d !! k))
  end.

(** [d[k] = v] on a [WeakKeyDictionary]. *)
Definition weak_setitem {V} (d : gmap Key V) (k : option Key) (v : V) : M (gmap Key V) :=
  match k with
  | None => raise TypeError
  | Some k => ret (<[k := v]> d)
  end.

Definition is_key_or_index_error (e : Exn) : bool :=
  match e with KeyError | IndexError => true | _ => false end.
Definition is_key_or_type_error (e : Exn) : bool :=
  match e with KeyError | TypeError => true | _ => false end.

(** [l[-1]] *)
Definition list_last_item {A} (l : list A) : M A :=
  match last l with
  | Some x => ret x
  | None => raise IndexError
  end.

(** ** Strings *)

(** [str(x)] for the value of [.id] *)
Definition py_str (i : PyId) : string :=
  match i with Some s => s | None => "None" end.

Definition pyval_of_id (i : PyId) : PyVal :=
  match i with Some s => PStr s | None => PNone end.

Definition raw_of_id (i : PyId) : Raw :=
  match i with Some s => RStr s | None => None end.

(** [s.endswith("/")] *)
Fixpoint endswith_slash (s : string) : bool :=
  match s with
  | EmptyString => false
  | String c EmptyString => Ascii.eqb c "/"
  | String _ rest => endswith_slash rest
  end.

Definition code (c : ascii) : N := N_of_ascii c.

Definition in_range (lo hi : N) (c : ascii) : bool :=
  (N.leb lo (code c) && N.leb (code c) hi)%bool.

(** Characters removed by [str.strip()]. *)
Definition is_space (c : ascii) : bool :=
  (in_range 9 13 c || in_range 28 32 c || N.eqb (code c) 133 || N.eqb (code c) 160)%bool.

Fixpoint lstrip (s : string) : string :=
  match s with
  | EmptyString => EmptyString
  | String c rest => if is_space c then lstrip rest else s
  end.

Fixpoint string_rev_onto (s acc : string) : string :=
  match s with
  | EmptyString => acc
  | String c rest => string_rev_onto rest (String c acc)
  end.

Definition string_rev (s : string) : string := string_rev_onto s EmptyString.

Definition rstrip (s : string) : string := string_rev (lstrip (string_rev s)).

(** [s.strip()] *)
Definition strip (s : string) : string := rstrip (lstrip s).

(** ** Regular expressions, matched by derivatives *)

Inductive regex :=
| Void
| Eps
| Cls (p : ascii -> bool)
| Seq (r1 r2 : regex)
| Alt (r1 r2 : regex)
| Star (r : regex).

Fixpoint nullable (r : regex) : bool :=
  match r with
  | Void => false
  | Eps => true
  | Cls _ => false
  | Seq r1 r2 => nullable r1 && nullable r2
  | Alt r1 r2 => nullable r1 || nullable r2
  | Star _ => true
  end.

Definition seq_ (r1 r2 : regex) : regex :=
  match r1, r2 with
  | Void, _ => Void
  | _, Void => Void
  | Eps, _ => r2
  | _, _ => Seq r1 r2
  end.

Definition alt_ (r1 r2 : regex) : regex :=
  match r1, r2 with
  | Void, _ => r2
  | _, Void => r1
  | _, _ => Alt r1 r2
  end.

Fixpoint deriv (c : ascii) (r : regex) : regex :=
  match r with
  | Void => Void
  | Eps => Void
  | Cls p => if p c then Eps else Void
  | Seq r1 r2 =>
      if nullable r1
      then alt_ (seq_ (deriv c r1) r2) (deriv c r2)
      else seq_ (deriv c r1) r2
  | Alt r1 r2 => alt_ (deriv c r1) (deriv c r2)
  | Star r1 => seq_ (deriv c r1) (Star r1)
  end.

(** The whole of [s] is in the language of [r]. *)
Fixpoint fullmatch (r : regex) (s : string) : bool :=
  match s with
  | EmptyString => nullable r
  | String c rest => fullmatch (deriv c r) rest
  end.

Definition chr (c : ascii) : regex := Cls (Ascii.eqb c).

Fixpoint lit (s : string) : regex :=
  match s with
  | EmptyString => Eps
  | String c rest => Seq (chr c) (lit rest)
  end.

Definition one_of (s : string) (c : ascii) : bool :=
  existsb (Ascii.eqb c) (list_ascii_of_string s).

(** [\d] on a [str] pattern. *)
Definition is_digit (c : ascii) : bool := in_range 48 57 c.

(** [\w] on a [str] pattern: the alphanumerics of Unicode and the underscore,
    for the code points below 256. *)
Definition is_word (c : ascii) : bool :=
  (in_range 48 57 c || in_range 65 90 c || N.eqb (code c) 95 || in_range 97 122 c
   || N.eqb (code c) 170 || in_range 178 179 c || N.eqb (code c) 181
   || in_range 185 186 c || in_range 188 190 c
   || in_range 192 214 c || in_range 216 246 c || in_range 248 255 c)%bool.

(** [[\w\d]] *)
Definition cls_first (c : ascii) : bool := (is_word c || is_digit c)%bool.
(** [[\w\d\-\.\*\(\)_~']] *)
Definition cls_segment (c : ascii) : bool :=
  (is_word c || is_digit c || one_of "-.*()_~'" c)%bool.
(** [[\w\d\-\.\*\(\)\+\?_~'=,;#/&]] *)
Definition cls_tail (c : ascii) : bool :=
  (is_word c || is_digit c || one_of "-.*()+?_~'=,;#/&" c)%bool.

(** [(smi|quakeml):[\w\d][\w\d\-\.\*\(\)_~']{2,}/[\w\d\-\.\*\(\)_~'][\w\d\-\.\*\(\)\+\?_~'=,;#/&]*] *)
Definition quakeml_regex : regex :=
  Seq (Alt (lit "smi") (lit "quakeml"))
 (Seq (lit ":")
 (Seq (Cls cls_first)
 (Seq (Seq (Cls cls_segment) (Seq (Cls cls_segment) (Star (Cls cls_segment))))
 (Seq (lit "/")
 (Seq (Cls cls_segment)
      (Star (Cls cls_tail))))))).

Definition newline : ascii := ascii_of_N 10.

(** [re.match("^" + r + "$", s) is not None]: the pattern is anchored at the
    start, and [$] holds at the end of the string or before a newline that
    ends it. *)
Definition re_match_anchored (r : regex) (s : string) : bool :=
  fullmatch (Seq r (Alt Eps (chr newline))) s.

(** ** ResourceIdentifier *)

(** The [id] argument of the constructor and the right operand of [==]:
    a plain value or another ResourceIdentifier. *)
Inductive Arg :=
| AVal (v : PyVal)
| AHandle (h : RID).

Definition call_hook (hook : Hook) (i : PyId) : M (option Obj) :=
  fun st =>
    let '(c, out) := hook i (cls st) in
    (mkState (self st) c (_get_object_hook st), Ok out).

(** The dict that [_debug_class_state] yields and [_bind_class_state] takes. *)
Record StateDict := mkStateDict {
  parent_id_tree : gmap Key (gmap Key ObjKey);
  id_order : gmap Key (list ObjKey);
  id_object_map : gmap ObjKey Obj;
  get_object_hook : list Hook
}.

Module ResourceIdentifier.

(** Property [id], getter. *)
Definition get_id : M PyId :=
  let! s := get_self in
  match fixed s with
  | None => raise AttributeError
  | Some true => ret (id_ s)
  | Some false =>
      match _prefix s with
      | None => raise AttributeError
      | Some p =>
          let i := if endswith_slash p then p else p +:+ "/" in
          match _uuid s with
          | None => raise AttributeError
          | Some u => ret (Some (i +:+ u))
          end
      end
  end.

(** Property [id], setter. *)
Definition set_id (value : PyVal) : M unit :=
  let! s := get_self in
  let! _ := put_self (set_fixed true s) in
  match value with
  | PStr v =>
      let! s := get_self in
      let! _ := if bool_decide (is_Some (_resource_key__ s))
                then warn IdOverwrite else ret tt in
      let! s := get_self in
      put_self (set_id_ v s)
  | _ => raise TypeError
  end.

(** Property [id], deleter. *)
Definition del_id : M unit := raise PyException.

(** Property [_object_key]. *)
Definition _object_key : M ObjKey :=
  let! s := get_self in
  let! i := get_id in
  ret (_object_id s, i).

Definition _resource_key : M (option Key) :=
  let! s := get_self in ret (_ResourceKeyDescriptor.__get__ resource_key_attr s).

Definition _parent_key : M (option Key) :=
  let! s := get_self in ret (_ResourceKeyDescriptor.__get__ parent_key_attr s).

Definition is_none (v : PyVal) : bool :=
  match v with PNone => true | _ => false end.

(** [set_referred_object], first part: the last object bound to this
    instance or, if there is none, the object of the last entry of the
    assignment order of the resource key. *)
Definition last_bound : M (option Obj) :=
  let! key := _object_key in
  let! c := get_cls in
  match _id_object_map c !! key with
  | Some o => ret (Some o)
  | None =>
      try_except
        (let! rk := _resource_key in
         let! rid_list := weak_getitem (_id_order c) rk in
         let! old_obj_id_key := list_last_item rid_list in
         match _id_object_map c !! old_obj_id_key with
         | Some o => ret (Some o)
         | None => raise KeyError
         end)
        is_key_or_index_error
        (ret None)
  end.

(** [if warn and old is not None and old != referred_object: warnings.warn(...)] *)
Definition warn_if_rebinding (warn_ : bool) (old : option Obj) (referred_object : Obj)
  : M unit :=
  match old with
  | Some o =>
      if (warn_ && py_ne o referred_object)%bool
      then let! i := get_id in warn (RebindingConflict i)
      else ret tt
  | None => ret tt
  end.

(** The row of the parent scoping tree:
    [if self._parent_key not in id_tree: id_tree[self._parent_key] = WeakKeyDictionary()]
    and [id_tree[self._parent_key][self._resource_key] = self._object_key]. *)
Definition write_scope_row : M unit :=
  let! pk := _parent_key in
  let! c := get_cls in
  let! id_tree :=
    if negb (weak_contains (_parent_id_tree c) pk)
    then weak_setitem (_parent_id_tree c) pk ∅
    else ret (_parent_id_tree c) in
  let! _ := put_cls (set_tree id_tree c) in
  let! key := _object_key in
  let! inner := weak_getitem id_tree pk in
  let! rk := _resource_key in
  let! inner := weak_setitem inner rk key in
  let! id_tree := weak_setitem id_tree pk inner in
  let! c := get_cls in
  put_cls (set_tree id_tree c).

(** [if parent is not None or self._parent_key is not None: ...]: the
    update of the parent scoping tree. *)
Definition scope_to_parent (parent : PyVal) : M unit :=
  let! pk := _parent_key in
  if (negb (is_none parent) || bool_decide (is_Some pk))%bool
  then
    let! _ := if negb (is_none parent)
              then _ResourceKeyDescriptor.__set__ parent_key_attr parent
              else ret tt in
    write_scope_row
  else ret tt.

(** The new row of the object map and the append to the assignment order. *)
Definition record_assignment (referred_object : Obj) : M unit :=
  let! key := _object_key in
  let! c := get_cls in
  let! _ := put_cls (set_map (<[key := referred_object]> (_id_object_map c)) c) in
  let! rk := _resource_key in
  let! c := get_cls in
  let! id_order :=
    if negb (weak_contains (_id_order c) rk)
    then weak_setitem (_id_order c) rk []
    else ret (_id_order c) in
  let! _ := put_cls (set_order id_order c) in
  let! rid_list := weak_getitem id_order rk in
  let! key := _object_key in
  let! id_order := weak_setitem id_order rk (rid_list ++ [key]) in
  let! c := get_cls in
  put_cls (set_order id_order c).

Definition set_referred_object (referred_object : Obj) (warn_ : bool) (parent : PyVal)
  : M unit :=
  let! old := last_bound in
  let! _ := warn_if_rebinding warn_ old referred_object in
  let! s := get_self in
  let! _ := put_self (set_object_id (oid referred_object) s) in
  let! _ := scope_to_parent parent in
  record_assignment referred_object.

Definition _get_object_from_parent_scope : M (option Obj) :=
  let! c := get_cls in
  let! found :=
    try_except
      (let! pk := _parent_key in
       let! inner := weak_getitem (_parent_id_tree c) pk in
       let! rk := _resource_key in
       let! obj_key := weak_getitem inner rk in
       ret (Some obj_key))
      is_key_or_type_error
      (ret None) in
  match found with
  | None => ret None
  | Some obj_key =>
      match _id_object_map c !! obj_key with
      | None => ret None
      | Some obj =>
          let! i := get_id in
          if bool_decide (obj_key.2 = i) then ret (Some obj) else ret None
      end
  end.

(** [rid_list.pop()], the list being [_id_order[rk]]: [rest] is what stays,
    most recent first. *)
Definition pop (rk : Key) (rest : list ObjKey) : M unit :=
  let! c := get_cls in
  put_cls (set_order (<[rk := reverse rest]> (_id_order c)) c).

(** The [while len(rid_list)] loop, on the list read from its tail:
    [entries] is [rid_list] most recent first. *)
Fixpoint newest_loop (rk : Key) (entries : list ObjKey) : M (option Obj) :=
  match entries with
  | [] => ret None
  | obj_key :: rest =>
      let! c := get_cls in
      match _id_object_map c !! obj_key with
      | None => let! _ := pop rk rest in newest_loop rk rest
      | Some obj =>
          let! i := get_id in
          if negb (bool_decide (obj_key.2 = i))
          then let! _ := pop rk rest in newest_loop rk rest
          else ret (Some obj)
      end
  end.

Definition _get_newest_object_with_same_resource_id : M (option Obj) :=
  let! c := get_cls in
  let! rk := _resource_key in
  match rk with
  | None => raise TypeError
  | Some rk =>
      match _id_order c !! rk with
      | None => ret None
      | Some rid_list => newest_loop rk (reverse rid_list)
      end
  end.

Definition _get_similar_referred_object : M (option Obj) :=
  let! s := get_self in
  let! _ :=
    match _object_id s with
    | Some a => let! i := get_id in warn (LivenessLost a i)
    | None => ret tt
    end in
  let! obj := _get_object_from_parent_scope in
  let! obj :=
    match obj with
    | None => _get_newest_object_with_same_resource_id
    | Some _ => ret obj
    end in
  let! _ :=
    match obj with
    | Some o => set_referred_object o false PNone
    | None => ret tt
    end in
  ret obj.

(** [for hook in self._get_object_hook: ...] *)
Fixpoint iterate_hooks (hooks : list Hook) : M (option Obj) :=
  match hooks with
  | [] => ret None
  | hook :: rest =>
      let! i := get_id in
      let! out := call_hook hook i in
      match out with
      | Some o =>
          let! _ := set_referred_object o true PNone in
          ret (Some o)
      | None => iterate_hooks rest
      end
  end.

Definition get_referred_object : M (option Obj) :=
  let! key := _object_key in
  let! c := get_cls in
  let! out :=
    match _id_object_map c !! key with
    | Some o => ret (Some o)
    | None => _get_similar_referred_object
    end in
  match out with
  | Some o => ret (Some o)
  | None =>
      let! hooks := get_hooks in
      iterate_hooks hooks
  end.

(** [__call__ = get_referred_object] *)
Definition __call__ : M (option Obj) := get_referred_object.

(** [__init__]; [uuid4] is what [str(uuid4())] gives in this call. *)
Definition __init__ (id : Arg) (prefix : string) (referred_object : option Obj)
    (parent : PyVal) (uuid4 : string) : M unit :=
  match id with
  | AHandle other =>
      let! s := get_self in
      put_self (dict_update s other)
  | AVal v =>
      let! _ :=
        match v with
        | PNone =>
            let! s := get_self in
            put_self (set_uuid uuid4 (set_prefix prefix (set_fixed false s)))
        | _ =>
            let! s := get_self in
            let! _ := put_self (set_fixed true s) in
            set_id v
        end in
      let! i := get_id in
      let! _ := _ResourceKeyDescriptor.__set__ resource_key_attr (pyval_of_id i) in
      let! _ := _ResourceKeyDescriptor.__set__ parent_key_attr parent in
      match referred_object with
      | Some o => set_referred_object o true PNone
      | None => ret tt
      end
  end.

(** [ResourceIdentifier(id, prefix, referred_object, parent)]: a new
    instance, initialised. *)
Definition new (id : Arg) (prefix : string) (referred_object : option Obj)
    (parent : PyVal) (uuid4 : string) : M RID :=
  let! r := call_on empty_dict (__init__ id prefix referred_object parent uuid4) in
  ret r.2.

Definition get_quakeml_uri_str (authority_id : string) (uuid4 : string) : M PyId :=
  let! id := get_id in
  let id := if String.eqb (strip (py_str id)) "" then Some uuid4 else id in
  if re_match_anchored quakeml_regex (py_str id)
  then ret id
  else
    let id := "smi:" +:+ authority_id +:+ "/" +:+ py_str id in
    if re_match_anchored quakeml_regex id
    then ret (Some id)
    else raise ValueError.

Definition key_arg (k : option Key) : PyVal :=
  match k with Some k => PKey k | None => PNone end.

Definition get_quakeml_id (authority_id : string) (uuid4 uuid4' : string) : M RID :=
  let! new_id := get_quakeml_uri_str authority_id uuid4 in
  let! rid := new (AVal (pyval_of_id new_id)) "smi:local" None PNone uuid4' in
  let! referred_obj := get_referred_object in
  match referred_obj with
  | Some o =>
      let! pk := _parent_key in
      let! r := call_on rid (set_referred_object o false (key_arg pk)) in
      ret r.2
  | None => ret rid
  end.

Definition __deepcopy__ : M RID :=
  let! s := get_self in
  let new := dict_update empty_dict s in
  let! r := call_on new (_ResourceKeyDescriptor.__set__ parent_key_attr PNone) in
  ret r.2.

(** [copy()] is [deepcopy(self)], which calls [__deepcopy__]. *)
Definition copy : M RID := __deepcopy__.

(** [__setstate__]. The key that [get_resource_key(self.id)] returns is
    handed to the descriptor, which keeps only its [id()]. When this very
    call created the key, nothing references it once the assignment is done,
    and the weak tables drop it; a key that was interned before is held
    elsewhere and stays. *)
Definition __setstate__ (state : RID) : M unit :=
  let! _ := put_self state in
  let! _ := _ResourceKeyDescriptor.__set__ parent_key_attr PNone in
  let! i := get_id in
  let! c := get_cls in
  let created := negb (bool_decide (is_Some (_singleton_cache c !! raw_of_id i))) in
  let! k := _ResourceKey.get_resource_key (raw_of_id i) in
  let! _ := _ResourceKeyDescriptor.__set__ resource_key_attr (PKey k) in
  if created then release_key k else ret tt.

(** [self.id == other] *)
Definition id_eq (i : PyId) (other : Arg) : M bool :=
  match other with
  | AVal (PStr s) => ret (bool_decide (i = Some s))
  | AVal PNone => ret (bool_decide (i = None))
  | AVal _ => ret false
  | AHandle h =>
      (* str.__eq__ gives NotImplemented; the reflected other.__eq__(i)
         compares other.id with i *)
      let! r := call_on h get_id in
      ret (bool_decide (r.1 = i))
  end.

Definition __eq__ (other : Arg) : M bool :=
  let! i := get_id in
  let! same := id_eq i other in
  if same then ret true
  else
    match other with
    | AVal _ => ret false
    | AHandle h =>
        let! i := get_id in
        let! r := call_on h get_id in
        if bool_decide (i = r.1) then ret true else ret false
    end.

Definition __ne__ (other : Arg) : M bool :=
  let! b := __eq__ other in ret (negb b).

(** [__hash__]; [py_hash] is the interpreter's [hash] on a [str] or on
    [None]. *)
Definition __hash__ (py_hash : PyId -> Z) : M Z :=
  let! i := get_id in
  ret (py_hash (Some "RESOURCE_ID") + py_hash i).

Definition register_get_object_hook (get_object_callable : Hook) : M unit :=
  let! hooks := get_hooks in
  put_hooks (hooks ++ [get_object_callable]).

(** Property [prefix]: getter, deleter, setter. *)
Definition prefix_get : M string :=
  let! s := get_self in
  match _prefix s with
  | Some p => ret p
  | None => raise AttributeError
  end.

Definition prefix_del : M unit :=
  let! s := get_self in put_self (set_prefix "" s).

Definition prefix_set (value : PyVal) : M unit :=
  match value with
  | PStr v => let! s := get_self in put_self (set_prefix v s)
  | _ => raise TypeError
  end.

(** Property [uuid]: getter, deleter, setter. *)
Definition uuid_get : M string :=
  let! s := get_self in
  match _uuid s with
  | Some u => ret u
  | None => raise AttributeError
  end.

Definition uuid_del : M unit := raise PyException.

Definition uuid_set (value : PyVal) : M unit := raise PyException.

(** Property [resource_id]: an alias of [id]. *)
Definition resource_id_get : M PyId := get_id.
Definition resource_id_set (value : PyVal) : M unit := set_id value.
Definition resource_id_del : M unit := del_id.

(** [__str__] returns [self.id]. *)
Definition __str__ : M PyId := get_id.

(** [_bind_class_state(state_dict)]: the three tables are rebound. The entry
    ['get_object_hook'] is assigned to the attribute
    [_get_referred_object_hook], which no method reads: [_get_object_hook]
    stays as it is. *)
Definition _bind_class_state (state_dict : StateDict) : M unit :=
  let! c := get_cls in
  let! _ := put_cls (set_tree (parent_id_tree state_dict) c) in
  let! c := get_cls in
  let! _ := put_cls (set_order (id_order state_dict) c) in
  let! c := get_cls in
  put_cls (set_map (id_object_map state_dict) c).

(** [with ResourceIdentifier._debug_class_state() as state: body(state)].
    The generator has no [try]/[finally] around its [yield]: an exception of
    the body leaves through it and the old state is not bound again. *)
Definition _debug_class_state {A} (body : StateDict -> M A) : M A :=
  let! c := get_cls in
  let! hooks := get_hooks in
  let old_state := mkStateDict (_parent_id_tree c) (_id_order c) (_id_object_map c) hooks in
  let new_state := mkStateDict ∅ ∅ ∅ [] in
  let! _ := _bind_class_state new_state in
  let! a := body new_state in
  let! _ := _bind_class_state old_state in
  ret a.

End ResourceIdentifier.

(** ** The resolution order, in the specification's words

    These definitions follow the text of the specification (data model,
    binding and resolution), not the code; the theorems below
    compare the two. *)

(** What the [id] getter returns, as a function of the instance dict. *)
Definition id_value (s : RID) : Result PyId :=
  match fixed s with
  | None => Raise AttributeError
  | Some true => Ok (id_ s)
  | Some false =>
      match _prefix s, _uuid s with
      | Some p, Some u => Ok (Some ((if endswith_slash p then p else p +:+ "/") +:+ u))
      | _, _ => Raise AttributeError
      end
  end.

Module Spec.

(** Step 1, direct: the handle's own CompositeKey in the Object Map. *)
Definition direct (c : ClassState) (h : RID) (i : PyId) : option Obj :=
  _id_object_map c !! (_object_id h, i).

(** Step 2, parent scope: the row (ParentKey, ResourceKey) of the Parent
    Scope Tree, dereferenced in the Object Map, accepted only if the id
    component of the CompositeKey equals the handle's id. *)
Definition scoped (c : ClassState) (h : RID) (i : PyId) : option Obj :=
  pk ← _parent_key__ h;
  inner ← _parent_id_tree c !! pk;
  rk ← _resource_key__ h;
  obj_key ← inner !! rk;
  o ← _id_object_map c !! obj_key;
  if bool_decide (obj_key.2 = i) then Some o else None.

(** An entry to discard: its CompositeKey no longer resolves in the Object
    Map, or its id component does not match the handle's id. *)
Definition stale (c : ClassState) (i : PyId) (obj_key : ObjKey) : bool :=
  match _id_object_map c !! obj_key with
  | None => true
  | Some _ => negb (bool_decide (obj_key.2 = i))
  end.

(** The Assignment Order list once the stale entries have been popped from
    its tail. *)
Fixpoint prune (c : ClassState) (i : PyId) (l : list ObjKey) : list ObjKey :=
  match l with
  | [] => []
  | obj_key :: rest =>
      match prune c i rest with
      | [] => if stale c i obj_key then [] else [obj_key]
      | kept => obj_key :: kept
      end
  end.

(** The Assignment Order list of the handle's ResourceKey. *)
Definition assignment_order (c : ClassState) (h : RID) : option (list ObjKey) :=
  rk ← _resource_key__ h; _id_order c !! rk.

(** Step 3, recency fallback: the first entry from the tail that both
    resolves and matches. *)
Definition recency (c : ClassState) (h : RID) (i : PyId) : option Obj :=
  l ← assignment_order c h;
  obj_key ← last (prune c i l);
  _id_object_map c !! obj_key.

(** The liveness-lost notification: signalled when step 1 found nothing and
    the handle had recorded a bound-object identity. *)
Definition liveness_lost (c : ClassState) (h : RID) (i : PyId) : ClassState :=
  match _object_id h with
  | Some a => add_warning (LivenessLost a i) c
  | None => c
  end.

(** The class state with the Assignment Order list of the handle's
    ResourceKey pruned. *)
Definition prune_order (c : ClassState) (h : RID) (i : PyId) : ClassState :=
  match _resource_key__ h with
  | Some rk =>
      match _id_order c !! rk with
      | Some l => set_order (<[rk := prune c i l]> (_id_order c)) c
      | None => c
      end
  | None => c
  end.

(** The class state when steps 1 to 3 have all failed. *)
Definition after_fallback (c : ClassState) (h : RID) (i : PyId) : ClassState :=
  prune_order (liveness_lost c h i) h i.

(** Step 4, hooks: each registered hook in registration order, called with
    the id, until one returns an object. *)
Fixpoint hooks_first (hooks : list Hook) (i : PyId) (c : ClassState)
  : ClassState * option Obj :=
  match hooks with
  | [] => (c, None)
  | hook :: rest =>
      match hook i c with
      | (c', Some o) => (c', Some o)
      | (c', None) => hooks_first rest i c'
      end
  end.

(** [resolve(handle)]: the four steps in priority order, stopping at the
    first success. *)
Definition resolve (st : State) (i : PyId) : option Obj :=
  let c := cls st in
  let h := self st in
  match direct c h i with
  | Some o => Some o
  | None =>
      match scoped c h i with
      | Some o => Some o
      | None =>
          match recency c h i with
          | Some o => Some o
          | None => (hooks_first (_get_object_hook st) i (after_fallback c h i)).2
          end
      end
  end.

(** The most recent live object of an Assignment Order list: the object of
    the last entry that still resolves in the Object Map. *)
Fixpoint most_recent_live (c : ClassState) (l : list ObjKey) : option Obj :=
  match l with
  | [] => None
  | obj_key :: rest =>
      match most_recent_live c rest with
      | Some o => Some o
      | None => _id_object_map c !! obj_key
      end
  end.

(** [old] of the binding algorithm, step 1: the object mapped by the
    handle's own CompositeKey or, if absent, the most recent live object in
    the Assignment Order of its ResourceKey. *)
Definition old (c : ClassState) (h : RID) (i : PyId) : option Obj :=
  match direct c h i with
  | Some o => Some o
  | None => l ← assignment_order c h; most_recent_live c l
  end.

End Spec.

(** [old] as the code computes it: the handle's own row or, if absent, the
    object of the last entry of the assignment order, when that entry still
    resolves. *)
Definition old_of (c : ClassState) (h : RID) (i : PyId) : option Obj :=
  match _id_object_map c !! (_object_id h, i) with
  | Some o => Some o
  | None =>
      rk ← _resource_key__ h;
      l ← _id_order c !! rk;
      obj_key ← last l;
      _id_object_map c !! obj_key
  end.

(** What a bind leaves alone in the class state, apart from its own rows. *)
Definition same_rows (c c' : ClassState) : Prop :=
  _id_order c' = _id_order c
  /\ _id_object_map c' = _id_object_map c
  /\ warnings c' = warnings c.

(** Two instance dicts that differ at most in the parent key. *)
Definition same_but_parent (s s' : RID) : Prop :=
  fixed s' = fixed s /\ _prefix s' = _prefix s /\ _uuid s' = _uuid s
  /\ id_ s' = id_ s /\ _resource_key__ s' = _resource_key__ s
  /\ _object_id s' = _object_id s.

(** The environment drops the objects at the addresses [dead]. *)
Definition gc_objects (dead : list Z) (c : ClassState) : ClassState :=
  foldr gc_object c dead.

(** The test of the rebinding warning. *)
Definition conflict (warn_ : bool) (old : option Obj) (referred_object : Obj) : bool :=
  match old with
  | Some o => warn_ && py_ne o referred_object
  | None => false
  end.

(** The row [(pk, rk)] of the parent scope tree. *)
Definition tree_row (c : ClassState) (pk rk : Key) : option ObjKey :=
  inner ← _parent_id_tree c !! pk; inner !! rk.

(** The warnings a run has added to the log. *)
Definition emitted (before after : ClassState) : list Warning :=
  drop (List.length (warnings before)) (warnings after).

(** ** The state a resolution leaves *)

(** The state after [set_referred_object(o, warn)] with [parent=None] on a
    handle of resource key [rk] and id [i]: the handle records the address
    of [o]; the object map gets the row of the new CompositeKey; the
    assignment order of [rk] gets that CompositeKey appended; the row of the
    handle's parent scope, if it has a parent key, is overwritten; the log
    gets the rebinding warning when the test of the warning holds. Nothing
    else changes. *)
Definition after_bind (warn_ : bool) (o : Obj) (rk : Key) (i : PyId) (st : State) : State :=
  let h := self st in
  let c := cls st in
  let key : ObjKey := (Some (oid o), i) in
  mkState (set_object_id (oid o) h)
    (mkClass
       (_singleton_cache c)
       (next_key c)
       (match _parent_key__ h with
        | Some pk =>
            <[pk := <[rk := key]> (default ∅ (_parent_id_tree c !! pk))]> (_parent_id_tree c)
        | None => _parent_id_tree c
        end)
       (<[rk := default [] (_id_order c !! rk) ++ [key]]> (_id_order c))
       (<[key := o]> (_id_object_map c))
       (warnings c ++ (if conflict warn_ (old_of c h i) o then [RebindingConflict i] else [])))
    (_get_object_hook st).

(** The state after the loop over the hooks, started on the class state
    [c]: the hooks up to the first that answers have run, and the object
    that hook gave is bound with [warn=True]. *)
Definition after_hooks (rk : Key) (i : PyId) (h : RID) (hooks : list Hook) (c : ClassState)
  : State :=
  match Spec.hooks_first hooks i c with
  | (c', Some o) => after_bind true o rk i (mkState h c' hooks)
  | (c', None) => mkState h c' hooks
  end.

(** The state after [get_referred_object] on a handle of resource key [rk]
    and id [i], by the step that answers: a direct hit leaves the state as
    it is; a parent-scope hit binds the object found, with [warn=False], on
    the state that has at most the liveness warning added; a recency hit
    does the same on the state whose list is pruned as well; otherwise the
    hooks run on that pruned state. *)
Definition state_after_resolve (rk : Key) (i : PyId) (st : State) : State :=
  let c := cls st in
  let h := self st in
  let hooks := _get_object_hook st in
  match Spec.direct c h i with
  | Some _ => st
  | None =>
      match Spec.scoped c h i with
      | Some o => after_bind false o rk i (mkState h (Spec.liveness_lost c h i) hooks)
      | None =>
          match Spec.recency c h i with
          | Some o => after_bind false o rk i (mkState h (Spec.after_fallback c h i) hooks)
          | None => after_hooks rk i h hooks (Spec.after_fallback c h i)
          end
      end
  end.

(** ** The interner and the key descriptor as functions of the class state *)

(** [get_resource_key] on the class state alone. *)
Definition intern (raw : Raw) (c : ClassState) : ClassState * Key :=
  match _singleton_cache c !! raw with
  | Some k => (c, k)
  | None =>
      (set_cache (<[raw := next_key c]> (_singleton_cache c)) (Pos.succ (next_key c)) c,
       next_key c)
  end.

(** What the key descriptor interns for a value; nothing for [None]. *)
Definition descriptor_raw (value : PyVal) : option Raw :=
  match value with
  | PNone => None
  | PInt z => Some (RInt z)
  | PStr s => Some (RStr s)
  | PKey k => Some (RInt (key_addr k))
  | PObj o => Some (RInt (oid o))
  end.

Definition set_key_attr (name : KeyAttr) (k : Key) (s : RID) : RID :=
  match name with
  | parent_key_attr => set_parent_key k s
  | resource_key_attr => set_resource_key k s
  end.

(** The state after [_ResourceKeyDescriptor.__set__]. *)
Definition after_descriptor_set (name : KeyAttr) (value : PyVal) (st : State) : State :=
  match descriptor_raw value with
  | None => st
  | Some raw =>
      mkState (set_key_attr name (intern raw (cls st)).2 (self st))
              (intern raw (cls st)).1 (_get_object_hook st)
  end.

(** All characters of a string are whitespace. *)
Fixpoint all_space (s : string) : bool :=
  match s with
  | EmptyString => true
  | String c rest => is_space c && all_space rest
  end.

(** ** Sample data for the examples *)

Definition initial : State := mkState empty_dict empty_class [].

Definition obj_X : Obj := mkObj 1000 10.
Definition obj_Y : Obj := mkObj 2000 20.
Definition obj_Z : Obj := mkObj 3000 30.
Definition obj_W : Obj := mkObj 4000 40.

(** [ResourceIdentifier(s)] *)
Definition handle_of (s : string) : M RID :=
  ResourceIdentifier.new (AVal (PStr s)) "smi:local" None PNone "".

(** [h.get_referred_object()] *)
Definition resolve_on (h : RID) : M (option Obj) :=
  let! r := call_on h ResourceIdentifier.get_referred_object in ret r.1.

(** [h.set_referred_object(o)], giving back the handle. *)
Definition bind_on (h : RID) (o : Obj) : M RID :=
  let! r := call_on h (ResourceIdentifier.set_referred_object o true PNone) in ret r.2.

(** The environment drops the object at address [a]. *)
Definition drop_object (a : Z) : M unit :=
  let! c := get_cls in put_cls (gc_object a c).

(** The environment reclaims the key [k]. *)
Definition drop_key (k : Key) : M unit :=
  let! c := get_cls in put_cls (gc_key k c).

(** The handle [ResourceIdentifier("a", parent=7)]. *)
Definition scoped_handle : M RID :=
  ResourceIdentifier.new (AVal (PStr "a")) "smi:local" None (PInt 7) "".

(** The dict of a pickled [ResourceIdentifier("s", parent=...)]: its two keys
    are instances made by the unpickler. *)
Definition persisted : RID :=
  mkRID (Some true) None None (Some "s") (Some 50%positive) (Some 51%positive) None.

(** The handle [ResourceIdentifier("some_id", referred_object=obj_X, parent=7)]. *)
Definition bound_scoped_handle : M RID :=
  ResourceIdentifier.new (AVal (PStr "some_id")) "smi:local" (Some obj_X) (PInt 7) "".

Definition result_or {A} (d : A) (r : Result A) : A :=
  match r with Ok a => a | Raise _ => d end.

(** Two handles of ["s"] bound to [obj_Y] and then to [obj_Z]; [obj_Z] is
    dropped; a third handle of ["s"] is built. *)
Definition stale_tail_scenario : M RID :=
  let! a := handle_of "s" in
  let! b := handle_of "s" in
  let! _ := bind_on a obj_Y in
  let! _ := bind_on b obj_Z in
  let! _ := drop_object (oid obj_Z) in
  handle_of "s".

(** The state the third handle is in after [stale_tail_scenario]. *)
Definition stale_tail_state : State :=
  let r := stale_tail_scenario initial in
  mkState (result_or empty_dict r.2) (cls r.1) [].

(** Two handles of ["s"]; the second is bound to [obj_Y], then the first to
    [obj_X]; the second is resolved. *)
Definition two_bound_handles : M (option Obj) :=
  let! a := handle_of "s" in
  let! b := handle_of "s" in
  let! b := bind_on b obj_Y in
  let! _ := bind_on a obj_X in
  resolve_on b.

(** [a = ResourceIdentifier("s"); a.set_referred_object(obj_X); del a;
    ResourceIdentifier("s").get_referred_object()]: once [a] is gone nothing
    holds the key of ["s"], and the weak tables drop it with its rows. *)
Definition reclaimed_key_scenario : M (option Obj) :=
  let! a := handle_of "s" in
  let! a := bind_on a obj_X in
  let! _ := drop_key (default 1%positive (_resource_key__ a)) in
  let! b := handle_of "s" in
  resolve_on b.

(** A hook that re-enters the registry: it builds [obj_Y] behind a handle of
    the requested id, and answers with [obj_X]. *)
Definition reentrant_hook : Hook :=
  fun i c =>
    let st := mkState empty_dict c [] in
    let r := ResourceIdentifier.new (AVal (pyval_of_id i)) "smi:local" (Some obj_Y) PNone "" st in
    (cls r.1, Some obj_X).

(** An instance of the interpreter's hash, for the examples. *)
Definition sample_hash (i : PyId) : Z :=
  match i with
  | Some s => Z.of_nat (String.length s)
  | None => 0
  end.

(** ** More on strings and the grammar *)

(** Every character of a string satisfies [p]. *)
Fixpoint all_chars (p : ascii -> bool) (s : string) : bool :=
  match s with
  | EmptyString => true
  | String c rest => p c && all_chars p rest
  end.

(** The derivative by a whole string. *)
Fixpoint deriv_string (s : string) (r : regex) : regex :=
  match s with
  | EmptyString => r
  | String c rest => deriv_string rest (deriv c r)
  end.

(** The three tables of the class state are those of [c0]. *)
Definition same_tables (c0 c : ClassState) : Prop :=
  _parent_id_tree c = _parent_id_tree c0
  /\ _id_order c = _id_order c0
  /\ _id_object_map c = _id_object_map c0.

(** ** Invariants *)

(** The interner holds at most one key per raw value, no key twice, and
    only keys the allocator has handed out. *)
Definition cache_ok (c : ClassState) : Prop :=
  (forall raw k, _singleton_cache c !! raw = Some k -> (k < next_key c)%positive)
  /\ (forall r1 r2 k, _singleton_cache c !! r1 = Some k ->
                     _singleton_cache c !! r2 = Some k -> r1 = r2).

(** Every row of the object map is keyed by the address of its object. *)
Definition map_ok (c : ClassState) : Prop :=
  forall k o, _id_object_map c !! k = Some o -> k.1 = Some (oid o).

(** A hook that leaves the registry as it found it. *)
Definition hook_is_pure (hook : Hook) : Prop :=
  forall i c, (hook i c).1 = c.

(** * Properties *)

Import ResourceIdentifier.

(** ** Running the monad *)

Lemma get_id_run (st : State) : get_id st = (st, id_value (self st)).
Proof.
  unfold get_id, id_value, bind, get_self, ret, raise.
  destruct (fixed (self st)) as [[]|]; try reflexivity.
  destruct (_prefix (self st)), (_uuid (self st)); reflexivity.
Qed.

Lemma bind_ok {A B} (m : M A) (f : A -> M B) (st st' : State) (a : A) :
  m st = (st', Ok a) -> bind m f st = f a st'.
Proof. intros H. unfold bind. rewrite H. reflexivity. Qed.

Lemma bind_raise {A B} (m : M A) (f : A -> M B) (st st' : State) (e : Exn) :
  m st = (st', Raise e) -> bind m f st = (st', Raise e).
Proof. intros H. unfold bind. rewrite H. reflexivity. Qed.

Lemma get_id_ok (st : State) (i : PyId) :
  id_value (self st) = Ok i -> get_id st = (st, Ok i).
Proof. intros H. rewrite get_id_run, H. reflexivity. Qed.

Lemma dict_update_empty (s : RID) : dict_update empty_dict s = s.
Proof. destruct s as [f p u i r k o]. unfold dict_update, or_else. simpl.
  destruct f, p, u, i, r, k, o; reflexivity. Qed.

(** ** The id setter *)

(** C10. Assigning a value that is not a string to [id] raises [TypeError],
    but the [fixed] flag is already [True] by then: a handle that was
    generated from a prefix and a token reports [None] as its id
    afterwards, where it reported prefix and token before. *)
Theorem C10_failed_id_assignment_not_atomic
    (s : RID) (c : ClassState) (hooks : list Hook) (p u : string) (value : PyVal) :
  fixed s = Some false -> _prefix s = Some p -> _uuid s = Some u -> id_ s = None ->
  (forall v, value <> PStr v) ->
  let st := mkState s c hooks in
  let st' := (set_id value st).1 in
  (get_id st).2 = Ok (Some ((if endswith_slash p then p else p +:+ "/") +:+ u))
  /\ (set_id value st).2 = Raise TypeError
  /\ st' = mkState (set_fixed true s) c hooks
  /\ fixed (self st') = Some true
  /\ (get_id st').2 = Ok None.
Proof.
  intros Hf Hp Hu Hi Hv st st'.
  assert (Hrun : set_id value st = (mkState (set_fixed true s) c hooks, Raise TypeError)).
  { unfold set_id, bind, get_self, put_self, raise; simpl.
    destruct value; try reflexivity. exfalso. eapply Hv. reflexivity. }
  subst st'. rewrite Hrun. rewrite !get_id_run. subst st.
  unfold id_value. cbn [fst snd self fixed set_fixed id_].
  rewrite Hf, Hp, Hu, Hi. repeat split.
Qed.

Lemma C10_witness :
  let s := mkRID (Some false) (Some "smi:local") (Some "tok") None (Some 1%positive) None None in
  let st := mkState s empty_class [] in
  (get_id st).2 = Ok (Some "smi:local/tok")
  /\ (set_id (PInt 5) st).2 = Raise TypeError
  /\ (get_id (set_id (PInt 5) st).1).2 = Ok None.
Proof.
  intros s st.
  destruct (C10_failed_id_assignment_not_atomic s empty_class [] "smi:local" "tok" (PInt 5))
    as (H1 & H2 & _ & _ & H5); try reflexivity.
  - intros v. discriminate.
  - split; [exact H1 | split; [exact H2 | exact H5]].
Defined.

(** ** The interner and the key descriptor *)

Lemma state_eta (st : State) : mkState (self st) (cls st) (_get_object_hook st) = st.
Proof. destruct st; reflexivity. Qed.

Lemma get_resource_key_run (raw : Raw) (st : State) :
  _ResourceKey.get_resource_key raw st
  = (mkState (self st) (intern raw (cls st)).1 (_get_object_hook st),
     Ok (intern raw (cls st)).2).
Proof.
  unfold _ResourceKey.get_resource_key, intern, bind, get_cls, put_cls, ret.
  destruct (_singleton_cache (cls st) !! raw); simpl.
  - rewrite state_eta. reflexivity.
  - reflexivity.
Qed.

Lemma descriptor_set_run (name : KeyAttr) (value : PyVal) (st : State) :
  _ResourceKeyDescriptor.__set__ name value st
  = (after_descriptor_set name value st, Ok tt).
Proof.
  unfold _ResourceKeyDescriptor.__set__, after_descriptor_set.
  destruct value; simpl; try reflexivity;
    (erewrite bind_ok by apply get_resource_key_run);
    unfold _ResourceKeyDescriptor.setattr, bind, get_self, put_self;
    destruct name; reflexivity.
Qed.

Lemma intern_tables (raw : Raw) (c : ClassState) :
  _parent_id_tree (intern raw c).1 = _parent_id_tree c
  /\ _id_order (intern raw c).1 = _id_order c
  /\ _id_object_map (intern raw c).1 = _id_object_map c
  /\ warnings (intern raw c).1 = warnings c.
Proof. unfold intern. destruct (_singleton_cache c !! raw); simpl; repeat split. Qed.

Lemma call_on_ok {A} (h : RID) (m : M A) (st st' : State) (a : A) :
  m (mkState h (cls st) (_get_object_hook st)) = (st', Ok a) ->
  call_on h m st = (mkState (self st) (cls st') (_get_object_hook st'), Ok (a, self st')).
Proof. intros H. unfold call_on. rewrite H. reflexivity. Qed.

Lemma call_on_raise {A} (h : RID) (m : M A) (st st' : State) (e : Exn) :
  m (mkState h (cls st) (_get_object_hook st)) = (st', Raise e) ->
  call_on h m st = (mkState (self st) (cls st') (_get_object_hook st'), Raise e).
Proof. intros H. unfold call_on. rewrite H. reflexivity. Qed.

Lemma intern_lookup (raw : Raw) (c : ClassState) :
  _singleton_cache (intern raw c).1 !! raw = Some (intern raw c).2.
Proof.
  unfold intern. destruct (_singleton_cache c !! raw) eqn:E; simpl.
  - exact E.
  - apply lookup_insert_eq.
Qed.

Lemma intern_keeps (raw r : Raw) (k : Key) (c : ClassState) :
  _singleton_cache c !! r = Some k -> _singleton_cache (intern raw c).1 !! r = Some k.
Proof.
  intros H. unfold intern. destruct (_singleton_cache c !! raw) eqn:E; simpl.
  - exact H.
  - rewrite lookup_insert_ne; [exact H|]. intros ->. rewrite E in H. discriminate H.
Qed.

Lemma intern_hit (raw : Raw) (k : Key) (c : ClassState) :
  _singleton_cache c !! raw = Some k -> intern raw c = (c, k).
Proof. intros H. unfold intern. rewrite H. reflexivity. Qed.

(** The constructor on an id string, no referred object. *)
Lemma init_of_string (s prefix : string) (parent : PyVal) (u : string)
    (c : ClassState) (hooks : list Hook) :
  exists c' h,
    __init__ (AVal (PStr s)) prefix None parent u (mkState empty_dict c hooks)
    = (mkState h c' hooks, Ok tt)
    /\ id_value h = Ok (Some s)
    /\ _resource_key__ h = Some (intern (RStr s) c).2
    /\ _object_id h = None
    /\ _singleton_cache c' !! RStr s = Some (intern (RStr s) c).2.
Proof.
  unfold __init__.
  set (st0 := mkState empty_dict c hooks).
  assert (H1 : (let! s0 := get_self in
                let! _ := put_self (set_fixed true s0) in set_id (PStr s)) st0
               = (mkState (set_id_ s (set_fixed true (set_fixed true empty_dict)))
                          c hooks, Ok tt)) by reflexivity.
  rewrite (bind_ok _ _ _ _ _ H1).
  erewrite bind_ok by (apply get_id_ok; reflexivity).
  simpl pyval_of_id.
  erewrite bind_ok by apply descriptor_set_run.
  erewrite bind_ok by apply descriptor_set_run.
  unfold after_descriptor_set. simpl.
  destruct (descriptor_raw parent) as [raw|]; simpl; eexists _, _;
    (split; [reflexivity|]); repeat split.
  - apply intern_keeps, intern_lookup.
  - apply intern_lookup.
Qed.

(** A handle built from an id string: the run of [ResourceIdentifier(s)]. *)
Lemma new_of_string (s prefix : string) (parent : PyVal) (u : string) (st : State) :
  exists st' h,
    new (AVal (PStr s)) prefix None parent u st = (st', Ok h)
    /\ id_value h = Ok (Some s)
    /\ _resource_key__ h = Some (intern (RStr s) (cls st)).2
    /\ _object_id h = None
    /\ self st' = self st
    /\ _get_object_hook st' = _get_object_hook st.
Proof.
  destruct (init_of_string s prefix parent u (cls st) (_get_object_hook st))
    as (c' & h & Hrun & Hid & Hrk & Hoid & _).
  unfold new. erewrite bind_ok by (apply call_on_ok, Hrun).
  eexists _, h. repeat split; assumption.
Qed.

(** ** Equality and hash *)

Lemma call_on_get_id (h : RID) (i : PyId) (st : State) :
  id_value h = Ok i -> call_on h get_id st = (st, Ok (i, h)).
Proof.
  intros H. erewrite call_on_ok by (apply get_id_ok; exact H).
  simpl. rewrite state_eta. reflexivity.
Qed.

Lemma eq_handle_run (h : RID) (i : PyId) (st : State) :
  id_value (self st) = Ok i -> id_value h = Ok i ->
  __eq__ (AHandle h) st = (st, Ok true).
Proof.
  intros Hs Hh. unfold __eq__.
  erewrite bind_ok by (apply get_id_ok; exact Hs).
  unfold id_eq.
  erewrite bind_ok; cycle 1.
  { erewrite bind_ok by (apply call_on_get_id; exact Hh). reflexivity. }
  simpl. rewrite bool_decide_eq_true_2 by reflexivity. reflexivity.
Qed.

Lemma eq_string_run (s : string) (st : State) :
  id_value (self st) = Ok (Some s) ->
  __eq__ (AVal (PStr s)) st = (st, Ok true).
Proof.
  intros Hs. unfold __eq__.
  erewrite bind_ok by (apply get_id_ok; exact Hs).
  unfold id_eq, bind, ret. rewrite bool_decide_eq_true_2 by reflexivity. reflexivity.
Qed.

Lemma hash_run (py_hash : PyId -> Z) (i : PyId) (st : State) :
  id_value (self st) = Ok i ->
  __hash__ py_hash st = (st, Ok (py_hash (Some "RESOURCE_ID") + py_hash i)).
Proof.
  intros Hs. unfold __hash__.
  erewrite bind_ok by (apply get_id_ok; exact Hs). reflexivity.
Qed.

(** The value [__hash__] returns on a handle of id [s] is the hash of [s]
    exactly when the salt hashes to 0. *)
Lemma salted_hash_differs (py_hash : PyId -> Z) (s : string) (h : RID) (w : State) :
  id_value h = Ok (Some s) ->
  (call_on h (__hash__ py_hash) w).2 = Ok (py_hash (Some s), h)
  <-> py_hash (Some "RESOURCE_ID") = 0.
Proof.
  intros Hid.
  erewrite call_on_ok by (apply (hash_run py_hash (Some s)); exact Hid).
  cbn [snd self]. split.
  - intros [= E]. lia.
  - intros E. rewrite E. reflexivity.
Qed.

(** C9, as the code has it. Two handles constructed with the id [s] compare
    equal to each other and to the string [s], and hash identically; the
    value [__hash__] returns is the hash of the salt ["RESOURCE_ID"] plus
    the hash of [s], and it is not the hash of [s] itself whenever the hash
    of the salt is not 0. *)
Theorem C9_equal_by_id_and_salted_hash
    (py_hash : PyId -> Z) (s prefix1 prefix2 : string) (parent1 parent2 : PyVal)
    (u1 u2 : string) (st : State) :
  exists st1 h1 st2 h2,
    new (AVal (PStr s)) prefix1 None parent1 u1 st = (st1, Ok h1)
    /\ new (AVal (PStr s)) prefix2 None parent2 u2 st1 = (st2, Ok h2)
    /\ forall w : State,
        (call_on h1 (__eq__ (AHandle h2)) w).2 = Ok (true, h1)
        /\ (call_on h2 (__eq__ (AHandle h1)) w).2 = Ok (true, h2)
        /\ (call_on h1 (__eq__ (AVal (PStr s))) w).2 = Ok (true, h1)
        /\ (call_on h2 (__eq__ (AVal (PStr s))) w).2 = Ok (true, h2)
        /\ (call_on h1 (__hash__ py_hash) w).2
           = Ok (py_hash (Some "RESOURCE_ID") + py_hash (Some s), h1)
        /\ (call_on h2 (__hash__ py_hash) w).2
           = Ok (py_hash (Some "RESOURCE_ID") + py_hash (Some s), h2)
        /\ (py_hash (Some "RESOURCE_ID") <> 0 ->
            (call_on h1 (__hash__ py_hash) w).2 <> Ok (py_hash (Some s), h1)
            /\ (call_on h2 (__hash__ py_hash) w).2 <> Ok (py_hash (Some s), h2)).
Proof.
  destruct (new_of_string s prefix1 parent1 u1 st) as (st1 & h1 & Hn1 & Hid1 & _).
  destruct (new_of_string s prefix2 parent2 u2 st1) as (st2 & h2 & Hn2 & Hid2 & _).
  exists st1, h1, st2, h2. split; [exact Hn1|]. split; [exact Hn2|].
  intros w.
  split. { erewrite call_on_ok by (apply (eq_handle_run h2 (Some s)); assumption). reflexivity. }
  split. { erewrite call_on_ok by (apply (eq_handle_run h1 (Some s)); assumption). reflexivity. }
  split. { erewrite call_on_ok by (apply eq_string_run; assumption). reflexivity. }
  split. { erewrite call_on_ok by (apply eq_string_run; assumption). reflexivity. }
  split. { erewrite call_on_ok by (apply (hash_run py_hash (Some s)); assumption). reflexivity. }
  split. { erewrite call_on_ok by (apply (hash_run py_hash (Some s)); assumption). reflexivity. }
  intros Hsalt. split.
  - intros E. apply Hsalt. apply (salted_hash_differs py_hash s h1 w Hid1). exact E.
  - intros E. apply Hsalt. apply (salted_hash_differs py_hash s h2 w Hid2). exact E.
Qed.

Lemma C9_witness :
  exists st1 h1,
    handle_of "foo" initial = (st1, Ok h1)
    /\ (call_on h1 (__hash__ sample_hash) st1).2 = Ok (14, h1)
    /\ (call_on h1 (__hash__ sample_hash) st1).2 <> Ok (3, h1).
Proof.
  destruct (C9_equal_by_id_and_salted_hash sample_hash "foo" "smi:local" "smi:local"
              PNone PNone "" "" initial)
    as (st1 & h1 & st2 & h2 & Hn1 & _ & H).
  destruct (H st1) as (_ & _ & _ & _ & Hh1 & _ & Hne).
  exists st1, h1. split; [exact Hn1|]. split; [exact Hh1|].
  apply Hne. vm_compute. discriminate.
Defined.

(** C9 as stated fails: the hash of a handle is not the hash of its id
    string. No hash that is not 0 on the salt satisfies the claim
    ([salted_hash_differs]); [sample_hash] is one such hash, with which the
    handle of ["foo"] hashes to 14 and the string to 3. *)
Lemma C9_hash_differs_from_string_hash :
  ~ (forall (py_hash : PyId -> Z) (s : string) (st st' : State) (h : RID),
        handle_of s st = (st', Ok h) ->
        (call_on h (__hash__ py_hash) st').2 = Ok (py_hash (Some s), h)).
Proof.
  intros H.
  destruct (new_of_string "foo" "smi:local" PNone "" initial) as (st' & h & Hn & Hid & _).
  specialize (H sample_hash "foo" initial st' h Hn).
  apply (salted_hash_differs sample_hash "foo" h st' Hid) in H.
  vm_compute in H. discriminate H.
Qed.

(** ** Whitespace and the URI grammar *)

Lemma fullmatch_Void (s : string) : fullmatch Void s = false.
Proof. induction s as [|c s IH]; simpl; [reflexivity | exact IH]. Qed.

Lemma lstrip_empty (s : string) : lstrip s = "" <-> all_space s = true.
Proof.
  induction s as [|c s IH]; simpl.
  - split; reflexivity.
  - destruct (is_space c); simpl; [exact IH | split; discriminate].
Qed.

Lemma all_space_lstrip (s : string) : all_space (lstrip s) = all_space s.
Proof.
  induction s as [|c s IH]; simpl; [reflexivity|].
  destruct (is_space c) eqn:E; simpl; [exact IH | rewrite E; reflexivity].
Qed.

Lemma all_space_rev_onto (s acc : string) :
  all_space (string_rev_onto s acc) = (all_space s && all_space acc)%bool.
Proof.
  revert acc. induction s as [|c s IH]; intros acc; simpl; [reflexivity|].
  rewrite IH. simpl. destruct (is_space c), (all_space s); reflexivity.
Qed.

Lemma string_rev_onto_empty (s acc : string) :
  string_rev_onto s acc = "" -> s = "" /\ acc = "".
Proof.
  revert acc. induction s as [|c s IH]; intros acc H; simpl in H.
  - split; [reflexivity | exact H].
  - apply IH in H. destruct H as [_ H]. discriminate H.
Qed.

(** [s.strip() == ""] says that [s] is empty or whitespace only. *)
Lemma strip_blank (s : string) : String.eqb (strip s) "" = all_space s.
Proof.
  unfold strip, rstrip, string_rev.
  destruct (all_space s) eqn:E.
  - apply String.eqb_eq.
    assert (H : lstrip (string_rev_onto (lstrip s) "") = "").
    { apply lstrip_empty. rewrite all_space_rev_onto, all_space_lstrip, E. reflexivity. }
    rewrite H. reflexivity.
  - apply String.eqb_neq. intros H.
    apply string_rev_onto_empty in H. destruct H as [H _].
    apply lstrip_empty in H.
    rewrite all_space_rev_onto, all_space_lstrip, E in H. discriminate H.
Qed.

Lemma space_never_starts_a_uri (c : ascii) :
  is_space c = true ->
  deriv c (Seq quakeml_regex (Alt Eps (chr newline))) = Void.
Proof.
  destruct c as [b0 b1 b2 b3 b4 b5 b6 b7].
  destruct b0, b1, b2, b3, b4, b5, b6, b7;
    intros H; vm_compute in H; try discriminate H; vm_compute; reflexivity.
Qed.

(** A string of the grammar is not blank. *)
Lemma conforming_not_blank (s : string) :
  re_match_anchored quakeml_regex s = true -> all_space s = false.
Proof.
  unfold re_match_anchored. destruct s as [|c s]; intros H.
  - vm_compute in H. discriminate H.
  - simpl. destruct (is_space c) eqn:E; [|reflexivity].
    cbn [fullmatch] in H. rewrite (space_never_starts_a_uri c E), fullmatch_Void in H.
    discriminate H.
Qed.

(** C8. [get_quakeml_uri_str] leaves the state, and so the handle's id,
    as it was. An id of the grammar is returned unchanged; otherwise the id
    prefixed with [smi:authority/] is returned when that string is of the
    grammar, and [ValueError] is raised when it is not. A blank id (empty or
    whitespace only) is replaced by the fresh token [uuid4] before any of
    this, and whatever is returned is of the grammar. *)
Theorem C8_quakeml_uri_str
    (st : State) (authority_id uuid4 : string) (i : PyId) :
  id_value (self st) = Ok i ->
  let conforms := re_match_anchored quakeml_regex in
  let id := if all_space (py_str i) then Some uuid4 else i in
  let prefixed := "smi:" +:+ authority_id +:+ "/" +:+ py_str id in
  let out := get_quakeml_uri_str authority_id uuid4 st in
  out.1 = st
  /\ (conforms (py_str i) = true -> out.2 = Ok i)
  /\ (conforms (py_str id) = true -> out.2 = Ok id)
  /\ (conforms (py_str id) = false -> conforms prefixed = true -> out.2 = Ok (Some prefixed))
  /\ (conforms (py_str id) = false -> conforms prefixed = false -> out.2 = Raise ValueError)
  /\ (forall r, out.2 = Ok r -> conforms (py_str r) = true).
Proof.
  intros Hid conforms id prefixed out.
  assert (Hout : out = (st, if conforms (py_str id) then Ok id
                            else if conforms prefixed then Ok (Some prefixed)
                                 else Raise ValueError)).
  { subst out. unfold get_quakeml_uri_str.
    erewrite bind_ok by (apply get_id_ok; exact Hid).
    rewrite strip_blank. fold id. fold conforms.
    destruct (conforms (py_str id)); [reflexivity|].
    fold prefixed. destruct (conforms prefixed); reflexivity. }
  rewrite Hout. cbn [fst snd]. split; [reflexivity|].
  split.
  { intros Hc. subst id. rewrite (conforming_not_blank _ Hc), Hc. reflexivity. }
  split.
  { intros Hc. rewrite Hc. reflexivity. }
  split.
  { intros Hc Hp. rewrite Hc, Hp. reflexivity. }
  split.
  { intros Hc Hp. rewrite Hc, Hp. reflexivity. }
  intros r. destruct (conforms (py_str id)) eqn:Hc.
  - intros [= <-]. exact Hc.
  - destruct (conforms prefixed) eqn:Hp; [|discriminate].
    intros [= <-]. exact Hp.
Qed.

Lemma C8_witness :
  let h := mkRID (Some true) None None (Some "some_id") (Some 1%positive) None None in
  let st := mkState h empty_class [] in
  (get_quakeml_uri_str "local" "tok" st).1 = st
  /\ (get_quakeml_uri_str "local" "tok" st).2 = Ok (Some "smi:local/some_id").
Proof.
  intros h st.
  destruct (C8_quakeml_uri_str st "local" "tok" (Some "some_id") eq_refl)
    as (H1 & _ & _ & H4 & _).
  split; [exact H1|]. apply H4; vm_compute; reflexivity.
Defined.

(** ** Copy, state restore and the key descriptor *)


(** A copy has the dict of the original, entry for entry. *)
Lemma deepcopy_run (st : State) : __deepcopy__ st = (st, Ok (self st)).
Proof.
  unfold __deepcopy__, bind, get_self, call_on, ret. simpl.
  rewrite dict_update_empty, state_eta. reflexivity.
Qed.

(** C5, on the code. A copy has the dict of the original, entry for entry:
    the same ResourceKey and also the same ParentKey. For
    [ResourceIdentifier("a", parent=7)] the ParentKey of the copy is the key
    of the original, not [None]: the assignment [new._parent_key = None]
    goes through the key descriptor, which stores nothing for [None]. *)
Theorem C5_copy_keeps_parent_key :
  (forall st : State, copy st = (st, Ok (self st)))
  /\ ((let! a := scoped_handle in
       let! r := call_on a copy in
       ret (_resource_key__ a, _parent_key__ a,
            _resource_key__ r.1, _parent_key__ r.1)) initial).2
     = Ok (Some 1%positive, Some 2%positive, Some 1%positive, Some 2%positive).
Proof. split; [exact deepcopy_run | vm_compute; reflexivity]. Qed.


(** C6, on the code. A handle restored from [persisted] keeps the persisted
    ParentKey, and its ResourceKey is not the interned key of ["s"] but a
    key interned for the address of that key. A fresh handle of ["s"] has
    the interned key; an object bound through it resolves through another
    fresh handle and not through the restored one. The same holds when the
    restore comes first and the key of ["s"], which nothing holds any more,
    is reclaimed before the fresh handle is built. *)
Theorem C6_restored_handle_is_not_reinterned :
  ((let! fresh := handle_of "s" in
    let! r := call_on empty_dict (__setstate__ persisted) in
    let restored := r.2 in
    let! fresh := bind_on fresh obj_X in
    let! other := handle_of "s" in
    let! via_other := resolve_on other in
    let! via_restored := resolve_on restored in
    ret (_parent_key__ restored, _resource_key__ restored, _resource_key__ fresh,
         _resource_key__ other, via_other, via_restored)) initial).2
  = Ok (Some 51%positive, Some 2%positive, Some 1%positive, Some 1%positive,
        Some obj_X, None)
  /\ ((let! r := call_on empty_dict (__setstate__ persisted) in
       let restored := r.2 in
       let! _ := drop_key 1%positive in
       let! fresh := handle_of "s" in
       let! fresh := bind_on fresh obj_X in
       let! via_restored := resolve_on restored in
       ret (_parent_key__ restored, _resource_key__ restored, _resource_key__ fresh,
            via_restored)) initial).2
     = Ok (Some 51%positive, Some 2%positive, Some 3%positive, None).
Proof. split; vm_compute; reflexivity. Qed.

(** C7, on the code. [get_quakeml_id()] of a handle bound to [obj_X] in the
    scope of parent 7: the new handle has the id ["smi:local/some_id"],
    resolves to [obj_X] and the bind adds no warning; its ParentKey is not
    the ParentKey of the original (key 2) but a key interned for the address
    of that key (key 4), and its row of the parent tree is under that key. *)
Theorem C7_quakeml_id_rescopes :
  ((let! a := bound_scoped_handle in
    let! before := get_cls in
    let! r := call_on a (get_quakeml_id "local" "" "") in
    let rid := r.1 in
    let! after := get_cls in
    let! o := resolve_on rid in
    ret (id_value rid, o, emitted before after,
         _parent_key__ a, _parent_key__ rid,
         tree_row after 2%positive 3%positive,
         tree_row after 4%positive 3%positive)) initial).2
  = Ok (Ok (Some "smi:local/some_id"), Some obj_X, [],
        Some 2%positive, Some 4%positive,
        None, Some (Some 1000, Some "smi:local/some_id")).
Proof. vm_compute. reflexivity. Qed.

(** ** Hooks *)

(** C4, on the code. With [reentrant_hook] registered, resolving a fresh
    handle of ["s"] calls the hook, returns the hook's object and binds it
    with the default [warn=True]: the bind finds the object the hook left
    under the same id, which is not equal, and adds a rebinding warning. *)
Theorem C4_hook_bind_warns :
  ((let! _ := register_get_object_hook reentrant_hook in
    let! b := handle_of "s" in
    let! before := get_cls in
    let! r := call_on b get_referred_object in
    let! after := get_cls in
    ret (r.1, _object_id r.2, emitted before after)) initial).2
  = Ok (Some obj_X, Some 1000, [RebindingConflict (Some "s")]).
Proof. vm_compute. reflexivity. Qed.

(** ** Binding *)

Ltac mstep tac := erewrite bind_ok by tac.
Ltac mprim := erewrite bind_ok by reflexivity.

Section Binding.

Variable st : State.
Variable rk : Key.
Variable i : PyId.
Hypothesis Hrk : _resource_key__ (self st) = Some rk.
Hypothesis Hid : id_value (self st) = Ok i.

Lemma object_key_run : _object_key st = (st, Ok (_object_id (self st), i)).
Proof.
  unfold _object_key. mprim. mstep ltac:(apply get_id_ok; exact Hid). reflexivity.
Qed.

Lemma resource_key_run : _resource_key st = (st, Ok (Some rk)).
Proof. unfold _resource_key, bind, get_self, ret. simpl. rewrite Hrk. reflexivity. Qed.

Lemma last_bound_run : last_bound st = (st, Ok (old_of (cls st) (self st) i)).
Proof.
  unfold last_bound, old_of.
  mstep ltac:(apply object_key_run). mprim.
  destruct (_id_object_map (cls st) !! (_object_id (self st), i)) as [o|]; [reflexivity|].
  rewrite Hrk. simpl.
  unfold try_except.
  mstep ltac:(apply resource_key_run).
  unfold weak_getitem.
  destruct (_id_order (cls st) !! rk) as [l|]; simpl; [|reflexivity].
  mprim. unfold list_last_item.
  destruct (last l) as [k|]; simpl; [|reflexivity].
  mprim.
  destruct (_id_object_map (cls st) !! k); reflexivity.
Qed.

Lemma warn_if_rebinding_run (warn_ : bool) (old : option Obj) (o : Obj) :
  warn_if_rebinding warn_ old o st
  = (if conflict warn_ old o
     then mkState (self st) (add_warning (RebindingConflict i) (cls st)) (_get_object_hook st)
     else st, Ok tt).
Proof.
  unfold warn_if_rebinding, conflict.
  destruct old as [x|]; [|reflexivity].
  destruct (warn_ && py_ne x o)%bool; [|reflexivity].
  mstep ltac:(apply get_id_ok; exact Hid). reflexivity.
Qed.

End Binding.

Lemma same_but_parent_id (s s' : RID) : same_but_parent s s' -> id_value s' = id_value s.
Proof.
  intros (Hf & Hp & Hu & Hi & _). unfold id_value. rewrite Hf, Hp, Hu, Hi. reflexivity.
Qed.

Lemma same_but_parent_refl (s : RID) : same_but_parent s s.
Proof. repeat split. Qed.

Lemma same_rows_refl (c : ClassState) : same_rows c c.
Proof. repeat split. Qed.

Lemma parent_key_run (st : State) : _parent_key st = (st, Ok (_parent_key__ (self st))).
Proof. reflexivity. Qed.

Lemma write_scope_row_run (st : State) (rk pk : Key) (i : PyId) :
  _resource_key__ (self st) = Some rk -> id_value (self st) = Ok i ->
  _parent_key__ (self st) = Some pk ->
  exists c', write_scope_row st = (mkState (self st) c' (_get_object_hook st), Ok tt)
             /\ same_rows (cls st) c'.
Proof.
  intros Hrk Hid Hpk. unfold write_scope_row.
  mstep ltac:(apply parent_key_run). rewrite Hpk. mprim.
  unfold weak_contains.
  destruct (_parent_id_tree (cls st) !! pk) as [inner|] eqn:Hin.
  - rewrite bool_decide_eq_true_2 by eauto. simpl negb. cbv iota.
    mprim. mprim.
    mstep ltac:(eapply object_key_run; eassumption).
    unfold weak_getitem. rewrite Hin. mprim.
    mstep ltac:(eapply resource_key_run; eassumption).
    mprim. mprim. mprim.
    eexists. split; [reflexivity|]. repeat split.
  - rewrite bool_decide_eq_false_2 by (intros [? ?]; discriminate). simpl negb. cbv iota.
    mprim. mprim.
    mstep ltac:(eapply object_key_run; eassumption).
    unfold weak_getitem, weak_setitem. rewrite lookup_insert_eq. mprim.
    mstep ltac:(eapply resource_key_run; eassumption).
    mprim. mprim. mprim.
    eexists. split; [reflexivity|]. repeat split.
Qed.

Lemma after_descriptor_set_frame (name : KeyAttr) (value : PyVal) (st : State) :
  same_rows (cls st) (cls (after_descriptor_set name value st))
  /\ _get_object_hook (after_descriptor_set name value st) = _get_object_hook st.
Proof.
  unfold after_descriptor_set.
  destruct (descriptor_raw value) as [raw|]; simpl.
  - destruct (intern_tables raw (cls st)) as (_ & H2 & H3 & H4). repeat split; assumption.
  - repeat split.
Qed.

Lemma scope_to_parent_run (st : State) (rk : Key) (i : PyId) (parent : PyVal) :
  _resource_key__ (self st) = Some rk -> id_value (self st) = Ok i ->
  exists st', scope_to_parent parent st = (st', Ok tt)
              /\ same_rows (cls st) (cls st')
              /\ same_but_parent (self st) (self st')
              /\ _get_object_hook st' = _get_object_hook st.
Proof.
  intros Hrk Hid. unfold scope_to_parent.
  mstep ltac:(apply parent_key_run).
  destruct parent as [|z|s|k|o].
  1: { cbn [negb is_none orb]. destruct (_parent_key__ (self st)) as [pk|] eqn:Hpk.
       - rewrite bool_decide_eq_true_2 by eauto. mprim.
         destruct (write_scope_row_run st rk pk i Hrk Hid Hpk) as (c' & Hrun & Hrows).
         rewrite Hrun. eexists. split; [reflexivity|].
         split; [exact Hrows|]. split; [apply same_but_parent_refl | reflexivity].
       - rewrite bool_decide_eq_false_2 by (intros [? ?]; discriminate).
         eexists. split; [reflexivity|].
         split; [apply same_rows_refl|]. split; [apply same_but_parent_refl | reflexivity]. }
  all: cbn [negb is_none orb];
    mstep ltac:(apply descriptor_set_run);
    match goal with
    | |- context [after_descriptor_set ?n ?v ?s0] =>
        destruct (after_descriptor_set_frame n v s0) as (Hrows1 & Hhooks1);
        set (st1 := after_descriptor_set n v s0) in *;
        assert (Hself : same_but_parent (self st) (self st1)) by (repeat split);
        assert (Hpk1 : exists pk, _parent_key__ (self st1) = Some pk) by (eexists; reflexivity)
    end;
    destruct Hpk1 as (pk & Hpk1);
    assert (Hrk1 : _resource_key__ (self st1) = Some rk)
      by (destruct Hself as (_ & _ & _ & _ & -> & _); exact Hrk);
    assert (Hid1 : id_value (self st1) = Ok i)
      by (rewrite (same_but_parent_id _ _ Hself); exact Hid);
    destruct (write_scope_row_run st1 rk pk i Hrk1 Hid1 Hpk1) as (c' & Hrun & Hrows);
    rewrite Hrun; eexists; (split; [reflexivity|]); simpl;
    (split; [|split; [exact Hself | exact Hhooks1]]);
    destruct Hrows1 as (A1 & A2 & A3); destruct Hrows as (B1 & B2 & B3);
    repeat split; congruence.
Qed.

Lemma record_assignment_run (st : State) (rk : Key) (i : PyId) (o : Obj) :
  _resource_key__ (self st) = Some rk -> id_value (self st) = Ok i ->
  let key := (_object_id (self st), i) in
  record_assignment o st
  = (mkState (self st)
       (set_order (<[rk := default [] (_id_order (cls st) !! rk) ++ [key]]> (_id_order (cls st)))
          (set_map (<[key := o]> (_id_object_map (cls st))) (cls st)))
       (_get_object_hook st), Ok tt).
Proof.
  intros Hrk Hid key. unfold record_assignment.
  mstep ltac:(eapply object_key_run; eassumption). mprim. mprim.
  mstep ltac:(eapply resource_key_run; eassumption). mprim.
  unfold weak_contains. cbn [cls _id_order set_map].
  destruct (_id_order (cls st) !! rk) as [l|] eqn:Hl.
  - rewrite bool_decide_eq_true_2 by eauto. simpl negb. cbv iota.
    mprim. mprim. unfold weak_getitem. rewrite Hl. mprim.
    mstep ltac:(eapply object_key_run; eassumption).
    mprim. mprim. reflexivity.
  - rewrite bool_decide_eq_false_2 by (intros [? ?]; discriminate). simpl negb. cbv iota.
    mprim. mprim. unfold weak_getitem, weak_setitem. rewrite lookup_insert_eq. mprim.
    mstep ltac:(eapply object_key_run; eassumption).
    mprim. mprim. unfold put_cls. simpl. rewrite insert_insert_eq. reflexivity.
Qed.

(** What [set_referred_object] does to a handle that has its resource key
    and a readable id: it never raises, the object map gets the row of the
    new CompositeKey, the assignment order of the key gets that CompositeKey
    appended, and at most the rebinding warning is added to the log. *)
Lemma set_referred_object_run (st : State) (rk : Key) (i : PyId)
    (o : Obj) (warn_ : bool) (parent : PyVal) :
  _resource_key__ (self st) = Some rk -> id_value (self st) = Ok i ->
  exists st',
    set_referred_object o warn_ parent st = (st', Ok tt)
    /\ _id_object_map (cls st') = <[(Some (oid o), i) := o]> (_id_object_map (cls st))
    /\ _id_order (cls st')
       = <[rk := default [] (_id_order (cls st) !! rk) ++ [(Some (oid o), i)]]>
           (_id_order (cls st))
    /\ warnings (cls st')
       = warnings (cls st)
         ++ (if conflict warn_ (old_of (cls st) (self st) i) o
             then [RebindingConflict i] else [])
    /\ _get_object_hook st' = _get_object_hook st
    /\ _object_id (self st') = Some (oid o)
    /\ _resource_key__ (self st') = Some rk
    /\ id_value (self st') = Ok i.
Proof.
  intros Hrk Hid. unfold set_referred_object.
  mstep ltac:(eapply last_bound_run; eassumption).
  mstep ltac:(eapply warn_if_rebinding_run; eassumption).
  set (b := conflict warn_ (old_of (cls st) (self st) i) o).
  set (st1 := if b then _ else st).
  assert (H1 : self st1 = self st /\ _get_object_hook st1 = _get_object_hook st
               /\ _id_object_map (cls st1) = _id_object_map (cls st)
               /\ _id_order (cls st1) = _id_order (cls st)
               /\ warnings (cls st1)
                  = warnings (cls st) ++ (if b then [RebindingConflict i] else [])).
  { subst st1. destruct b; simpl; repeat split. rewrite app_nil_r. reflexivity. }
  clearbody st1. destruct H1 as (Hs1 & Hh1 & Hm1 & Ho1 & Hw1).
  mprim. mprim.
  set (st2 := mkState (set_object_id (oid o) (self st1)) (cls st1) (_get_object_hook st1)).
  assert (Hrk2 : _resource_key__ (self st2) = Some rk) by (simpl; rewrite Hs1; exact Hrk).
  assert (Hid2 : id_value (self st2) = Ok i).
  { rewrite <- Hid, <- Hs1. reflexivity. }
  destruct (scope_to_parent_run st2 rk i parent Hrk2 Hid2)
    as (st3 & Hrun3 & (Ho3 & Hm3 & Hw3) & Hself3 & Hh3).
  mstep ltac:(exact Hrun3).
  assert (Hrk3 : _resource_key__ (self st3) = Some rk).
  { destruct Hself3 as (_ & _ & _ & _ & -> & _). exact Hrk2. }
  assert (Hid3 : id_value (self st3) = Ok i).
  { rewrite (same_but_parent_id _ _ Hself3). exact Hid2. }
  assert (Hoid3 : _object_id (self st3) = Some (oid o)).
  { destruct Hself3 as (_ & _ & _ & _ & _ & ->). reflexivity. }
  rewrite (record_assignment_run st3 rk i o Hrk3 Hid3).
  eexists. split; [reflexivity|]. cbn [cls self _get_object_hook set_order set_map
    _id_object_map _id_order warnings].
  rewrite Hoid3, Hm3, Ho3, Hw3, Hh3. subst st2. cbn [cls _get_object_hook].
  rewrite Hm1, Ho1, Hw1, Hh1.
  repeat split; assumption.
Qed.

Lemma emitted_app (c c' : ClassState) (l : list Warning) :
  warnings c' = warnings c ++ l -> emitted c c' = l.
Proof. intros H. unfold emitted. rewrite H. apply drop_app_length. Qed.

(** C3, as the code has it. [set_referred_object(obj, warn)] adds the
    rebinding warning, and nothing else, exactly when [warn] is set and an
    old object exists that is not equal to [obj]; the old object is the one
    mapped by the handle's own CompositeKey or, if there is none, the one
    mapped by the last entry of the assignment order of the handle's
    ResourceKey, when that entry still resolves. Earlier entries are not
    consulted. *)
Theorem C3_rebinding_warning
    (st : State) (rk : Key) (i : PyId) (o : Obj) (warn_ : bool) (parent : PyVal) :
  _resource_key__ (self st) = Some rk -> id_value (self st) = Ok i ->
  let old := old_of (cls st) (self st) i in
  let out := set_referred_object o warn_ parent st in
  out.2 = Ok tt
  /\ emitted (cls st) (cls out.1)
     = (if conflict warn_ old o then [RebindingConflict i] else [])
  /\ (In (RebindingConflict i) (emitted (cls st) (cls out.1))
      <-> warn_ = true /\ exists x, old = Some x /\ py_ne x o = true).
Proof.
  intros Hrk Hid old out.
  destruct (set_referred_object_run st rk i o warn_ parent Hrk Hid)
    as (st' & Hrun & _ & _ & Hw & _).
  subst out. rewrite Hrun. cbn [fst snd].
  split; [reflexivity|].
  rewrite (emitted_app _ _ _ Hw). fold old.
  split; [reflexivity|].
  unfold conflict. destruct old as [x|]; simpl.
  - destruct warn_; simpl.
    + destruct (py_ne x o) eqn:E; simpl.
      * split; [intros _; split; [reflexivity | exists x; auto]
               | intros _; left; reflexivity].
      * split; [intros [] | intros (_ & y & [= <-] & H); congruence].
    + split; [intros [] | intros (H & _); discriminate H].
  - split; [intros [] | intros (_ & y & H & _); discriminate H].
Qed.

Lemma C3_witness :
  let st := mkState (mkRID (Some true) None None (Some "s") (Some 1%positive) None None)
                    (mkClass ∅ 2%positive ∅ {[ 1%positive := [(Some 2000, Some "s")] ]}
                             {[ (Some 2000, Some "s") := obj_Y ]} [])
                    [] in
  emitted (cls st) (cls (set_referred_object obj_W true PNone st).1)
  = [RebindingConflict (Some "s")].
Proof.
  intros st.
  destruct (C3_rebinding_warning st 1%positive (Some "s") obj_W true PNone eq_refl eq_refl)
    as (_ & H & _).
  exact H.
Defined.

(** C3 as stated fails. After [stale_tail_scenario] the last entry of the
    assignment order is dead and the entry before it is live: the most
    recent live object is [obj_Y], which is not equal to [obj_W], and binding
    [obj_W] with [warn=True] adds no warning. *)
Lemma C3_stale_tail_hides_live_object :
  Spec.old (cls stale_tail_state) (self stale_tail_state) (Some "s") = Some obj_Y
  /\ py_ne obj_Y obj_W = true
  /\ emitted (cls stale_tail_state)
             (cls (set_referred_object obj_W true PNone stale_tail_state).1) = [].
Proof. vm_compute. repeat split. Qed.

(** ** Resolution *)

Lemma stale_ext (c c' : ClassState) (i : PyId) (k : ObjKey) :
  _id_object_map c' = _id_object_map c -> Spec.stale c' i k = Spec.stale c i k.
Proof. intros H. unfold Spec.stale. rewrite H. reflexivity. Qed.

Lemma prune_ext (c c' : ClassState) (i : PyId) (l : list ObjKey) :
  _id_object_map c' = _id_object_map c -> Spec.prune c' i l = Spec.prune c i l.
Proof.
  intros H. induction l as [|k l IH]; simpl; [reflexivity|].
  rewrite IH, (stale_ext c c' i k H). reflexivity.
Qed.

(** Pruning reads the list from its tail. *)
Lemma prune_snoc (c : ClassState) (i : PyId) (l : list ObjKey) (k : ObjKey) :
  Spec.prune c i (l ++ [k]) = if Spec.stale c i k then Spec.prune c i l else l ++ [k].
Proof.
  induction l as [|a l IH]; simpl.
  - destruct (Spec.stale c i k); reflexivity.
  - rewrite IH. destruct (Spec.stale c i k); [reflexivity|].
    destruct (l ++ [k]) eqn:E; [|reflexivity].
    destruct l; discriminate E.
Qed.

Lemma set_order_id (c : ClassState) : set_order (_id_order c) c = c.
Proof. destruct c; reflexivity. Qed.

Lemma pop_run (rk : Key) (rest : list ObjKey) (st : State) :
  pop rk rest st
  = (mkState (self st) (set_order (<[rk := reverse rest]> (_id_order (cls st))) (cls st))
             (_get_object_hook st), Ok tt).
Proof. reflexivity. Qed.

(** The loop of [_get_newest_object_with_same_resource_id] leaves the pruned
    list and returns the object of its last entry. *)
Lemma newest_loop_run (rk : Key) (i : PyId) (l : list ObjKey) :
  forall st : State,
    id_value (self st) = Ok i ->
    _id_order (cls st) !! rk = Some l ->
    newest_loop rk (reverse l) st
    = (mkState (self st)
         (set_order (<[rk := Spec.prune (cls st) i l]> (_id_order (cls st))) (cls st))
         (_get_object_hook st),
       Ok (obj_key ← last (Spec.prune (cls st) i l); _id_object_map (cls st) !! obj_key)).
Proof.
  induction l as [|k l IH] using rev_ind; intros st Hid Hl.
  - simpl. rewrite (insert_id _ _ _ Hl), set_order_id, state_eta. reflexivity.
  - rewrite reverse_snoc. cbn [newest_loop]. mprim.
    rewrite prune_snoc. unfold Spec.stale.
    set (st1 := mkState (self st)
                  (set_order (<[rk := reverse (reverse l)]> (_id_order (cls st))) (cls st))
                  (_get_object_hook st)).
    assert (Hpop : newest_loop rk (reverse l) st1
                   = (mkState (self st)
                        (set_order (<[rk := Spec.prune (cls st) i l]> (_id_order (cls st)))
                                   (cls st))
                        (_get_object_hook st),
                      Ok (obj_key ← last (Spec.prune (cls st) i l);
                          _id_object_map (cls st) !! obj_key))).
    { rewrite (IH st1 Hid); cycle 1.
      { subst st1. cbn [cls _id_order set_order]. rewrite reverse_involutive.
        apply lookup_insert_eq. }
      subst st1. cbn [cls self _get_object_hook _id_order set_order _id_object_map].
      rewrite (prune_ext (cls st) (set_order _ (cls st)) i l) by reflexivity.
      rewrite insert_insert_eq. destruct (cls st); reflexivity. }
    destruct (_id_object_map (cls st) !! k) as [obj|] eqn:Hk.
    + mstep ltac:(apply get_id_ok; exact Hid).
      destruct (bool_decide (k.2 = i)); cbn [negb].
      * rewrite (insert_id _ _ _ Hl), set_order_id, state_eta, last_snoc.
        simpl. rewrite Hk. reflexivity.
      * mstep ltac:(apply pop_run). exact Hpop.
    + mstep ltac:(apply pop_run). exact Hpop.
Qed.

Lemma get_object_from_parent_scope_run (st : State) (rk : Key) (i : PyId) :
  _resource_key__ (self st) = Some rk -> id_value (self st) = Ok i ->
  _get_object_from_parent_scope st = (st, Ok (Spec.scoped (cls st) (self st) i)).
Proof.
  intros Hrk Hid. unfold _get_object_from_parent_scope, Spec.scoped.
  mprim. rewrite Hrk.
  match goal with
  | |- context [try_except ?m ?h ?k] =>
      assert (Hfound : try_except m h k st
                       = (st, Ok (pk ← _parent_key__ (self st);
                                  inner ← _parent_id_tree (cls st) !! pk;
                                  inner !! rk)))
  end.
  { unfold try_except. mstep ltac:(apply parent_key_run).
    unfold weak_getitem.
    destruct (_parent_key__ (self st)) as [pk|]; simpl; [|reflexivity].
    destruct (_parent_id_tree (cls st) !! pk) as [inner|]; simpl; [|reflexivity].
    mprim. mstep ltac:(eapply resource_key_run; eassumption).
    cbv beta iota. destruct (inner !! rk); reflexivity. }
  mstep ltac:(exact Hfound).
  destruct (_parent_key__ (self st)) as [pk|]; simpl; [|reflexivity].
  destruct (_parent_id_tree (cls st) !! pk) as [inner|]; simpl; [|reflexivity].
  destruct (inner !! rk) as [obj_key|]; simpl; [|reflexivity].
  destruct (_id_object_map (cls st) !! obj_key) as [obj|]; simpl; [|reflexivity].
  mstep ltac:(apply get_id_ok; exact Hid).
  destruct (bool_decide (obj_key.2 = i)); reflexivity.
Qed.

Lemma get_newest_run (st : State) (rk : Key) (i : PyId) :
  _resource_key__ (self st) = Some rk -> id_value (self st) = Ok i ->
  _get_newest_object_with_same_resource_id st
  = (mkState (self st) (Spec.prune_order (cls st) (self st) i) (_get_object_hook st),
     Ok (Spec.recency (cls st) (self st) i)).
Proof.
  intros Hrk Hid.
  unfold _get_newest_object_with_same_resource_id, Spec.prune_order, Spec.recency,
    Spec.assignment_order.
  mprim. mstep ltac:(eapply resource_key_run; eassumption).
  rewrite Hrk. simpl.
  destruct (_id_order (cls st) !! rk) as [l|] eqn:Hl; simpl.
  - apply newest_loop_run; assumption.
  - unfold ret. rewrite state_eta. reflexivity.
Qed.

(** Pruning keeps the object map, the parent tree and the log. *)
Lemma prune_order_frame (c : ClassState) (h : RID) (i : PyId) :
  _id_object_map (Spec.prune_order c h i) = _id_object_map c
  /\ _parent_id_tree (Spec.prune_order c h i) = _parent_id_tree c
  /\ warnings (Spec.prune_order c h i) = warnings c.
Proof.
  unfold Spec.prune_order.
  destruct (_resource_key__ h) as [rk|]; [|repeat split].
  destruct (_id_order c !! rk); repeat split.
Qed.

Lemma liveness_lost_frame (c : ClassState) (h : RID) (i : PyId) :
  _id_object_map (Spec.liveness_lost c h i) = _id_object_map c
  /\ _parent_id_tree (Spec.liveness_lost c h i) = _parent_id_tree c
  /\ _id_order (Spec.liveness_lost c h i) = _id_order c.
Proof. unfold Spec.liveness_lost. destruct (_object_id h); repeat split. Qed.

Lemma scoped_ext (c c' : ClassState) (h : RID) (i : PyId) :
  _id_object_map c' = _id_object_map c -> _parent_id_tree c' = _parent_id_tree c ->
  Spec.scoped c' h i = Spec.scoped c h i.
Proof. intros Hm Ht. unfold Spec.scoped. rewrite Hm, Ht. reflexivity. Qed.

Lemma recency_ext (c c' : ClassState) (h : RID) (i : PyId) :
  _id_object_map c' = _id_object_map c -> _id_order c' = _id_order c ->
  Spec.recency c' h i = Spec.recency c h i.
Proof.
  intros Hm Ho. unfold Spec.recency, Spec.assignment_order. rewrite Hm, Ho.
  destruct (_resource_key__ h) as [rk|]; simpl; [|reflexivity].
  destruct (_id_order c !! rk) as [l|]; simpl; [|reflexivity].
  rewrite (prune_ext c c' i l Hm). reflexivity.
Qed.

Lemma liveness_warning_run (st : State) (i : PyId) :
  id_value (self st) = Ok i ->
  (match _object_id (self st) with
   | Some a => let! i := get_id in warn (LivenessLost a i)
   | None => ret tt
   end) st
  = (mkState (self st) (Spec.liveness_lost (cls st) (self st) i) (_get_object_hook st), Ok tt).
Proof.
  intros Hid. unfold Spec.liveness_lost.
  destruct (_object_id (self st)) as [a|].
  - mstep ltac:(apply get_id_ok; exact Hid). reflexivity.
  - unfold ret. rewrite state_eta. reflexivity.
Qed.

(** Steps 2 and 3 with the implicit bind of what they find. *)
Lemma get_similar_run (st : State) (rk : Key) (i : PyId) :
  _resource_key__ (self st) = Some rk -> id_value (self st) = Ok i ->
  let c := cls st in
  let h := self st in
  let r := match Spec.scoped c h i with
           | Some o => Some o
           | None => Spec.recency c h i
           end in
  exists st',
    _get_similar_referred_object st = (st', Ok r)
    /\ _resource_key__ (self st') = Some rk
    /\ id_value (self st') = Ok i
    /\ _get_object_hook st' = _get_object_hook st
    /\ (r = None -> st' = mkState h (Spec.after_fallback c h i) (_get_object_hook st))
    /\ (Spec.scoped c h i = None ->
        forall o l, Spec.recency c h i = Some o -> _id_order c !! rk = Some l ->
                    _id_order (cls st') !! rk = Some (Spec.prune c i l ++ [(Some (oid o), i)])).
Proof.
  intros Hrk Hid c h r. unfold _get_similar_referred_object.
  mprim. mstep ltac:(apply liveness_warning_run; exact Hid).
  set (st1 := mkState (self st) (Spec.liveness_lost (cls st) (self st) i) (_get_object_hook st)).
  destruct (liveness_lost_frame c h i) as (Lm & Lt & Lo).
  mstep ltac:(apply (get_object_from_parent_scope_run st1 rk i Hrk Hid)).
  assert (Hsc : Spec.scoped (cls st1) (self st1) i = Spec.scoped c h i)
    by (apply scoped_ext; assumption).
  rewrite Hsc. subst r.
  destruct (Spec.scoped c h i) as [o|] eqn:Esc.
  - mprim.
    destruct (set_referred_object_run st1 rk i o false PNone Hrk Hid)
      as (st' & Hrun & _ & _ & _ & Hh & _ & Hrk' & Hid').
    mstep ltac:(exact Hrun).
    exists st'. split; [reflexivity|]. repeat split; try assumption; discriminate.
  - mstep ltac:(apply (get_newest_run st1 rk i Hrk Hid)).
    assert (Hre : Spec.recency (cls st1) (self st1) i = Spec.recency c h i)
      by (apply recency_ext; assumption).
    rewrite Hre.
    set (st2 := mkState (self st1) (Spec.prune_order (cls st1) (self st1) i)
                        (_get_object_hook st1)).
    destruct (Spec.recency c h i) as [o|] eqn:Ere.
    + destruct (set_referred_object_run st2 rk i o false PNone Hrk Hid)
        as (st' & Hrun & _ & Ho' & _ & Hh & _ & Hrk' & Hid').
      mstep ltac:(exact Hrun).
      exists st'. split; [reflexivity|].
      repeat split; try assumption; try discriminate.
      intros _ o' l [= <-] Hl. rewrite Ho', lookup_insert_eq. f_equal. f_equal.
      subst st2 st1. cbn [cls self]. unfold Spec.prune_order. rewrite Hrk.
      fold c h. rewrite Lo, Hl.
      cbn [_id_order set_order]. rewrite lookup_insert_eq. simpl.
      apply prune_ext. exact Lm.
    + mprim. exists st2. split; [reflexivity|].
      repeat split; try assumption; try discriminate.
Qed.

(** Step 4: the hooks in the order of the list, up to the first that gives
    an object, and the implicit bind of that object. *)
Lemma iterate_hooks_run (rk : Key) (i : PyId) (hooks : list Hook) :
  forall st : State,
    _resource_key__ (self st) = Some rk -> id_value (self st) = Ok i ->
    exists st',
      iterate_hooks hooks st = (st', Ok (Spec.hooks_first hooks i (cls st)).2)
      /\ ((Spec.hooks_first hooks i (cls st)).2 = None ->
          st' = mkState (self st) (Spec.hooks_first hooks i (cls st)).1 (_get_object_hook st)).
Proof.
  induction hooks as [|hook rest IH]; intros st Hrk Hid.
  - simpl. exists st. split; [reflexivity|]. intros _. rewrite state_eta. reflexivity.
  - cbn [iterate_hooks Spec.hooks_first].
    mstep ltac:(apply get_id_ok; exact Hid).
    unfold call_hook at 1.
    destruct (hook i (cls st)) as [c' [o|]] eqn:Eh.
    + set (st1 := mkState (self st) c' (_get_object_hook st)).
      destruct (set_referred_object_run st1 rk i o true PNone Hrk Hid) as (st' & Hrun & _).
      unfold bind at 1. rewrite Eh. cbv beta iota.
      mstep ltac:(exact Hrun).
      exists st'. split; [reflexivity|]. discriminate.
    + unfold bind at 1. rewrite Eh. cbv beta iota.
      apply (IH (mkState (self st) c' (_get_object_hook st)) Hrk Hid).
Qed.

(** The run of [get_referred_object] against the four steps. *)
Lemma get_referred_object_run (st : State) (rk : Key) (i : PyId) :
  _resource_key__ (self st) = Some rk -> id_value (self st) = Ok i ->
  let c := cls st in
  let h := self st in
  let hooks := _get_object_hook st in
  exists st',
    get_referred_object st = (st', Ok (Spec.resolve st i))
    /\ (is_Some (Spec.direct c h i) -> st' = st)
    /\ (Spec.direct c h i = None -> Spec.scoped c h i = None ->
        forall o l, Spec.recency c h i = Some o -> _id_order c !! rk = Some l ->
                    _id_order (cls st') !! rk
                    = Some (Spec.prune c i l ++ [(Some (oid o), i)]))
    /\ (Spec.resolve st i = None ->
        st' = mkState h (Spec.hooks_first hooks i (Spec.after_fallback c h i)).1 hooks).
Proof.
  intros Hrk Hid c h hooks.
  unfold get_referred_object, Spec.resolve.
  mstep ltac:(eapply object_key_run; eassumption). mprim.
  fold c h. unfold Spec.direct.
  destruct (_id_object_map c !! (_object_id h, i)) as [o|] eqn:Ed.
  - mprim. exists st. repeat split; try discriminate.
  - destruct (get_similar_run st rk i Hrk Hid)
      as (st' & Hrun & Hrk' & Hid' & Hh' & Hnone & Hpruned).
    fold c h in Hrun, Hnone, Hpruned.
    mstep ltac:(exact Hrun).
    destruct (Spec.scoped c h i) as [o|] eqn:Esc.
    + exists st'. split; [reflexivity|].
      split; [intros [? H]; discriminate H|].
      split; [discriminate|discriminate].
    + destruct (Spec.recency c h i) as [o|] eqn:Ere.
      * exists st'. split; [reflexivity|].
        split; [intros [? H]; discriminate H|].
        split; [|discriminate].
        intros _ _ o' l Ho' Hl. apply Hpruned; auto.
      * specialize (Hnone eq_refl). subst st'.
        mprim. cbn [_get_object_hook].
        destruct (iterate_hooks_run rk i hooks
                    (mkState h (Spec.after_fallback c h i) (_get_object_hook st)) Hrk Hid)
          as (st'' & Hrun'' & Hnone'').
        cbn [cls self _get_object_hook] in Hrun'', Hnone''.
        fold hooks. fold hooks in Hrun'', Hnone''.
        exists st''. split; [exact Hrun''|].
        split; [intros [? H]; discriminate H|].
        split; [intros _ _ o l H; discriminate H|].
        exact Hnone''.
Qed.

(** ** The state a resolution leaves *)

Lemma write_scope_row_exact (st : State) (rk pk : Key) (i : PyId) :
  _resource_key__ (self st) = Some rk -> id_value (self st) = Ok i ->
  _parent_key__ (self st) = Some pk ->
  write_scope_row st
  = (mkState (self st)
       (set_tree (<[pk := <[rk := (_object_id (self st), i)]>
                            (default ∅ (_parent_id_tree (cls st) !! pk))]>
                    (_parent_id_tree (cls st))) (cls st))
       (_get_object_hook st), Ok tt).
Proof.
  intros Hrk Hid Hpk. unfold write_scope_row.
  mstep ltac:(apply parent_key_run). rewrite Hpk. mprim.
  unfold weak_contains.
  destruct (_parent_id_tree (cls st) !! pk) as [inner|] eqn:Hin.
  - rewrite bool_decide_eq_true_2 by eauto. simpl negb. cbv iota.
    mprim. mprim.
    mstep ltac:(eapply object_key_run; eassumption).
    unfold weak_getitem. rewrite Hin. mprim.
    mstep ltac:(eapply resource_key_run; eassumption).
    mprim. mprim. mprim. reflexivity.
  - rewrite bool_decide_eq_false_2 by (intros [? ?]; discriminate). simpl negb. cbv iota.
    mprim. mprim.
    mstep ltac:(eapply object_key_run; eassumption).
    unfold weak_getitem, weak_setitem. rewrite lookup_insert_eq. mprim.
    mstep ltac:(eapply resource_key_run; eassumption).
    mprim. mprim. mprim. unfold put_cls. simpl. rewrite insert_insert_eq. reflexivity.
Qed.

(** The scope update of a bind without [parent]. *)
Lemma scope_to_parent_exact (st : State) (rk : Key) (i : PyId) :
  _resource_key__ (self st) = Some rk -> id_value (self st) = Ok i ->
  scope_to_parent PNone st
  = (match _parent_key__ (self st) with
     | Some pk =>
         mkState (self st)
           (set_tree (<[pk := <[rk := (_object_id (self st), i)]>
                                (default ∅ (_parent_id_tree (cls st) !! pk))]>
                        (_parent_id_tree (cls st))) (cls st))
           (_get_object_hook st)
     | None => st
     end, Ok tt).
Proof.
  intros Hrk Hid. unfold scope_to_parent.
  mstep ltac:(apply parent_key_run).
  cbn [negb is_none orb].
  destruct (_parent_key__ (self st)) as [pk|] eqn:Hpk.
  - rewrite bool_decide_eq_true_2 by eauto. mprim.
    apply (write_scope_row_exact st rk pk i Hrk Hid Hpk).
  - rewrite bool_decide_eq_false_2 by (intros [? ?]; discriminate). reflexivity.
Qed.

(** The whole state after a bind without [parent]. *)
Lemma set_referred_object_exact (st : State) (rk : Key) (i : PyId) (o : Obj) (warn_ : bool) :
  _resource_key__ (self st) = Some rk -> id_value (self st) = Ok i ->
  set_referred_object o warn_ PNone st = (after_bind warn_ o rk i st, Ok tt).
Proof.
  intros Hrk Hid. unfold set_referred_object.
  mstep ltac:(eapply last_bound_run; eassumption).
  mstep ltac:(eapply warn_if_rebinding_run; eassumption).
  set (b := conflict warn_ (old_of (cls st) (self st) i) o).
  set (st1 := if b then _ else st).
  assert (H1 : st1 = mkState (self st)
                       (mkClass (_singleton_cache (cls st)) (next_key (cls st))
                          (_parent_id_tree (cls st)) (_id_order (cls st))
                          (_id_object_map (cls st))
                          (warnings (cls st) ++ (if b then [RebindingConflict i] else [])))
                       (_get_object_hook st)).
  { subst st1. destruct b.
    - reflexivity.
    - rewrite app_nil_r. destruct st as [h [c1 c2 c3 c4 c5 c6] hooks]. reflexivity. }
  clearbody st1. subst st1.
  mprim. mprim.
  match goal with
  | |- bind _ _ ?s0 = _ => set (st2 := s0)
  end.
  assert (Hrk2 : _resource_key__ (self st2) = Some rk) by exact Hrk.
  assert (Hid2 : id_value (self st2) = Ok i) by exact Hid.
  mstep ltac:(apply (scope_to_parent_exact st2 rk i Hrk2 Hid2)).
  match goal with
  | |- record_assignment o ?s0 = _ => set (st3 := s0)
  end.
  assert (Hself3 : self st3 = self st2)
    by (subst st3; destruct (_parent_key__ (self st2)); reflexivity).
  assert (Hrk3 : _resource_key__ (self st3) = Some rk) by (rewrite Hself3; exact Hrk2).
  assert (Hid3 : id_value (self st3) = Ok i) by (rewrite Hself3; exact Hid2).
  rewrite (record_assignment_run st3 rk i o Hrk3 Hid3).
  unfold after_bind. fold b. subst st3.
  change (_parent_key__ (self st2)) with (_parent_key__ (self st)).
  destruct (_parent_key__ (self st)) as [pk|]; reflexivity.
Qed.

(** The implicit bind of steps 2 and 3 never adds the rebinding warning. *)
Lemma after_bind_silent (o : Obj) (rk : Key) (i : PyId) (st : State) :
  warnings (cls (after_bind false o rk i st)) = warnings (cls st).
Proof.
  unfold after_bind, conflict. cbn [cls warnings].
  destruct (old_of (cls st) (self st) i); simpl; apply app_nil_r.
Qed.

(** The whole state after steps 2 and 3. *)
Lemma get_similar_exact (st : State) (rk : Key) (i : PyId) :
  _resource_key__ (self st) = Some rk -> id_value (self st) = Ok i ->
  let c := cls st in
  let h := self st in
  let hooks := _get_object_hook st in
  _get_similar_referred_object st
  = match Spec.scoped c h i with
    | Some o => (after_bind false o rk i (mkState h (Spec.liveness_lost c h i) hooks),
                 Ok (Some o))
    | None =>
        match Spec.recency c h i with
        | Some o => (after_bind false o rk i (mkState h (Spec.after_fallback c h i) hooks),
                     Ok (Some o))
        | None => (mkState h (Spec.after_fallback c h i) hooks, Ok None)
        end
    end.
Proof.
  intros Hrk Hid c h hooks. unfold _get_similar_referred_object.
  mprim. mstep ltac:(apply liveness_warning_run; exact Hid).
  set (st1 := mkState (self st) (Spec.liveness_lost (cls st) (self st) i) (_get_object_hook st)).
  destruct (liveness_lost_frame c h i) as (Lm & Lt & Lo).
  mstep ltac:(apply (get_object_from_parent_scope_run st1 rk i Hrk Hid)).
  assert (Hsc : Spec.scoped (cls st1) (self st1) i = Spec.scoped c h i)
    by (apply scoped_ext; assumption).
  rewrite Hsc.
  destruct (Spec.scoped c h i) as [o|] eqn:Esc.
  - mprim. mstep ltac:(apply (set_referred_object_exact st1 rk i o false Hrk Hid)).
    reflexivity.
  - mstep ltac:(apply (get_newest_run st1 rk i Hrk Hid)).
    assert (Hre : Spec.recency (cls st1) (self st1) i = Spec.recency c h i)
      by (apply recency_ext; assumption).
    rewrite Hre.
    set (st2 := mkState (self st1) (Spec.prune_order (cls st1) (self st1) i)
                        (_get_object_hook st1)).
    destruct (Spec.recency c h i) as [o|] eqn:Ere.
    + mstep ltac:(apply (set_referred_object_exact st2 rk i o false Hrk Hid)).
      reflexivity.
    + mprim. reflexivity.
Qed.

(** The whole state after the loop over the hooks. *)
Lemma iterate_hooks_exact (rk : Key) (i : PyId) (h : RID) (all : list Hook)
    (hooks : list Hook) :
  _resource_key__ h = Some rk -> id_value h = Ok i ->
  forall c : ClassState,
    iterate_hooks hooks (mkState h c all)
    = (match Spec.hooks_first hooks i c with
       | (c', Some o) => after_bind true o rk i (mkState h c' all)
       | (c', None) => mkState h c' all
       end, Ok (Spec.hooks_first hooks i c).2).
Proof.
  intros Hrk Hid.
  induction hooks as [|hook rest IH]; intros c.
  - reflexivity.
  - cbn [iterate_hooks Spec.hooks_first].
    mstep ltac:(apply get_id_ok; exact Hid).
    unfold call_hook at 1. unfold bind at 1. cbn [cls self _get_object_hook].
    destruct (hook i c) as [c' [o|]] eqn:Eh.
    + cbv beta iota.
      mstep ltac:(apply (set_referred_object_exact (mkState h c' all) rk i o true Hrk Hid)).
      reflexivity.
    + cbv beta iota. apply IH.
Qed.

(** The whole run of [get_referred_object]. *)
Lemma get_referred_object_exact (st : State) (rk : Key) (i : PyId) :
  _resource_key__ (self st) = Some rk -> id_value (self st) = Ok i ->
  get_referred_object st = (state_after_resolve rk i st, Ok (Spec.resolve st i)).
Proof.
  intros Hrk Hid.
  unfold get_referred_object, Spec.resolve, state_after_resolve, after_hooks.
  mstep ltac:(eapply object_key_run; eassumption). mprim.
  unfold Spec.direct.
  destruct (_id_object_map (cls st) !! (_object_id (self st), i)) as [o|] eqn:Ed.
  - mprim. reflexivity.
  - pose proof (get_similar_exact st rk i Hrk Hid) as Hsim. cbv zeta in Hsim.
    destruct (Spec.scoped (cls st) (self st) i) as [o|] eqn:Esc.
    + mstep ltac:(exact Hsim). reflexivity.
    + destruct (Spec.recency (cls st) (self st) i) as [o|] eqn:Ere.
      * mstep ltac:(exact Hsim). reflexivity.
      * mstep ltac:(exact Hsim). cbv beta iota. mprim. cbn [_get_object_hook].
        rewrite (iterate_hooks_exact rk i (self st) (_get_object_hook st)
                   (_get_object_hook st) Hrk Hid).
        destruct (Spec.hooks_first (_get_object_hook st) i
                    (Spec.after_fallback (cls st) (self st) i)) as [c' [o|]]; reflexivity.
Qed.

Lemma after_fallback_frame (c : ClassState) (h : RID) (i : PyId) :
  _id_object_map (Spec.after_fallback c h i) = _id_object_map c
  /\ _parent_id_tree (Spec.after_fallback c h i) = _parent_id_tree c.
Proof.
  unfold Spec.after_fallback.
  destruct (prune_order_frame (Spec.liveness_lost c h i) h i) as (Pm & Pt & _).
  destruct (liveness_lost_frame c h i) as (Lm & Lt & _).
  split; congruence.
Qed.

(** A handle whose own row and parent-scope row do not answer otherwise
    resolves to the object of the last entry of the list of its key, when
    that entry is live and of the handle's id. *)
Lemma resolve_of_last_entry (st : State) (rk : Key) (i : PyId) (o : Obj) (l : list ObjKey) :
  _resource_key__ (self st) = Some rk ->
  _id_order (cls st) !! rk = Some (l ++ [(Some (oid o), i)]) ->
  _id_object_map (cls st) !! (Some (oid o), i) = Some o ->
  (Spec.direct (cls st) (self st) i = None \/ Spec.direct (cls st) (self st) i = Some o) ->
  (Spec.scoped (cls st) (self st) i = None \/ Spec.scoped (cls st) (self st) i = Some o) ->
  Spec.resolve st i = Some o.
Proof.
  intros Hrk Hl Hrow Hd Hs. unfold Spec.resolve.
  destruct Hd as [-> | ->]; [|reflexivity].
  destruct Hs as [-> | ->]; [|reflexivity].
  unfold Spec.recency, Spec.assignment_order. rewrite Hrk.
  cbn [mbind option_bind]. rewrite Hl. cbn [mbind option_bind].
  rewrite prune_snoc. unfold Spec.stale. rewrite Hrow.
  rewrite bool_decide_eq_true_2 by reflexivity. cbn [negb].
  rewrite last_snoc. cbn [mbind option_bind]. rewrite Hrow. reflexivity.
Qed.

(** The class state after [h.get_referred_object()] called from another
    frame. *)
Lemma resolve_on_exact (h : RID) (st : State) (rk : Key) (i : PyId) :
  _resource_key__ h = Some rk -> id_value h = Ok i ->
  let sth := mkState h (cls st) (_get_object_hook st) in
  resolve_on h st
  = (mkState (self st) (cls (state_after_resolve rk i sth))
             (_get_object_hook (state_after_resolve rk i sth)),
     Ok (Spec.resolve sth i)).
Proof.
  intros Hrk Hid sth. unfold resolve_on.
  mstep ltac:(apply call_on_ok; apply (get_referred_object_exact sth rk i Hrk Hid)).
  reflexivity.
Qed.

(** C2. On a handle that has its resource key and a readable id,
    [get_referred_object] never raises and returns what the four steps of
    the specification give in their priority order: the direct row; else the
    parent-scope row, accepted when its id component matches; else the last
    entry of the assignment order that survives the pruning from the tail;
    else the first object a hook gives; else [None]. The state it leaves is
    that of the step that answers, and of no later step: a direct hit
    changes nothing; a parent-scope hit adds at most the liveness warning
    and binds the object found, so the list of the key is the old list, not
    pruned, with the new CompositeKey appended, and no hook has run; a
    recency hit leaves the pruned list with the new CompositeKey appended,
    and no hook has run; otherwise the hooks run on the pruned state up to
    the first that answers, whose object is bound; when every step fails,
    the class state is the pruned one, as the hooks left it. *)
Theorem C2_resolution_order (st : State) (rk : Key) (i : PyId) :
  _resource_key__ (self st) = Some rk -> id_value (self st) = Ok i ->
  let c := cls st in
  let h := self st in
  let hooks := _get_object_hook st in
  let out := get_referred_object st in
  out.2 = Ok (Spec.resolve st i)
  /\ (is_Some (Spec.direct c h i) -> out.1 = st)
  /\ (Spec.direct c h i = None -> Spec.scoped c h i = None ->
      forall o l, Spec.recency c h i = Some o -> _id_order c !! rk = Some l ->
                  _id_order (cls out.1) !! rk
                  = Some (Spec.prune c i l ++ [(Some (oid o), i)]))
  /\ (Spec.resolve st i = None ->
      out.1 = mkState h (Spec.hooks_first hooks i (Spec.after_fallback c h i)).1 hooks)
  /\ out.1 = state_after_resolve rk i st
  /\ (Spec.direct c h i = None ->
      forall o, Spec.scoped c h i = Some o ->
        out.1 = after_bind false o rk i (mkState h (Spec.liveness_lost c h i) hooks)
        /\ _id_order (cls out.1)
           = <[rk := default [] (_id_order c !! rk) ++ [(Some (oid o), i)]]> (_id_order c)
        /\ _id_object_map (cls out.1) = <[(Some (oid o), i) := o]> (_id_object_map c)
        /\ warnings (cls out.1) = warnings (Spec.liveness_lost c h i)
        /\ _singleton_cache (cls out.1) = _singleton_cache c)
  /\ (Spec.direct c h i = None -> Spec.scoped c h i = None ->
      forall o, Spec.recency c h i = Some o ->
        out.1 = after_bind false o rk i (mkState h (Spec.after_fallback c h i) hooks)
        /\ warnings (cls out.1) = warnings (Spec.liveness_lost c h i))
  /\ (Spec.direct c h i = None -> Spec.scoped c h i = None -> Spec.recency c h i = None ->
      out.1 = after_hooks rk i h hooks (Spec.after_fallback c h i)).
Proof.
  intros Hrk Hid c h hooks out.
  destruct (get_referred_object_run st rk i Hrk Hid) as (st' & Hrun & Hdirect & Hrec & Hnone).
  pose proof (get_referred_object_exact st rk i Hrk Hid) as Hexact.
  assert (Hst' : st' = state_after_resolve rk i st) by congruence.
  subst out. rewrite Hrun. cbn [fst snd].
  split; [reflexivity|].
  split; [exact Hdirect|].
  split; [exact Hrec|].
  split; [exact Hnone|].
  split; [exact Hst'|].
  clear Hrun Hdirect Hrec Hnone Hexact. subst st'.
  unfold state_after_resolve. fold c h hooks.
  split.
  { intros Hd o Hs. rewrite Hd, Hs.
    split; [reflexivity|].
    destruct (liveness_lost_frame c h i) as (Lm & _ & Lo).
    split; [unfold after_bind; cbn [cls self _id_order]; rewrite Lo; reflexivity|].
    split; [unfold after_bind; cbn [cls self _id_object_map]; rewrite Lm; reflexivity|].
    split; [apply after_bind_silent|].
    unfold after_bind, Spec.liveness_lost. cbn [cls self _singleton_cache].
    destruct (_object_id h); reflexivity. }
  split.
  { intros Hd Hs o Hr. rewrite Hd, Hs, Hr.
    split; [reflexivity|].
    rewrite after_bind_silent. cbn [cls]. unfold Spec.after_fallback.
    destruct (prune_order_frame (Spec.liveness_lost c h i) h i) as (_ & _ & Hw). exact Hw. }
  intros Hd Hs Hr. rewrite Hd, Hs, Hr. reflexivity.
Qed.

Lemma C2_witness :
  (get_referred_object stale_tail_state).2 = Ok (Some obj_Y)
  /\ (let A := mkRID (Some true) None None (Some "s") (Some 1%positive) (Some 2%positive) None in
      let C := mkRID (Some true) None None (Some "s") (Some 1%positive) None None in
      let st1 := (set_referred_object obj_Y true PNone (mkState A empty_class [])).1 in
      let st2 := (call_on C (set_referred_object obj_X true PNone) st1).1 in
      let out := get_referred_object (mkState A (cls st2) []) in
      out.2 = Ok (Some obj_Y)
      /\ _id_order (cls out.1) !! 1%positive
         = Some [(Some 2000, Some "s"); (Some 1000, Some "s"); (Some 2000, Some "s")]
      /\ warnings (cls out.1) = warnings (cls st2)).
Proof.
  split.
  - destruct (C2_resolution_order stale_tail_state 1%positive (Some "s") eq_refl eq_refl)
      as (H & _).
    rewrite H. vm_compute. reflexivity.
  - intros A C st1 st2 out.
    destruct (C2_resolution_order (mkState A (cls st2) []) 1%positive (Some "s")
                eq_refl eq_refl) as (H & _ & _ & _ & _ & Hscope & _).
    fold out in H, Hscope.
    assert (Hd : Spec.direct (cls st2) A (Some "s") = None) by (vm_compute; reflexivity).
    assert (Hs : Spec.scoped (cls st2) A (Some "s") = Some obj_Y) by (vm_compute; reflexivity).
    destruct (Hscope Hd obj_Y Hs) as (_ & Ho & _ & Hw & _).
    split; [rewrite H; vm_compute; reflexivity|].
    split; [rewrite Ho; vm_compute; reflexivity|].
    rewrite Hw. vm_compute. reflexivity.
Defined.

(** ** Sharing a binding *)

(** Two handles constructed with the same id string, one after the other,
    hold the same interned key. *)
Lemma same_id_same_key (s prefix1 prefix2 : string) (parent1 parent2 : PyVal)
    (u1 u2 : string) (st : State) :
  exists st1 h1 st2 h2,
    new (AVal (PStr s)) prefix1 None parent1 u1 st = (st1, Ok h1)
    /\ new (AVal (PStr s)) prefix2 None parent2 u2 st1 = (st2, Ok h2)
    /\ _resource_key__ h1 = _resource_key__ h2
    /\ is_Some (_resource_key__ h1).
Proof.
  destruct (init_of_string s prefix1 parent1 u1 (cls st) (_get_object_hook st))
    as (c1 & h1 & Hrun1 & _ & Hk1 & _ & Hc1).
  set (st1 := mkState (self st) c1 (_get_object_hook st)).
  destruct (new_of_string s prefix2 parent2 u2 st1) as (st2 & h2 & Hn2 & _ & Hk2 & _).
  exists st1, h1, st2, h2.
  split. { unfold new. mstep ltac:(apply call_on_ok, Hrun1). reflexivity. }
  split; [exact Hn2|].
  rewrite Hk1, Hk2. subst st1. cbn [cls]. rewrite (intern_hit _ _ _ Hc1).
  split; [reflexivity | eauto].
Qed.

Lemma gc_objects_order (dead : list Z) (c : ClassState) :
  _id_order (gc_objects dead c) = _id_order c.
Proof. induction dead as [|a dead IH]; simpl; [reflexivity | exact IH]. Qed.

(** A row whose object is not dropped stays in the object map. *)
Lemma gc_objects_lookup (dead : list Z) (c : ClassState) (k : ObjKey) (o : Obj) :
  _id_object_map c !! k = Some o -> oid o ∉ dead ->
  _id_object_map (gc_objects dead c) !! k = Some o.
Proof.
  intros Hk. induction dead as [|a dead IH]; intros Hnot; simpl; [exact Hk|].
  apply map_lookup_filter_Some. split.
  - apply IH. intros H. apply Hnot. right. exact H.
  - simpl. intros E. apply Hnot. rewrite E. left.
Qed.

Lemma gc_objects_cache (dead : list Z) (c : ClassState) :
  _singleton_cache (gc_objects dead c) = _singleton_cache c.
Proof. induction dead as [|a dead IH]; simpl; [reflexivity | exact IH]. Qed.

(** The environment drops rows of the object map, it adds none. *)
Lemma gc_objects_lookup_inv (dead : list Z) (c : ClassState) (k : ObjKey) (o : Obj) :
  _id_object_map (gc_objects dead c) !! k = Some o -> _id_object_map c !! k = Some o.
Proof.
  induction dead as [|a dead IH]; simpl; [auto|].
  intros H. apply map_lookup_filter_Some in H as [H _]. apply IH. exact H.
Qed.

(** The scope update of a bind interns at most a new key: what the interner
    holds stays. *)
Lemma scope_to_parent_cache (st : State) (rk : Key) (i : PyId) (parent : PyVal) :
  _resource_key__ (self st) = Some rk -> id_value (self st) = Ok i ->
  forall raw k, _singleton_cache (cls st) !! raw = Some k ->
    _singleton_cache (cls (scope_to_parent parent st).1) !! raw = Some k.
Proof.
  intros Hrk Hid raw k Hk.
  destruct (descriptor_raw parent) as [raw'|] eqn:Hraw.
  - assert (Hnn : is_none parent = false)
      by (destruct parent; [discriminate Hraw|..]; reflexivity).
    unfold scope_to_parent. mstep ltac:(apply parent_key_run).
    rewrite Hnn. cbn [negb orb].
    mstep ltac:(apply descriptor_set_run).
    unfold after_descriptor_set. rewrite Hraw.
    set (st1 := mkState _ _ _).
    assert (Hrk1 : _resource_key__ (self st1) = Some rk) by exact Hrk.
    assert (Hid1 : id_value (self st1) = Ok i) by (rewrite <- Hid; reflexivity).
    rewrite (write_scope_row_exact st1 rk (intern raw' (cls st)).2 i Hrk1 Hid1 eq_refl).
    cbn [fst cls set_tree _singleton_cache]. apply intern_keeps. exact Hk.
  - assert (Hp : parent = PNone) by (destruct parent; [reflexivity|discriminate Hraw..]).
    subst parent. rewrite (scope_to_parent_exact st rk i Hrk Hid).
    destruct (_parent_key__ (self st)); exact Hk.
Qed.

(** A bind keeps what the interner holds. *)
Lemma set_referred_object_cache (st : State) (rk : Key) (i : PyId)
    (o : Obj) (warn_ : bool) (parent : PyVal) (raw : Raw) (k : Key) :
  _resource_key__ (self st) = Some rk -> id_value (self st) = Ok i ->
  _singleton_cache (cls st) !! raw = Some k ->
  _singleton_cache (cls (set_referred_object o warn_ parent st).1) !! raw = Some k.
Proof.
  intros Hrk Hid Hk. unfold set_referred_object.
  mstep ltac:(eapply last_bound_run; eassumption).
  mstep ltac:(eapply warn_if_rebinding_run; eassumption).
  set (st1 := if conflict _ _ _ then _ else st).
  assert (Hs1 : self st1 = self st
                /\ _singleton_cache (cls st1) = _singleton_cache (cls st))
    by (subst st1; destruct (conflict _ _ _); split; reflexivity).
  clearbody st1. destruct Hs1 as (Hs1 & Hc1). mprim. mprim.
  set (st2 := mkState (set_object_id (oid o) (self st1)) (cls st1) (_get_object_hook st1)).
  assert (Hrk2 : _resource_key__ (self st2) = Some rk) by (simpl; rewrite Hs1; exact Hrk).
  assert (Hid2 : id_value (self st2) = Ok i) by (rewrite <- Hid, <- Hs1; reflexivity).
  assert (Hk2 : _singleton_cache (cls st2) !! raw = Some k) by (simpl; rewrite Hc1; exact Hk).
  pose proof (scope_to_parent_cache st2 rk i parent Hrk2 Hid2 raw k Hk2) as Hk3.
  destruct (scope_to_parent_run st2 rk i parent Hrk2 Hid2)
    as (st3 & Hrun3 & _ & Hself3 & _).
  rewrite Hrun3 in Hk3. cbn [fst] in Hk3.
  mstep ltac:(exact Hrun3).
  assert (Hrk3 : _resource_key__ (self st3) = Some rk).
  { destruct Hself3 as (_ & _ & _ & _ & -> & _). exact Hrk2. }
  assert (Hid3 : id_value (self st3) = Ok i).
  { rewrite (same_but_parent_id _ _ Hself3). exact Hid2. }
  rewrite (record_assignment_run st3 rk i o Hrk3 Hid3).
  exact Hk3.
Qed.

(** The run of [ResourceIdentifier(s)], no referred object and no parent. *)
Lemma new_plain_exact (s prefix u : string) (st : State) :
  new (AVal (PStr s)) prefix None PNone u st
  = (mkState (self st) (intern (RStr s) (cls st)).1 (_get_object_hook st),
     Ok (set_resource_key (intern (RStr s) (cls st)).2
           (set_id_ s (set_fixed true (set_fixed true empty_dict))))).
Proof.
  assert (Hinit : __init__ (AVal (PStr s)) prefix None PNone u
                    (mkState empty_dict (cls st) (_get_object_hook st))
                  = (mkState (set_resource_key (intern (RStr s) (cls st)).2
                                (set_id_ s (set_fixed true (set_fixed true empty_dict))))
                             (intern (RStr s) (cls st)).1 (_get_object_hook st), Ok tt)).
  { unfold __init__.
    set (st0 := mkState empty_dict (cls st) (_get_object_hook st)).
    assert (H1 : (let! s0 := get_self in
                  let! _ := put_self (set_fixed true s0) in set_id (PStr s)) st0
                 = (mkState (set_id_ s (set_fixed true (set_fixed true empty_dict)))
                            (cls st) (_get_object_hook st), Ok tt)) by reflexivity.
    rewrite (bind_ok _ _ _ _ _ H1).
    mstep ltac:(apply get_id_ok; reflexivity).
    cbn [pyval_of_id].
    mstep ltac:(apply descriptor_set_run).
    mstep ltac:(apply descriptor_set_run).
    reflexivity. }
  unfold new. mstep ltac:(apply call_on_ok; exact Hinit). reflexivity.
Qed.

(** C1, as the code has it. [X] is bound through a handle of id [s] and
    interned key [rk]; the environment may then drop other objects
    ([dead]), and the next call on the registry is [get_referred_object] on
    a handle [B] of the same id. [B] returns [X] when it holds the same
    interned key [rk] and neither its own CompositeKey nor its parent-scope
    row resolves to a different object. A handle constructed with the id
    [s] at that moment, while [rk] is still the key the interner holds for
    [s], is such a handle: it gets the key [rk], leaves the registry as it
    is, and returns [X]. *)
Theorem C1_shared_binding
    (st : State) (B : RID) (X : Obj) (warn_ : bool) (parent : PyVal)
    (rk : Key) (s : string) (dead : list Z) :
  _resource_key__ (self st) = Some rk -> id_value (self st) = Ok (Some s) ->
  _resource_key__ B = Some rk -> id_value B = Ok (Some s) ->
  oid X ∉ dead ->
  let st1 := (set_referred_object X warn_ parent st).1 in
  let c2 := gc_objects dead (cls st1) in
  let w := mkState (self st1) c2 (_get_object_hook st1) in
  (Spec.direct c2 B (Some s) = None \/ Spec.direct c2 B (Some s) = Some X) ->
  (Spec.scoped c2 B (Some s) = None \/ Spec.scoped c2 B (Some s) = Some X) ->
  (resolve_on B w).2 = Ok (Some X)
  /\ (_singleton_cache (cls st) !! RStr s = Some rk -> map_ok (cls st) ->
      forall prefix u : string,
        exists h,
          new (AVal (PStr s)) prefix None PNone u w = (w, Ok h)
          /\ _resource_key__ h = Some rk
          /\ id_value h = Ok (Some s)
          /\ (resolve_on h w).2 = Ok (Some X)).
Proof.
  intros HrkA HidA HrkB HidB Hlive st1 c2 w Hdirect Hscoped.
  pose proof (set_referred_object_cache st rk (Some s) X warn_ parent (RStr s) rk HrkA HidA)
    as Hcache.
  destruct (set_referred_object_run st rk (Some s) X warn_ parent HrkA HidA)
    as (st' & Hrun & Hmap & Horder & _).
  assert (Est1 : st1 = st') by (subst st1; rewrite Hrun; reflexivity).
  fold st1 in Hcache. clearbody st1. subst st'.
  set (key := (Some (oid X), Some s) : ObjKey) in *.
  assert (Hrow : _id_object_map c2 !! key = Some X).
  { subst c2. apply gc_objects_lookup; [|exact Hlive].
    rewrite Hmap. apply lookup_insert_eq. }
  assert (Hl : _id_order c2 !! rk
               = Some (default [] (_id_order (cls st) !! rk) ++ [key])).
  { subst c2. rewrite gc_objects_order, Horder. apply lookup_insert_eq. }
  assert (Hmain : forall h : RID,
             _resource_key__ h = Some rk -> id_value h = Ok (Some s) ->
             (Spec.direct c2 h (Some s) = None \/ Spec.direct c2 h (Some s) = Some X) ->
             (Spec.scoped c2 h (Some s) = None \/ Spec.scoped c2 h (Some s) = Some X) ->
             (resolve_on h w).2 = Ok (Some X)).
  { intros h Hrk Hid Hd Hs.
    rewrite (resolve_on_exact h w rk (Some s) Hrk Hid). cbn [snd]. f_equal.
    apply (resolve_of_last_entry _ rk (Some s) X (default [] (_id_order (cls st) !! rk)));
      assumption. }
  split; [apply Hmain; assumption|].
  intros Hs Hok prefix u.
  eexists. split.
  { rewrite new_plain_exact. subst w. cbn [cls self _get_object_hook].
    assert (Hc2 : _singleton_cache c2 !! RStr s = Some rk).
    { subst c2. rewrite gc_objects_cache. apply Hcache. exact Hs. }
    rewrite (intern_hit _ _ _ Hc2). reflexivity. }
  split; [reflexivity|]. split; [reflexivity|].
  apply Hmain; [reflexivity | reflexivity | |].
  - left. unfold Spec.direct. cbn [_object_id set_resource_key set_id_ set_fixed empty_dict].
    destruct (_id_object_map c2 !! (None, Some s)) as [x|] eqn:E; [|reflexivity].
    exfalso. subst c2. apply gc_objects_lookup_inv in E.
    rewrite Hmap in E. rewrite lookup_insert_ne in E by discriminate.
    apply Hok in E. discriminate E.
  - left. reflexivity.
Qed.

Lemma C1_witness :
  let A := mkRID (Some true) None None (Some "s") (Some 1%positive) None None in
  let B := mkRID (Some true) None None (Some "s") (Some 1%positive) None (Some 2000) in
  let c := mkClass {[ RStr "s" := 1%positive ]} 2%positive ∅
                   {[ 1%positive := [(Some 2000, Some "s")] ]}
                   {[ (Some 2000, Some "s") := obj_Y ]} [] in
  let st1 := (set_referred_object obj_X true PNone (mkState A c [])).1 in
  let w := mkState (self st1) (gc_objects [2000] (cls st1)) (_get_object_hook st1) in
  (resolve_on B w).2 = Ok (Some obj_X)
  /\ exists h, handle_of "s" w = (w, Ok h)
               /\ _resource_key__ h = Some 1%positive
               /\ (resolve_on h w).2 = Ok (Some obj_X).
Proof.
  intros A B c st1 w.
  assert (Hlive : oid obj_X ∉ [2000]).
  { intros H. apply list_elem_of_In in H. simpl in H. destruct H as [H|[]]. discriminate H. }
  assert (Hd : Spec.direct (gc_objects [2000] (cls st1)) B (Some "s") = None
               \/ Spec.direct (gc_objects [2000] (cls st1)) B (Some "s") = Some obj_X)
    by (left; vm_compute; reflexivity).
  assert (Hs : Spec.scoped (gc_objects [2000] (cls st1)) B (Some "s") = None
               \/ Spec.scoped (gc_objects [2000] (cls st1)) B (Some "s") = Some obj_X)
    by (left; vm_compute; reflexivity).
  destruct (C1_shared_binding (mkState A c []) B obj_X true PNone 1%positive "s" [2000]
              eq_refl eq_refl eq_refl eq_refl Hlive Hd Hs) as (H1 & H2).
  split; [exact H1|].
  assert (Hok : map_ok c).
  { intros k o Hk. unfold c in Hk. cbn [_id_object_map] in Hk.
    apply lookup_singleton_Some in Hk as [<- <-]. reflexivity. }
  destruct (H2 eq_refl Hok "smi:local" "") as (h & Hn & Hk & _ & Hr).
  exists h. split; [exact Hn|]. split; [exact Hk | exact Hr].
Defined.

(** C1 as stated fails, in two ways. Two handles of ["s"]: the second is
    bound to [obj_Y], then [obj_X] is bound through the first; [obj_X] and
    [obj_Y] both stay alive, and the second handle still returns [obj_Y].
    And when the only handle of ["s"] is gone after the bind, the key of
    ["s"] is reclaimed with its rows: a handle constructed with ["s"]
    afterwards returns [None], although [obj_X] is alive. *)
Lemma C1_bound_handle_keeps_its_object :
  ((two_bound_handles initial).2 = Ok (Some obj_Y) /\ obj_Y <> obj_X)
  /\ (reclaimed_key_scenario initial).2 = Ok None
  /\ _id_object_map (cls (reclaimed_key_scenario initial).1) !! (Some 1000, Some "s")
     = Some obj_X.
Proof.
  split; [split; [vm_compute; reflexivity | discriminate]|].
  split; vm_compute; reflexivity.
Qed.

(** * Further properties of the module *)

(** ** The interner *)

Lemma cache_ok_empty : cache_ok empty_class.
Proof.
  split.
  - intros raw k H. cbn in H. rewrite lookup_empty in H. discriminate H.
  - intros r1 r2 k H. cbn in H. rewrite lookup_empty in H. discriminate H.
Qed.

Lemma intern_ok (raw : Raw) (c : ClassState) : cache_ok c -> cache_ok (intern raw c).1.
Proof.
  intros (Hlt & Hinj). unfold intern.
  destruct (_singleton_cache c !! raw) as [k0|] eqn:E; simpl; [split; assumption|].
  split.
  - intros r k H. simpl in H. destruct (decide (raw = r)) as [->|Hne].
    + rewrite lookup_insert_eq in H. injection H as <-. simpl. lia.
    + rewrite lookup_insert_ne in H by exact Hne. apply Hlt in H. simpl. lia.
  - intros r1 r2 k H1 H2. simpl in H1, H2.
    destruct (decide (raw = r1)) as [E1|N1]; destruct (decide (raw = r2)) as [E2|N2].
    + congruence.
    + subst r1. rewrite lookup_insert_eq in H1. injection H1 as <-.
      rewrite lookup_insert_ne in H2 by exact N2. apply Hlt in H2. lia.
    + subst r2. rewrite lookup_insert_eq in H2. injection H2 as <-.
      rewrite lookup_insert_ne in H1 by exact N1. apply Hlt in H1. lia.
    + rewrite lookup_insert_ne in H1 by exact N1.
      rewrite lookup_insert_ne in H2 by exact N2. eapply Hinj; eassumption.
Qed.


(** X1. Interning two raw values one after the other never raises and gives
    the same key exactly when the raw values are equal; the interner stays
    well formed. *)
Theorem interner_keys_follow_raw_values (st : State) (r1 r2 : Raw) :
  cache_ok (cls st) ->
  let out := (let! k1 := _ResourceKey.get_resource_key r1 in
              let! k2 := _ResourceKey.get_resource_key r2 in
              ret (k1, k2)) st in
  exists k1 k2,
    out.2 = Ok (k1, k2)
    /\ (k1 = k2 <-> r1 = r2)
    /\ cache_ok (cls out.1).
Proof.
  intros Hok out. subst out.
  mstep ltac:(apply get_resource_key_run).
  mstep ltac:(apply get_resource_key_run).
  cbn [cls fst snd ret].
  set (c1 := (intern r1 (cls st)).1).
  assert (Hok1 : cache_ok c1) by (apply intern_ok; exact Hok).
  assert (Hok2 : cache_ok (intern r2 c1).1) by (apply intern_ok; exact Hok1).
  eexists _, _. split; [reflexivity|]. split; [|exact Hok2].
  assert (H1 : _singleton_cache (intern r2 c1).1 !! r1 = Some (intern r1 (cls st)).2)
    by (apply intern_keeps, intern_lookup).
  assert (H2 : _singleton_cache (intern r2 c1).1 !! r2 = Some (intern r2 c1).2)
    by apply intern_lookup.
  split.
  - intros E. rewrite E in H1. destruct Hok2 as (_ & Hinj). eapply Hinj; eassumption.
  - intros <-. rewrite H1 in H2. injection H2 as ->. reflexivity.
Qed.

Lemma interner_keys_witness :
  exists k1 k2,
    ((let! k1 := _ResourceKey.get_resource_key (RStr "a") in
      let! k2 := _ResourceKey.get_resource_key (RStr "b") in
      ret (k1, k2)) initial).2 = Ok (k1, k2)
    /\ (k1 = k2 <-> RStr "a" = RStr "b").
Proof.
  destruct (interner_keys_follow_raw_values initial (RStr "a") (RStr "b") cache_ok_empty)
    as (k1 & k2 & Hrun & Hiff & _).
  exists k1, k2. split; [exact Hrun | exact Hiff].
Defined.

(** A second [get_resource_key] of a raw value that is still interned
    returns the same key and changes nothing. *)
Theorem interner_second_call_is_silent (st : State) (raw : Raw) :
  let st1 := (_ResourceKey.get_resource_key raw st).1 in
  _ResourceKey.get_resource_key raw st1
  = (st1, (_ResourceKey.get_resource_key raw st).2).
Proof.
  intros st1. subst st1. rewrite !get_resource_key_run. cbn [fst snd cls self _get_object_hook].
  rewrite (intern_hit raw _ _ (intern_lookup raw (cls st))). reflexivity.
Qed.

(** ** Binding and resolving *)

Lemma conflict_no_warn (old : option Obj) (o : Obj) : conflict false old o = false.
Proof. destruct old; reflexivity. Qed.

(** After a bind the handle's own CompositeKey resolves to the object. *)
Lemma set_referred_object_binds (st : State) (rk : Key) (i : PyId)
    (o : Obj) (warn_ : bool) (parent : PyVal) :
  _resource_key__ (self st) = Some rk -> id_value (self st) = Ok i ->
  exists st',
    set_referred_object o warn_ parent st = (st', Ok tt)
    /\ _resource_key__ (self st') = Some rk
    /\ id_value (self st') = Ok i
    /\ _get_object_hook st' = _get_object_hook st
    /\ Spec.direct (cls st') (self st') i = Some o
    /\ _object_id (self st') = Some (oid o)
    /\ warnings (cls st')
       = warnings (cls st)
         ++ (if conflict warn_ (old_of (cls st) (self st) i) o
             then [RebindingConflict i] else []).
Proof.
  intros Hrk Hid.
  destruct (set_referred_object_run st rk i o warn_ parent Hrk Hid)
    as (st' & Hrun & Hmap & _ & Hw & Hh & Hoid & Hrk' & Hid').
  exists st'. repeat split; try assumption.
  unfold Spec.direct. rewrite Hmap, Hoid. apply lookup_insert_eq.
Qed.

(** X2. Binding an object and resolving through the same handle gives that
    object back, whatever [warn] and [parent] were, and the resolution
    changes nothing. *)
Theorem bind_then_resolve (st : State) (rk : Key) (i : PyId)
    (o : Obj) (warn_ : bool) (parent : PyVal) :
  _resource_key__ (self st) = Some rk -> id_value (self st) = Ok i ->
  let st1 := (set_referred_object o warn_ parent st).1 in
  (set_referred_object o warn_ parent st).2 = Ok tt
  /\ get_referred_object st1 = (st1, Ok (Some o)).
Proof.
  intros Hrk Hid st1.
  destruct (set_referred_object_binds st rk i o warn_ parent Hrk Hid)
    as (st' & Hrun & Hrk' & Hid' & _ & Hdirect & _).
  subst st1. rewrite Hrun. cbn [fst snd]. split; [reflexivity|].
  destruct (get_referred_object_run st' rk i Hrk' Hid') as (st'' & Hrun' & Hsame & _).
  rewrite Hrun'. rewrite (Hsame (ex_intro _ o Hdirect)).
  unfold Spec.resolve. rewrite Hdirect. reflexivity.
Qed.

Lemma bind_then_resolve_witness :
  let st := mkState (mkRID (Some true) None None (Some "s") (Some 1%positive) None None)
                    empty_class [] in
  get_referred_object (set_referred_object obj_X true (PInt 7) st).1
  = ((set_referred_object obj_X true (PInt 7) st).1, Ok (Some obj_X)).
Proof.
  intros st.
  destruct (bind_then_resolve st 1%positive (Some "s") obj_X true (PInt 7) eq_refl eq_refl)
    as (_ & H).
  exact H.
Defined.

(** Steps 2 and 3, with what they leave behind. *)
Lemma get_similar_binds (st : State) (rk : Key) (i : PyId) :
  _resource_key__ (self st) = Some rk -> id_value (self st) = Ok i ->
  let c := cls st in
  let h := self st in
  let r := match Spec.scoped c h i with
           | Some o => Some o
           | None => Spec.recency c h i
           end in
  exists st',
    _get_similar_referred_object st = (st', Ok r)
    /\ _resource_key__ (self st') = Some rk
    /\ id_value (self st') = Ok i
    /\ _get_object_hook st' = _get_object_hook st
    /\ warnings (cls st') = warnings (Spec.liveness_lost c h i)
    /\ (forall o, r = Some o ->
          Spec.direct (cls st') (self st') i = Some o
          /\ _object_id (self st') = Some (oid o))
    /\ (r = None -> st' = mkState h (Spec.after_fallback c h i) (_get_object_hook st)).
Proof.
  intros Hrk Hid c h r. unfold _get_similar_referred_object.
  mprim. mstep ltac:(apply liveness_warning_run; exact Hid).
  set (st1 := mkState (self st) (Spec.liveness_lost (cls st) (self st) i) (_get_object_hook st)).
  destruct (liveness_lost_frame c h i) as (Lm & Lt & Lo).
  mstep ltac:(apply (get_object_from_parent_scope_run st1 rk i Hrk Hid)).
  assert (Hsc : Spec.scoped (cls st1) (self st1) i = Spec.scoped c h i)
    by (apply scoped_ext; assumption).
  rewrite Hsc. subst r.
  destruct (Spec.scoped c h i) as [o|] eqn:Esc.
  - mprim.
    destruct (set_referred_object_binds st1 rk i o false PNone Hrk Hid)
      as (st' & Hrun & Hrk' & Hid' & Hh & Hdir & Hoid & Hw).
    mstep ltac:(exact Hrun).
    exists st'. split; [reflexivity|].
    rewrite conflict_no_warn, app_nil_r in Hw.
    split; [exact Hrk'|]. split; [exact Hid'|]. split; [exact Hh|]. split; [exact Hw|].
    split; [intros o' [= <-]; split; assumption | discriminate].
  - mstep ltac:(apply (get_newest_run st1 rk i Hrk Hid)).
    assert (Hre : Spec.recency (cls st1) (self st1) i = Spec.recency c h i)
      by (apply recency_ext; assumption).
    rewrite Hre.
    set (st2 := mkState (self st1) (Spec.prune_order (cls st1) (self st1) i)
                        (_get_object_hook st1)).
    destruct (prune_order_frame (cls st1) (self st1) i) as (_ & _ & Pw).
    destruct (Spec.recency c h i) as [o|] eqn:Ere.
    + destruct (set_referred_object_binds st2 rk i o false PNone Hrk Hid)
        as (st' & Hrun & Hrk' & Hid' & Hh & Hdir & Hoid & Hw).
      mstep ltac:(exact Hrun).
      exists st'. split; [reflexivity|].
      rewrite conflict_no_warn, app_nil_r in Hw.
      split; [exact Hrk'|]. split; [exact Hid'|]. split; [exact Hh|].
      split; [rewrite Hw; exact Pw|].
      split; [intros o' [= <-]; split; assumption | discriminate].
    + mprim. exists st2. split; [reflexivity|].
      split; [exact Hrk|]. split; [exact Hid|]. split; [reflexivity|].
      split; [exact Pw|]. split; [discriminate | reflexivity].
Qed.

(** Step 4, with what it leaves behind. *)
Lemma iterate_hooks_binds (rk : Key) (i : PyId) (hooks : list Hook) :
  forall st : State,
    _resource_key__ (self st) = Some rk -> id_value (self st) = Ok i ->
    exists st' r,
      iterate_hooks hooks st = (st', Ok r)
      /\ _resource_key__ (self st') = Some rk
      /\ id_value (self st') = Ok i
      /\ _get_object_hook st' = _get_object_hook st
      /\ (forall o, r = Some o -> Spec.direct (cls st') (self st') i = Some o).
Proof.
  induction hooks as [|hook rest IH]; intros st Hrk Hid.
  - exists st, None. repeat split; try assumption. discriminate.
  - cbn [iterate_hooks].
    mstep ltac:(apply get_id_ok; exact Hid).
    unfold call_hook at 1. unfold bind at 1.
    destruct (hook i (cls st)) as [c' [o|]] eqn:Eh; cbv beta iota.
    + set (st1 := mkState (self st) c' (_get_object_hook st)).
      destruct (set_referred_object_binds st1 rk i o true PNone Hrk Hid)
        as (st' & Hrun & Hrk' & Hid' & Hh & Hdir & _).
      mstep ltac:(exact Hrun).
      exists st', (Some o). split; [reflexivity|].
      repeat split; try assumption. intros o' [= <-]. exact Hdir.
    + apply (IH (mkState (self st) c' (_get_object_hook st)) Hrk Hid).
Qed.

(** X3. Resolution is stable: when [get_referred_object] has returned an
    object, by whichever step, the handle is bound to it, and a second call
    returns the same object and changes nothing. *)
Theorem resolve_twice (st st' : State) (rk : Key) (i : PyId) (o : Obj) :
  _resource_key__ (self st) = Some rk -> id_value (self st) = Ok i ->
  get_referred_object st = (st', Ok (Some o)) ->
  get_referred_object st' = (st', Ok (Some o)).
Proof.
  intros Hrk Hid Hrun.
  assert (H : _resource_key__ (self st') = Some rk /\ id_value (self st') = Ok i
              /\ Spec.direct (cls st') (self st') i = Some o).
  { revert Hrun. unfold get_referred_object.
    mstep ltac:(eapply object_key_run; eassumption). mprim.
    destruct (_id_object_map (cls st) !! (_object_id (self st), i)) as [o0|] eqn:Ed.
    - mprim. unfold ret. intros [= <- <-]. repeat split; assumption.
    - destruct (get_similar_binds st rk i Hrk Hid)
        as (s1 & Hrun1 & Hrk1 & Hid1 & Hh1 & _ & Hdir1 & _).
      mstep ltac:(exact Hrun1).
      destruct (match Spec.scoped (cls st) (self st) i with
                | Some o1 => Some o1
                | None => Spec.recency (cls st) (self st) i
                end) as [o1|] eqn:Er.
      + unfold ret. intros [= <- <-]. repeat split; try assumption.
        apply (Hdir1 o1 eq_refl).
      + mprim.
        destruct (iterate_hooks_binds rk i (_get_object_hook s1) s1 Hrk1 Hid1)
          as (s2 & r & Hrun2 & Hrk2 & Hid2 & _ & Hdir2).
        rewrite Hrun2. intros [= <- ->]. repeat split; try assumption.
        apply Hdir2. reflexivity. }
  destruct H as (Hrk' & Hid' & Hdir).
  destruct (get_referred_object_run st' rk i Hrk' Hid') as (st'' & Hrun' & Hsame & _).
  rewrite Hrun', (Hsame (ex_intro _ o Hdir)).
  unfold Spec.resolve. rewrite Hdir. reflexivity.
Qed.

Lemma resolve_twice_witness :
  get_referred_object (get_referred_object stale_tail_state).1
  = ((get_referred_object stale_tail_state).1, Ok (Some obj_Y)).
Proof.
  apply (resolve_twice stale_tail_state _ 1%positive (Some "s") obj_Y eq_refl eq_refl).
  vm_compute. reflexivity.
Defined.

(** ** Warnings and liveness during resolution *)

Lemma liveness_lost_warnings (c : ClassState) (h : RID) (i : PyId) :
  warnings (Spec.liveness_lost c h i)
  = warnings c ++ match _object_id h with
                  | Some a => [LivenessLost a i]
                  | None => []
                  end.
Proof.
  unfold Spec.liveness_lost. destruct (_object_id h); simpl; [reflexivity|].
  rewrite app_nil_r. reflexivity.
Qed.

Lemma emitted_same (c : ClassState) : emitted c c = [].
Proof. apply emitted_app. rewrite app_nil_r. reflexivity. Qed.

(** The run of [get_referred_object] when steps 1 to 3 decide. *)
Lemma get_referred_object_fallback (st : State) (rk : Key) (i : PyId) :
  _resource_key__ (self st) = Some rk -> id_value (self st) = Ok i ->
  let c := cls st in
  let h := self st in
  let r := match Spec.scoped c h i with
           | Some o => Some o
           | None => Spec.recency c h i
           end in
  Spec.direct c h i = None ->
  (is_Some r \/ _get_object_hook st = []) ->
  exists st',
    get_referred_object st = (st', Ok r)
    /\ warnings (cls st') = warnings (Spec.liveness_lost c h i)
    /\ (forall o, r = Some o -> _object_id (self st') = Some (oid o))
    /\ (r = None -> st' = mkState h (Spec.after_fallback c h i) []).
Proof.
  intros Hrk Hid c h r Hdirect Hcase.
  unfold get_referred_object.
  mstep ltac:(eapply object_key_run; eassumption). mprim.
  unfold Spec.direct in Hdirect. fold c h. rewrite Hdirect.
  destruct (get_similar_binds st rk i Hrk Hid)
    as (s1 & Hrun1 & _ & _ & Hh1 & Hw1 & Hbound & Hnone).
  fold c h r in Hrun1, Hw1, Hbound, Hnone.
  mstep ltac:(exact Hrun1).
  destruct r as [o|] eqn:Er.
  - exists s1. split; [reflexivity|]. split; [exact Hw1|].
    split; [|discriminate]. intros o' E. apply (Hbound o' E).
  - destruct Hcase as [[o E]|Hhooks]; [discriminate E|].
    specialize (Hnone eq_refl). subst s1. mprim. cbn [_get_object_hook].
    rewrite Hhooks. cbn [iterate_hooks ret].
    eexists. split; [reflexivity|]. cbn [cls].
    destruct (prune_order_frame (Spec.liveness_lost c h i) h i) as (_ & _ & Pw).
    split; [exact Pw|]. split; [discriminate | reflexivity].
Qed.

(** X4. Resolution by the direct row, the parent scope or the recency
    fallback never adds a rebinding warning. A direct hit adds nothing;
    otherwise the log gets the liveness-lost warning exactly when the handle
    had recorded a bound object, and nothing else. The same holds when no
    step answers and no hook is registered. *)
Theorem fallback_warns_only_of_lost_object (st : State) (rk : Key) (i : PyId) :
  _resource_key__ (self st) = Some rk -> id_value (self st) = Ok i ->
  let c := cls st in
  let h := self st in
  let out := get_referred_object st in
  (is_Some (Spec.direct c h i) -> emitted c (cls out.1) = [])
  /\ (Spec.direct c h i = None ->
      is_Some (Spec.scoped c h i) \/ is_Some (Spec.recency c h i)
      \/ _get_object_hook st = [] ->
      emitted c (cls out.1)
      = match _object_id h with
        | Some a => [LivenessLost a i]
        | None => []
        end).
Proof.
  intros Hrk Hid c h out. split.
  - intros Hd.
    destruct (get_referred_object_run st rk i Hrk Hid) as (st' & Hrun & Hsame & _).
    subst out. rewrite Hrun. cbn [fst]. rewrite (Hsame Hd). apply emitted_same.
  - intros Hd Hcase.
    assert (Hcase' : is_Some (match Spec.scoped c h i with
                              | Some o => Some o
                              | None => Spec.recency c h i
                              end) \/ _get_object_hook st = []).
    { destruct Hcase as [[o E]|[[o E]|E]].
      - left. rewrite E. eauto.
      - left. destruct (Spec.scoped c h i); eauto.
      - right. exact E. }
    destruct (get_referred_object_fallback st rk i Hrk Hid Hd Hcase')
      as (st' & Hrun & Hw & _).
    subst out. rewrite Hrun. cbn [fst].
    apply emitted_app. rewrite Hw. apply liveness_lost_warnings.
Qed.

Lemma fallback_warns_witness :
  emitted (cls stale_tail_state) (cls (get_referred_object stale_tail_state).1) = [].
Proof.
  destruct (fallback_warns_only_of_lost_object stale_tail_state 1%positive (Some "s")
              eq_refl eq_refl) as (_ & H).
  apply H.
  - vm_compute. reflexivity.
  - right. left. exists obj_Y. vm_compute. reflexivity.
Defined.

(** What survives the pruning ends with an entry that is not stale. *)
Lemma prune_last_not_stale (c : ClassState) (i : PyId) (l : list ObjKey) (k : ObjKey) :
  last (Spec.prune c i l) = Some k -> Spec.stale c i k = false.
Proof.
  induction l as [|x l IH] using rev_ind; [discriminate|].
  rewrite prune_snoc. destruct (Spec.stale c i x) eqn:E; [exact IH|].
  rewrite last_snoc. intros [= <-]. exact E.
Qed.

(** X5. Without hooks, an object that [get_referred_object] returns is a
    value of the object map under a CompositeKey whose id component is the
    handle's id. So an object the environment has just dropped is never
    returned. *)
Theorem resolved_object_is_live (st : State) (rk : Key) (i : PyId) (o : Obj) :
  _resource_key__ (self st) = Some rk -> id_value (self st) = Ok i ->
  _get_object_hook st = [] ->
  (get_referred_object st).2 = Ok (Some o) ->
  (exists k, _id_object_map (cls st) !! k = Some o /\ k.2 = i)
  /\ (forall a c0, cls st = gc_object a c0 -> oid o <> a).
Proof.
  intros Hrk Hid Hhooks Hrun.
  assert (Hrow : exists k, _id_object_map (cls st) !! k = Some o /\ k.2 = i).
  { destruct (get_referred_object_run st rk i Hrk Hid) as (st' & Hrun' & _).
    rewrite Hrun' in Hrun. cbn [snd] in Hrun. injection Hrun as Hres.
    unfold Spec.resolve in Hres. rewrite Hhooks in Hres.
    destruct (Spec.direct (cls st) (self st) i) as [o1|] eqn:Ed.
    { injection Hres as ->. eexists. split; [exact Ed | reflexivity]. }
    destruct (Spec.scoped (cls st) (self st) i) as [o1|] eqn:Es.
    { injection Hres as ->. unfold Spec.scoped in Es.
      destruct (_parent_key__ (self st)) as [pk|]; [|discriminate Es]. simpl in Es.
      destruct (_parent_id_tree (cls st) !! pk) as [inner|]; [|discriminate Es].
      simpl in Es. rewrite Hrk in Es. simpl in Es.
      destruct (inner !! rk) as [k|]; [|discriminate Es]. simpl in Es.
      destruct (_id_object_map (cls st) !! k) as [o1|] eqn:Ek; [|discriminate Es].
      simpl in Es. destruct (bool_decide (k.2 = i)) eqn:Eb; [|discriminate Es].
      injection Es as ->. apply bool_decide_eq_true_1 in Eb.
      exists k. split; assumption. }
    destruct (Spec.recency (cls st) (self st) i) as [o1|] eqn:Er; [|discriminate Hres].
    injection Hres as ->. unfold Spec.recency, Spec.assignment_order in Er.
    rewrite Hrk in Er. simpl in Er.
    destruct (_id_order (cls st) !! rk) as [l|]; [|discriminate Er]. simpl in Er.
    destruct (last (Spec.prune (cls st) i l)) as [k|] eqn:El; [|discriminate Er].
    simpl in Er. apply prune_last_not_stale in El. unfold Spec.stale in El.
    rewrite Er in El. apply negb_false_iff, bool_decide_eq_true_1 in El.
    exists k. split; assumption. }
  split; [exact Hrow|].
  intros a c0 Hgc. destruct Hrow as (k & Hk & _). rewrite Hgc in Hk.
  simpl in Hk. apply map_lookup_filter_Some in Hk as [_ Hk]. exact Hk.
Qed.

Lemma resolved_object_is_live_witness :
  (exists k, _id_object_map (cls stale_tail_state) !! k = Some obj_Y /\ k.2 = Some "s")
  /\ (forall a c0, cls stale_tail_state = gc_object a c0 -> oid obj_Y <> a).
Proof.
  apply (resolved_object_is_live stale_tail_state 1%positive (Some "s") obj_Y eq_refl eq_refl).
  - reflexivity.
  - vm_compute. reflexivity.
Defined.

(** X6. The promise of the class docstring. A handle without parent scope is
    bound to [b]; the entry before [b]'s in the assignment order of its key
    is the row of another live object [a] of the same id. When the
    environment drops [b], the next [get_referred_object] returns [a], warns
    that the bound object is lost, binds the handle to [a], and leaves the
    list without [b]'s entry and with [a]'s appended once more. *)
Theorem falls_back_to_previous_object
    (st : State) (rk : Key) (i : PyId) (a b : Obj) (l : list ObjKey) :
  _resource_key__ (self st) = Some rk -> id_value (self st) = Ok i ->
  _parent_key__ (self st) = None ->
  _object_id (self st) = Some (oid b) ->
  oid a <> oid b ->
  _id_order (cls st) !! rk = Some (l ++ [(Some (oid a), i); (Some (oid b), i)]) ->
  _id_object_map (cls st) !! (Some (oid a), i) = Some a ->
  _id_object_map (cls st) !! (Some (oid b), i) = Some b ->
  let st1 := mkState (self st) (gc_object (oid b) (cls st)) (_get_object_hook st) in
  let out := get_referred_object st1 in
  out.2 = Ok (Some a)
  /\ emitted (cls st1) (cls out.1) = [LivenessLost (oid b) i]
  /\ _object_id (self out.1) = Some (oid a)
  /\ _id_order (cls out.1) !! rk
     = Some (l ++ [(Some (oid a), i); (Some (oid a), i)]).
Proof.
  intros Hrk Hid Hpk Hoid Hne Hl Ha Hb st1 out.
  set (ka := (Some (oid a), i) : ObjKey) in *.
  set (kb := (Some (oid b), i) : ObjKey) in *.
  assert (Hrk1 : _resource_key__ (self st1) = Some rk) by exact Hrk.
  assert (Hid1 : id_value (self st1) = Ok i) by exact Hid.
  assert (Hdead : _id_object_map (cls st1) !! kb = None).
  { subst st1. simpl. apply map_lookup_filter_None. right.
    intros o Ho. rewrite Hb in Ho. injection Ho as <-. simpl. intros H. apply H. reflexivity. }
  assert (Hlive : _id_object_map (cls st1) !! ka = Some a).
  { subst st1. simpl. apply map_lookup_filter_Some. split; [exact Ha | exact Hne]. }
  assert (Hd : Spec.direct (cls st1) (self st1) i = None).
  { unfold Spec.direct. subst st1. cbn [self cls]. rewrite Hoid. exact Hdead. }
  assert (Hs : Spec.scoped (cls st1) (self st1) i = None).
  { unfold Spec.scoped. subst st1. cbn [self]. rewrite Hpk. reflexivity. }
  assert (Hprune : Spec.prune (cls st1) i (l ++ [ka; kb]) = l ++ [ka]).
  { replace (l ++ [ka; kb]) with ((l ++ [ka]) ++ [kb]) by (rewrite <- app_assoc; reflexivity).
    rewrite prune_snoc. unfold Spec.stale at 1. rewrite Hdead.
    rewrite prune_snoc. unfold Spec.stale. rewrite Hlive.
    rewrite bool_decide_eq_true_2 by reflexivity. reflexivity. }
  assert (Hord : _id_order (cls st1) !! rk = Some (l ++ [ka; kb])) by exact Hl.
  assert (Hr : Spec.recency (cls st1) (self st1) i = Some a).
  { unfold Spec.recency, Spec.assignment_order. rewrite Hrk1.
    cbn [mbind option_bind]. rewrite Hord.
    cbn [mbind option_bind]. rewrite Hprune, last_snoc. exact Hlive. }
  destruct (get_referred_object_run st1 rk i Hrk1 Hid1) as (s' & Hrun & _ & Hpruned & _).
  assert (Hcase : is_Some (match Spec.scoped (cls st1) (self st1) i with
                           | Some o => Some o
                           | None => Spec.recency (cls st1) (self st1) i
                           end) \/ _get_object_hook st1 = []).
  { left. rewrite Hs, Hr. eauto. }
  destruct (get_referred_object_fallback st1 rk i Hrk1 Hid1 Hd Hcase)
    as (s'' & Hrun2 & Hw & Hbound & _).
  rewrite Hs, Hr in Hrun2, Hbound.
  assert (s'' = s') by congruence. subst s''.
  subst out. rewrite Hrun2. cbn [fst snd].
  split; [reflexivity|].
  split.
  { apply emitted_app. rewrite Hw, liveness_lost_warnings.
    subst st1. cbn [self]. rewrite Hoid. reflexivity. }
  split; [apply Hbound; reflexivity|].
  rewrite (Hpruned Hd Hs a (l ++ [ka; kb]) Hr Hord), Hprune.
  rewrite <- app_assoc. reflexivity.
Qed.

Lemma falls_back_witness :
  let h := mkRID (Some true) None None (Some "s") (Some 1%positive) None (Some 3000) in
  let c := mkClass {[ RStr "s" := 1%positive ]} 2%positive ∅
             {[ 1%positive := [(Some 2000, Some "s"); (Some 3000, Some "s")] ]}
             (<[ (Some 2000, Some "s") := obj_Y ]> {[ (Some 3000, Some "s") := obj_Z ]}) [] in
  (get_referred_object (mkState h (gc_object 3000 c) [])).2 = Ok (Some obj_Y).
Proof.
  intros h c.
  assert (Hne : oid obj_Y <> oid obj_Z) by discriminate.
  destruct (falls_back_to_previous_object (mkState h c []) 1%positive (Some "s") obj_Y obj_Z []
              eq_refl eq_refl eq_refl eq_refl Hne eq_refl eq_refl eq_refl) as (H & _).
  exact H.
Defined.

(** ** Parent scope *)

Lemma write_scope_row_tree (st : State) (rk pk : Key) (i : PyId) :
  _resource_key__ (self st) = Some rk -> id_value (self st) = Ok i ->
  _parent_key__ (self st) = Some pk ->
  exists c', write_scope_row st = (mkState (self st) c' (_get_object_hook st), Ok tt)
             /\ same_rows (cls st) c'
             /\ tree_row c' pk rk = Some (_object_id (self st), i).
Proof.
  intros Hrk Hid Hpk. unfold write_scope_row.
  mstep ltac:(apply parent_key_run). rewrite Hpk. mprim.
  unfold weak_contains.
  destruct (_parent_id_tree (cls st) !! pk) as [inner|] eqn:Hin.
  - rewrite bool_decide_eq_true_2 by eauto. simpl negb. cbv iota.
    mprim. mprim.
    mstep ltac:(eapply object_key_run; eassumption).
    unfold weak_getitem. rewrite Hin. mprim.
    mstep ltac:(eapply resource_key_run; eassumption).
    mprim. mprim. mprim.
    eexists. split; [reflexivity|]. split; [repeat split|].
    unfold tree_row. cbn [_parent_id_tree set_tree].
    rewrite lookup_insert_eq. cbn [mbind option_bind]. apply lookup_insert_eq.
  - rewrite bool_decide_eq_false_2 by (intros [? ?]; discriminate). simpl negb. cbv iota.
    mprim. mprim.
    mstep ltac:(eapply object_key_run; eassumption).
    unfold weak_getitem, weak_setitem. rewrite lookup_insert_eq. mprim.
    mstep ltac:(eapply resource_key_run; eassumption).
    mprim. mprim. mprim.
    eexists. split; [reflexivity|]. split; [repeat split|].
    unfold tree_row. cbn [_parent_id_tree set_tree].
    rewrite lookup_insert_eq. cbn [mbind option_bind]. apply lookup_insert_eq.
Qed.

(** A bind through a handle that has a parent key writes the row of its
    parent scope. *)
Lemma set_referred_object_scoped (st : State) (rk pk : Key) (i : PyId)
    (o : Obj) (warn_ : bool) :
  _resource_key__ (self st) = Some rk -> id_value (self st) = Ok i ->
  _parent_key__ (self st) = Some pk ->
  exists st',
    set_referred_object o warn_ PNone st = (st', Ok tt)
    /\ tree_row (cls st') pk rk = Some (Some (oid o), i).
Proof.
  intros Hrk Hid Hpk. unfold set_referred_object.
  mstep ltac:(eapply last_bound_run; eassumption).
  mstep ltac:(eapply warn_if_rebinding_run; eassumption).
  set (st1 := if conflict _ _ _ then _ else st).
  assert (Hs1 : self st1 = self st) by (subst st1; destruct (conflict _ _ _); reflexivity).
  clearbody st1. mprim. mprim.
  set (st2 := mkState (set_object_id (oid o) (self st1)) (cls st1) (_get_object_hook st1)).
  assert (Hrk2 : _resource_key__ (self st2) = Some rk) by (simpl; rewrite Hs1; exact Hrk).
  assert (Hid2 : id_value (self st2) = Ok i) by (rewrite <- Hid, <- Hs1; reflexivity).
  assert (Hpk2 : _parent_key__ (self st2) = Some pk) by (simpl; rewrite Hs1; exact Hpk).
  destruct (write_scope_row_tree st2 rk pk i Hrk2 Hid2 Hpk2) as (c3 & Hrun3 & _ & Hrow).
  assert (Hscope : scope_to_parent PNone st2
                   = (mkState (self st2) c3 (_get_object_hook st2), Ok tt)).
  { unfold scope_to_parent. mstep ltac:(apply parent_key_run).
    rewrite Hpk2. cbn [negb is_none orb].
    rewrite bool_decide_eq_true_2 by eauto. mprim. exact Hrun3. }
  mstep ltac:(exact Hscope).
  erewrite record_assignment_run by eassumption.
  eexists. split; [reflexivity|]. exact Hrow.
Qed.

(** A bind through a handle without parent key, with no [parent] given,
    leaves the parent tree alone. *)
Lemma set_referred_object_unscoped (st : State) (rk : Key) (i : PyId)
    (o : Obj) (warn_ : bool) :
  _resource_key__ (self st) = Some rk -> id_value (self st) = Ok i ->
  _parent_key__ (self st) = None ->
  exists st',
    set_referred_object o warn_ PNone st = (st', Ok tt)
    /\ _parent_id_tree (cls st') = _parent_id_tree (cls st).
Proof.
  intros Hrk Hid Hpk. unfold set_referred_object.
  mstep ltac:(eapply last_bound_run; eassumption).
  mstep ltac:(eapply warn_if_rebinding_run; eassumption).
  set (st1 := if conflict _ _ _ then _ else st).
  assert (Hs1 : self st1 = self st /\ _parent_id_tree (cls st1) = _parent_id_tree (cls st))
    by (subst st1; destruct (conflict _ _ _); split; reflexivity).
  clearbody st1. destruct Hs1 as (Hs1 & Ht1). mprim. mprim.
  set (st2 := mkState (set_object_id (oid o) (self st1)) (cls st1) (_get_object_hook st1)).
  assert (Hrk2 : _resource_key__ (self st2) = Some rk) by (simpl; rewrite Hs1; exact Hrk).
  assert (Hid2 : id_value (self st2) = Ok i) by (rewrite <- Hid, <- Hs1; reflexivity).
  assert (Hscope : scope_to_parent PNone st2 = (st2, Ok tt)).
  { unfold scope_to_parent. mstep ltac:(apply parent_key_run).
    subst st2. cbn [self _parent_key__ set_object_id]. rewrite Hs1, Hpk. reflexivity. }
  mstep ltac:(exact Hscope).
  erewrite record_assignment_run by eassumption.
  eexists. split; [reflexivity|]. exact Ht1.
Qed.

Lemma scoped_by_row (c : ClassState) (h : RID) (i : PyId) (pk rk : Key) :
  _parent_key__ h = Some pk -> _resource_key__ h = Some rk ->
  Spec.scoped c h i
  = (obj_key ← tree_row c pk rk;
     o ← _id_object_map c !! obj_key;
     if bool_decide (obj_key.2 = i) then Some o else None).
Proof.
  intros Hpk Hrk. unfold Spec.scoped, tree_row. rewrite Hpk, Hrk.
  cbn [mbind option_bind].
  destruct (_parent_id_tree c !! pk) as [inner|]; reflexivity.
Qed.

(** X7. Scoping shields a binding. [o] is bound through a handle of parent
    scope [pk]; afterwards another object [X] is bound under the same id
    through a handle without parent scope. [B] is a handle of the scope
    [pk] and [D] a handle without scope, both without a live binding of
    their own. From the state the two binds leave, the next resolution
    gives [o] on [B], and gives the more recent [X] on [D]. The order of
    the two resolutions matters for [D] only: when [B] is resolved first,
    its implicit bind makes [o] the most recent entry, and [D], resolved
    after it, gives [o]; [B] resolved after [D] still gives [o]. *)
Theorem parent_scope_outlives_later_bind
    (st : State) (C B D : RID) (o X : Obj) (rk pk : Key) (i : PyId) (w1 w2 : bool) :
  _resource_key__ (self st) = Some rk -> id_value (self st) = Ok i ->
  _parent_key__ (self st) = Some pk ->
  _resource_key__ C = Some rk -> id_value C = Ok i -> _parent_key__ C = None ->
  _resource_key__ B = Some rk -> id_value B = Ok i -> _parent_key__ B = Some pk ->
  _resource_key__ D = Some rk -> id_value D = Ok i -> _parent_key__ D = None ->
  oid X <> oid o ->
  let st1 := (set_referred_object o w1 PNone st).1 in
  let st2 := (call_on C (set_referred_object X w2 PNone) st1).1 in
  Spec.direct (cls st2) B i = None -> Spec.direct (cls st2) D i = None ->
  (resolve_on B st2).2 = Ok (Some o)
  /\ (resolve_on D st2).2 = Ok (Some X)
  /\ (resolve_on D (resolve_on B st2).1).2 = Ok (Some o)
  /\ (resolve_on B (resolve_on D st2).1).2 = Ok (Some o).
Proof.
  intros HrkA HidA HpkA HrkC HidC HpkC HrkB HidB HpkB HrkD HidD HpkD Hne st1 st2 HdB HdD.
  destruct (set_referred_object_run st rk i o w1 PNone HrkA HidA)
    as (s1 & Hrun1 & Hmap1 & _).
  destruct (set_referred_object_scoped st rk pk i o w1 HrkA HidA HpkA)
    as (s1' & Hrun1' & Hrow1).
  assert (s1' = s1) by congruence. subst s1'.
  assert (Est1 : st1 = s1) by (subst st1; rewrite Hrun1; reflexivity).
  clearbody st1. subst st1.
  set (stC := mkState C (cls s1) (_get_object_hook s1)).
  destruct (set_referred_object_run stC rk i X w2 PNone HrkC HidC)
    as (s2 & Hrun2 & Hmap2 & Hord2 & _).
  destruct (set_referred_object_unscoped stC rk i X w2 HrkC HidC HpkC)
    as (s2' & Hrun2' & Htree2).
  assert (s2' = s2) by congruence. subst s2'.
  assert (Est2 : st2 = mkState (self s1) (cls s2) (_get_object_hook s2)).
  { subst st2. erewrite call_on_ok by exact Hrun2. reflexivity. }
  clearbody st2. subst st2. cbn [cls self _get_object_hook] in *.
  set (ko := (Some (oid o), i) : ObjKey) in *.
  set (kX := (Some (oid X), i) : ObjKey) in *.
  assert (Hkne : ko <> kX).
  { intros E. apply Hne. injection E as E. symmetry. exact E. }
  assert (Hko : _id_object_map (cls s2) !! ko = Some o).
  { rewrite Hmap2, lookup_insert_ne.
    - subst stC. cbn [cls]. rewrite Hmap1. apply lookup_insert_eq.
    - intros E. apply Hkne. symmetry. exact E. }
  assert (HkX : _id_object_map (cls s2) !! kX = Some X)
    by (rewrite Hmap2; apply lookup_insert_eq).
  assert (Hrow2 : tree_row (cls s2) pk rk = Some ko).
  { unfold tree_row. rewrite Htree2. subst stC. cbn [cls]. exact Hrow1. }
  assert (HsB : Spec.scoped (cls s2) B i = Some o).
  { rewrite (scoped_by_row _ _ _ pk rk HpkB HrkB).
    rewrite Hrow2. cbn [mbind option_bind].
    rewrite Hko. cbn [mbind option_bind].
    rewrite bool_decide_eq_true_2 by reflexivity. reflexivity. }
  assert (HsD : Spec.scoped (cls s2) D i = None)
    by (unfold Spec.scoped; rewrite HpkD; reflexivity).
  assert (HrD : Spec.recency (cls s2) D i = Some X).
  { unfold Spec.recency, Spec.assignment_order. rewrite HrkD.
    cbn [mbind option_bind]. rewrite Hord2, lookup_insert_eq.
    cbn [mbind option_bind]. rewrite prune_snoc. unfold Spec.stale. rewrite HkX.
    rewrite bool_decide_eq_true_2 by reflexivity. cbn [negb].
    rewrite last_snoc. exact HkX. }
  set (hooks := _get_object_hook s2) in *.
  set (c2 := cls s2) in *.
  set (s2c := mkState (self s1) c2 hooks).
  set (stB := mkState B c2 hooks).
  set (stD := mkState D c2 hooks).
  assert (HresB : Spec.resolve stB i = Some o).
  { unfold Spec.resolve. subst stB. cbn [cls self]. rewrite HdB, HsB. reflexivity. }
  assert (HresD : Spec.resolve stD i = Some X).
  { unfold Spec.resolve. subst stD. cbn [cls self]. rewrite HdD, HsD, HrD. reflexivity. }
  assert (HaftB : state_after_resolve rk i stB
                  = after_bind false o rk i (mkState B (Spec.liveness_lost c2 B i) hooks)).
  { unfold state_after_resolve. subst stB. cbn [cls self _get_object_hook].
    rewrite HdB, HsB. reflexivity. }
  assert (HaftD : state_after_resolve rk i stD
                  = after_bind false X rk i (mkState D (Spec.after_fallback c2 D i) hooks)).
  { unfold state_after_resolve. subst stD. cbn [cls self _get_object_hook].
    rewrite HdD, HsD, HrD. reflexivity. }
  pose proof (resolve_on_exact B s2c rk i HrkB HidB) as HrunB.
  pose proof (resolve_on_exact D s2c rk i HrkD HidD) as HrunD.
  cbv zeta in HrunB, HrunD. subst s2c. cbn [cls self _get_object_hook] in HrunB, HrunD.
  fold stB in HrunB. fold stD in HrunD.
  rewrite HaftB, HresB in HrunB. rewrite HaftD, HresD in HrunD.
  split; [rewrite HrunB; reflexivity|].
  split; [rewrite HrunD; reflexivity|].
  split.
  - (* the scoped handle first, the unscoped one after it *)
    rewrite HrunB. cbn [fst].
    match goal with |- (resolve_on D ?s0).2 = _ => set (s3 := s0) end.
    rewrite (resolve_on_exact D s3 rk i HrkD HidD). cbn [snd]. f_equal.
    destruct (liveness_lost_frame c2 B i) as (Lm & _ & Lo).
    apply (resolve_of_last_entry _ rk i o
             (default [] (_id_order (Spec.liveness_lost c2 B i) !! rk))).
    + exact HrkD.
    + subst s3. unfold after_bind. cbn [cls self _id_order]. apply lookup_insert_eq.
    + subst s3. unfold after_bind. cbn [cls self _id_object_map]. apply lookup_insert_eq.
    + subst s3. unfold Spec.direct, after_bind. cbn [cls self _id_object_map].
      fold ko. destruct (decide ((_object_id D, i) = ko)) as [E|N].
      * right. rewrite E. apply lookup_insert_eq.
      * left. rewrite lookup_insert_ne by (intros E; apply N; symmetry; exact E).
        rewrite Lm. exact HdD.
    + left. unfold Spec.scoped. cbn [self]. rewrite HpkD. reflexivity.
  - (* the unscoped handle first, the scoped one after it *)
    rewrite HrunD. cbn [fst].
    match goal with |- (resolve_on B ?s0).2 = _ => set (s3 := s0) end.
    rewrite (resolve_on_exact B s3 rk i HrkB HidB). cbn [snd]. f_equal.
    destruct (after_fallback_frame c2 D i) as (Fm & Ft).
    assert (HBne : (_object_id B, i) <> kX).
    { intros E. unfold Spec.direct in HdB. rewrite E, HkX in HdB. discriminate HdB. }
    unfold Spec.resolve. cbn [cls self].
    assert (Hd3 : Spec.direct (cls s3) B i = None).
    { subst s3. unfold Spec.direct, after_bind. cbn [cls self _id_object_map].
      fold kX. rewrite lookup_insert_ne by (intros E; apply HBne; symmetry; exact E).
      rewrite Fm. exact HdB. }
    assert (Hs3 : Spec.scoped (cls s3) B i = Some o).
    { rewrite (scoped_by_row _ _ _ pk rk HpkB HrkB).
      assert (Ht3 : tree_row (cls s3) pk rk = Some ko).
      { subst s3. unfold tree_row, after_bind. cbn [cls self _parent_id_tree].
        rewrite HpkD, Ft. exact Hrow2. }
      rewrite Ht3. cbn [mbind option_bind].
      assert (Hm3 : _id_object_map (cls s3) !! ko = Some o).
      { subst s3. unfold after_bind. cbn [cls self _id_object_map]. fold kX.
        rewrite lookup_insert_ne by (intros E; apply Hkne; symmetry; exact E).
        rewrite Fm. exact Hko. }
      rewrite Hm3. cbn [mbind option_bind].
      rewrite bool_decide_eq_true_2 by reflexivity. reflexivity. }
    rewrite Hd3, Hs3. reflexivity.
Qed.

Lemma parent_scope_witness :
  let A := mkRID (Some true) None None (Some "s") (Some 1%positive) (Some 2%positive) None in
  let C := mkRID (Some true) None None (Some "s") (Some 1%positive) None None in
  let st1 := (set_referred_object obj_Y true PNone (mkState A empty_class [])).1 in
  let st2 := (call_on C (set_referred_object obj_X true PNone) st1).1 in
  (resolve_on A st2).2 = Ok (Some obj_Y)
  /\ (resolve_on C st2).2 = Ok (Some obj_X)
  /\ (resolve_on C (resolve_on A st2).1).2 = Ok (Some obj_Y)
  /\ (resolve_on A (resolve_on C st2).1).2 = Ok (Some obj_Y).
Proof.
  intros A C st1 st2.
  assert (Hne : oid obj_X <> oid obj_Y) by discriminate.
  apply (parent_scope_outlives_later_bind (mkState A empty_class []) C A C obj_Y obj_X
           1%positive 2%positive (Some "s") true true
           eq_refl eq_refl eq_refl eq_refl eq_refl eq_refl
           eq_refl eq_refl eq_refl eq_refl eq_refl eq_refl Hne).
  - vm_compute. reflexivity.
  - vm_compute. reflexivity.
Defined.

(** ** Hooks *)

Lemma iterate_hooks_app (h1 h2 : list Hook) :
  forall st : State,
    iterate_hooks (h1 ++ h2) st
    = match iterate_hooks h1 st with
      | (st', Ok None) => iterate_hooks h2 st'
      | other => other
      end.
Proof.
  induction h1 as [|hook rest IH]; intros st.
  - reflexivity.
  - cbn [iterate_hooks app]. unfold bind.
    destruct (get_id st) as [s [i|e]]; [|reflexivity].
    destruct (call_hook hook i s) as [s' [[o|]|e]]; [| apply IH | reflexivity].
    destruct (set_referred_object o true PNone s') as [s'' [[]|e]]; reflexivity.
Qed.

(** X8. [register_get_object_hook] puts the hook at the end of the list and
    touches nothing else; in the hook loop the new hook is reached only when
    every hook registered before it has answered [None], and an earlier
    answer or exception ends the loop without it. *)
Theorem later_hook_runs_only_after_earlier_fail (st : State) (f : Hook) :
  let st1 := (register_get_object_hook f st).1 in
  (register_get_object_hook f st).2 = Ok tt
  /\ _get_object_hook st1 = _get_object_hook st ++ [f]
  /\ self st1 = self st /\ cls st1 = cls st
  /\ forall s : State,
       iterate_hooks (_get_object_hook st1) s
       = match iterate_hooks (_get_object_hook st) s with
         | (s', Ok None) => iterate_hooks [f] s'
         | other => other
         end.
Proof.
  intros st1. subst st1. cbn.
  repeat split. intros s. apply iterate_hooks_app.
Qed.

Lemma old_of_after_fallback (c : ClassState) (h : RID) (i : PyId) (rk : Key) :
  _resource_key__ h = Some rk ->
  Spec.direct c h i = None -> Spec.recency c h i = None ->
  old_of (Spec.after_fallback c h i) h i = None.
Proof.
  intros Hrk Hd Hr. unfold old_of, Spec.after_fallback.
  destruct (liveness_lost_frame c h i) as (Lm & _ & Lo).
  destruct (prune_order_frame (Spec.liveness_lost c h i) h i) as (Pm & _ & _).
  rewrite Pm, Lm. unfold Spec.direct in Hd. rewrite Hd, Hrk.
  cbn [mbind option_bind].
  unfold Spec.prune_order. rewrite Hrk, Lo.
  unfold Spec.recency, Spec.assignment_order in Hr. rewrite Hrk in Hr.
  cbn [mbind option_bind] in Hr.
  destruct (_id_order c !! rk) as [l|] eqn:El.
  - cbn [_id_order set_order]. rewrite lookup_insert_eq. cbn [mbind option_bind] in *.
    rewrite (prune_ext c (Spec.liveness_lost c h i) i l Lm).
    destruct (last (Spec.prune c i l)) as [k|] eqn:Ek; [|reflexivity].
    cbn [mbind option_bind] in *. exfalso.
    apply prune_last_not_stale in Ek. unfold Spec.stale in Ek. rewrite Hr in Ek.
    discriminate Ek.
  - rewrite Lo, El. reflexivity.
Qed.

Lemma iterate_pure_hooks (rk : Key) (i : PyId) (hooks : list Hook) :
  Forall hook_is_pure hooks ->
  forall st : State,
    _resource_key__ (self st) = Some rk -> id_value (self st) = Ok i ->
    old_of (cls st) (self st) i = None ->
    exists st',
      iterate_hooks hooks st = (st', Ok (Spec.hooks_first hooks i (cls st)).2)
      /\ warnings (cls st') = warnings (cls st).
Proof.
  induction 1 as [|hook rest Hpure _ IH]; intros st Hrk Hid Hold.
  - exists st. split; reflexivity.
  - cbn [iterate_hooks Spec.hooks_first].
    mstep ltac:(apply get_id_ok; exact Hid).
    unfold call_hook at 1. unfold bind at 1.
    pose proof (Hpure i (cls st)) as Hc.
    destruct (hook i (cls st)) as [c' [o|]] eqn:Eh; cbv beta iota;
      cbn [fst] in Hc; subst c'; rewrite state_eta.
    + destruct (set_referred_object_binds st rk i o true PNone Hrk Hid)
        as (st' & Hrun & _ & _ & _ & _ & _ & Hw).
      mstep ltac:(exact Hrun).
      exists st'. split; [reflexivity|].
      rewrite Hw, Hold. cbn [conflict]. apply app_nil_r.
    + apply (IH st Hrk Hid Hold).
Qed.

(** X9. Hooks that leave the registry as they found it never cause a
    rebinding warning: when the direct row, the parent scope and the recency
    fallback all fail, the hook's object is bound with [warn=True], but no
    old object is left to conflict with. The log gets the liveness-lost
    warning of a handle that had recorded an object, and nothing else. *)
Theorem pure_hooks_never_warn_of_rebinding (st : State) (rk : Key) (i : PyId) :
  _resource_key__ (self st) = Some rk -> id_value (self st) = Ok i ->
  Forall hook_is_pure (_get_object_hook st) ->
  let c := cls st in
  let h := self st in
  Spec.direct c h i = None -> Spec.scoped c h i = None -> Spec.recency c h i = None ->
  let out := get_referred_object st in
  out.2 = Ok (Spec.resolve st i)
  /\ emitted c (cls out.1)
     = match _object_id h with
       | Some a => [LivenessLost a i]
       | None => []
       end.
Proof.
  intros Hrk Hid Hpure c h Hd Hs Hr out.
  destruct (get_referred_object_run st rk i Hrk Hid) as (st' & Hrun & _).
  subst out. rewrite Hrun. cbn [fst snd]. split; [reflexivity|].
  revert Hrun. unfold get_referred_object.
  mstep ltac:(eapply object_key_run; eassumption). mprim.
  unfold Spec.direct in Hd. fold c h. rewrite Hd.
  destruct (get_similar_binds st rk i Hrk Hid)
    as (s1 & Hrun1 & _ & _ & _ & _ & _ & Hnone).
  fold c h in Hrun1, Hnone. rewrite Hs, Hr in Hrun1, Hnone.
  mstep ltac:(exact Hrun1). specialize (Hnone eq_refl). subst s1.
  mprim. cbn [_get_object_hook].
  assert (Hold : old_of (Spec.after_fallback c h i) h i = None)
    by (apply (old_of_after_fallback c h i rk); assumption).
  destruct (iterate_pure_hooks rk i (_get_object_hook st) Hpure
              (mkState h (Spec.after_fallback c h i) (_get_object_hook st)) Hrk Hid Hold)
    as (s2 & Hrun2 & Hw2).
  rewrite Hrun2. intros [= <- _].
  apply emitted_app. rewrite Hw2. cbn [cls]. unfold Spec.after_fallback.
  destruct (prune_order_frame (Spec.liveness_lost c h i) h i) as (_ & _ & Pw).
  rewrite Pw. apply liveness_lost_warnings.
Qed.

Lemma pure_hooks_witness :
  let h := mkRID (Some true) None None (Some "s") (Some 1%positive) None None in
  let st := mkState h empty_class [fun _ c => (c, Some obj_X)] in
  (get_referred_object st).2 = Ok (Some obj_X)
  /\ emitted (cls st) (cls (get_referred_object st).1) = [].
Proof.
  intros h st.
  assert (Hpure : Forall hook_is_pure (_get_object_hook st)).
  { constructor; [|constructor]. intros i c. reflexivity. }
  exact (pure_hooks_never_warn_of_rebinding st 1%positive (Some "s") eq_refl eq_refl Hpure
           eq_refl eq_refl eq_refl).
Defined.

(** ** The URI helper *)

Lemma uri_str_run (st : State) (authority_id uuid4 : string) (i : PyId) :
  id_value (self st) = Ok i ->
  let conforms := re_match_anchored quakeml_regex in
  let id := if all_space (py_str i) then Some uuid4 else i in
  let prefixed := "smi:" +:+ authority_id +:+ "/" +:+ py_str id in
  get_quakeml_uri_str authority_id uuid4 st
  = (st, if conforms (py_str id) then Ok id
         else if conforms prefixed then Ok (Some prefixed) else Raise ValueError).
Proof.
  intros Hid conforms id prefixed. unfold get_quakeml_uri_str.
  mstep ltac:(apply get_id_ok; exact Hid).
  rewrite strip_blank. fold id. fold conforms.
  destruct (conforms (py_str id)); [reflexivity|].
  fold prefixed. destruct (conforms prefixed); reflexivity.
Qed.

(** X10. [get_quakeml_uri_str] is idempotent: what it returns for one handle
    is returned unchanged for any handle that has that string as its id,
    whatever the authority and the token. *)
Theorem quakeml_uri_str_idempotent
    (st st2 : State) (a a2 u u2 : string) (i r : PyId) :
  id_value (self st) = Ok i ->
  (get_quakeml_uri_str a u st).2 = Ok r ->
  id_value (self st2) = Ok r ->
  get_quakeml_uri_str a2 u2 st2 = (st2, Ok r).
Proof.
  intros Hid Hrun Hid2.
  assert (Hc : re_match_anchored quakeml_regex (py_str r) = true).
  { rewrite (uri_str_run st a u i Hid) in Hrun. cbn [snd] in Hrun.
    destruct (re_match_anchored quakeml_regex
                (py_str (if all_space (py_str i) then Some u else i))) eqn:E1.
    - injection Hrun as <-. exact E1.
    - destruct (re_match_anchored quakeml_regex _) eqn:E2 in Hrun; [|discriminate Hrun].
      injection Hrun as <-. exact E2. }
  rewrite (uri_str_run st2 a2 u2 r Hid2).
  rewrite (conforming_not_blank _ Hc), Hc. reflexivity.
Qed.

Lemma quakeml_uri_str_idempotent_witness :
  let h := mkRID (Some true) None None (Some "some_id") (Some 1%positive) None None in
  let h2 := mkRID (Some true) None None (Some "smi:local/some_id") (Some 2%positive) None None in
  get_quakeml_uri_str "other" "" (mkState h2 empty_class [])
  = (mkState h2 empty_class [], Ok (Some "smi:local/some_id")).
Proof.
  intros h h2.
  apply (quakeml_uri_str_idempotent (mkState h empty_class []) _ "local" "other" "" ""
           (Some "some_id")).
  - reflexivity.
  - vm_compute. reflexivity.
  - reflexivity.
Defined.

Lemma fullmatch_app (s1 s2 : string) :
  forall r, fullmatch r (s1 +:+ s2) = fullmatch (deriv_string s1 r) s2.
Proof. induction s1 as [|c s1 IH]; intros r; simpl; [reflexivity | apply IH]. Qed.

Lemma tail_char_is_not_newline (c : ascii) : cls_tail c = true -> Ascii.eqb newline c = false.
Proof.
  destruct c as [b0 b1 b2 b3 b4 b5 b6 b7].
  destruct b0, b1, b2, b3, b4, b5, b6, b7;
    intros H; vm_compute in H; try discriminate H; vm_compute; reflexivity.
Qed.

Lemma segment_char_is_tail_char (c : ascii) : cls_segment c = true -> cls_tail c = true.
Proof.
  destruct c as [b0 b1 b2 b3 b4 b5 b6 b7].
  destruct b0, b1, b2, b3, b4, b5, b6, b7;
    intros H; vm_compute in H; try discriminate H; vm_compute; reflexivity.
Qed.

Lemma tail_loop (s : string) :
  all_chars cls_tail s = true ->
  fullmatch (Seq (Star (Cls cls_tail)) (Alt Eps (chr newline))) s = true.
Proof.
  induction s as [|c s IH]; intros H; [reflexivity|].
  simpl in H. apply andb_prop in H as [Hc Hs].
  cbn [fullmatch deriv nullable chr]. rewrite Hc, (tail_char_is_not_newline c Hc).
  apply IH. exact Hs.
Qed.

(** An id made of the default prefix and a token of segment characters is of
    the grammar. *)
Lemma default_prefix_conforms (c : ascii) (rest : string) :
  cls_segment c = true -> all_chars cls_tail rest = true ->
  re_match_anchored quakeml_regex ("smi:local/" +:+ String c rest) = true.
Proof.
  intros Hc Hrest. unfold re_match_anchored. rewrite fullmatch_app.
  assert (E : deriv_string "smi:local/" (Seq quakeml_regex (Alt Eps (chr newline)))
              = Seq (Seq (Cls cls_segment) (Star (Cls cls_tail))) (Alt Eps (chr newline)))
    by (vm_compute; reflexivity).
  rewrite E. cbn [fullmatch deriv nullable andb]. rewrite Hc.
  apply tail_loop. exact Hrest.
Qed.

(** X11. A handle constructed without id and with the default prefix has the
    id ["smi:local/" + token]; when the token starts with a segment character
    and goes on with characters of the grammar, as the text of a uuid does,
    this id is of the QuakeML grammar and [get_quakeml_uri_str] returns it
    unchanged. *)
Theorem generated_default_id_conforms
    (st : State) (c : ascii) (rest a u' : string) :
  cls_segment c = true -> all_chars cls_tail rest = true ->
  let token := String c rest in
  exists st' h,
    new (AVal PNone) "smi:local" None PNone token st = (st', Ok h)
    /\ id_value h = Ok (Some ("smi:local/" +:+ token))
    /\ fixed h = Some false
    /\ forall w : State,
         (call_on h (get_quakeml_uri_str a u') w).2
         = Ok (Some ("smi:local/" +:+ token), h).
Proof.
  intros Hc Hrest token. subst token. set (token := String c rest).
  pose proof (default_prefix_conforms c rest Hc Hrest) as Hconf. fold token in Hconf.
  set (h0 := set_uuid token (set_prefix "smi:local" (set_fixed false empty_dict))).
  assert (Hid0 : id_value h0 = Ok (Some ("smi:local/" +:+ token))) by reflexivity.
  assert (Hinit : exists c',
             __init__ (AVal PNone) "smi:local" None PNone token
               (mkState empty_dict (cls st) (_get_object_hook st))
             = (mkState (set_resource_key
                           (intern (RStr ("smi:local/" +:+ token)) (cls st)).2 h0)
                        c' (_get_object_hook st), Ok tt)).
  { unfold __init__. mprim.
    mstep ltac:(apply get_id_ok; exact Hid0).
    cbn [pyval_of_id].
    mstep ltac:(apply descriptor_set_run).
    mstep ltac:(apply descriptor_set_run).
    eexists. reflexivity. }
  destruct Hinit as (c' & Hinit).
  eexists _, _. split.
  { unfold new. mstep ltac:(apply call_on_ok; exact Hinit). reflexivity. }
  cbn [self]. split; [exact Hid0|]. split; [reflexivity|].
  intros w.
  erewrite call_on_ok; cycle 1.
  { rewrite (uri_str_run _ a u' (Some ("smi:local/" +:+ token))) by exact Hid0.
    cbn [py_str].
    rewrite (conforming_not_blank _ Hconf).
    cbn [py_str]. rewrite Hconf. reflexivity. }
  reflexivity.
Qed.

Lemma generated_default_id_witness :
  exists st' h,
    new (AVal PNone) "smi:local" None PNone "0a1b-2c3d" initial = (st', Ok h)
    /\ id_value h = Ok (Some "smi:local/0a1b-2c3d").
Proof.
  destruct (generated_default_id_conforms initial "0" "a1b-2c3d" "local" "" eq_refl eq_refl)
    as (st' & h & Hrun & Hid & _).
  exists st', h. split; [exact Hrun | exact Hid].
Defined.

(** ** Comparison, the id and the prefix *)

(** X12. [==] on a handle compares ids: with another handle it is true
    exactly when the two ids are equal, with a string exactly when the id is
    that string, and never with an integer; [!=] is its negation. Neither
    changes anything. *)
Theorem eq_compares_ids (st : State) (h : RID) (i j : PyId) :
  id_value (self st) = Ok i -> id_value h = Ok j ->
  __eq__ (AHandle h) st = (st, Ok (bool_decide (i = j)))
  /\ __ne__ (AHandle h) st = (st, Ok (negb (bool_decide (i = j))))
  /\ (forall s, __eq__ (AVal (PStr s)) st = (st, Ok (bool_decide (i = Some s))))
  /\ (forall z, __eq__ (AVal (PInt z)) st = (st, Ok false)).
Proof.
  intros Hs Hh.
  assert (He : __eq__ (AHandle h) st = (st, Ok (bool_decide (i = j)))).
  { unfold __eq__. mstep ltac:(apply get_id_ok; exact Hs).
    unfold id_eq.
    erewrite bind_ok; cycle 1.
    { mstep ltac:(apply call_on_get_id; exact Hh). reflexivity. }
    cbn [fst].
    destruct (decide (i = j)) as [E|N].
    - rewrite (bool_decide_eq_true_2 (j = i)) by congruence.
      rewrite (bool_decide_eq_true_2 (i = j)) by exact E. reflexivity.
    - rewrite (bool_decide_eq_false_2 (j = i)) by congruence.
      mstep ltac:(apply get_id_ok; exact Hs).
      mstep ltac:(apply call_on_get_id; exact Hh). cbn [fst].
      rewrite (bool_decide_eq_false_2 (i = j)) by exact N. reflexivity. }
  split; [exact He|]. split.
  { unfold __ne__. mstep ltac:(exact He). reflexivity. }
  split.
  - intros s. unfold __eq__. mstep ltac:(apply get_id_ok; exact Hs).
    unfold id_eq. mprim. destruct (bool_decide (i = Some s)); reflexivity.
  - intros z. unfold __eq__. mstep ltac:(apply get_id_ok; exact Hs). reflexivity.
Qed.

Lemma eq_compares_ids_witness :
  let a := mkRID (Some true) None None (Some "a") (Some 1%positive) None None in
  let b := mkRID (Some false) (Some "smi:local") (Some "b") None (Some 2%positive) None None in
  __eq__ (AHandle b) (mkState a empty_class []) = (mkState a empty_class [], Ok false).
Proof.
  intros a b.
  destruct (eq_compares_ids (mkState a empty_class []) b (Some "a") (Some "smi:local/b")
              eq_refl eq_refl) as (H & _).
  exact H.
Defined.

(** X13. Assigning a string to [id] always succeeds: the handle is fixed and
    reads the new id afterwards, but its resource key is the one it had, not
    the interned key of the new id; the overwrite warning is added exactly
    when the handle already had a resource key. *)
Theorem id_overwrite_keeps_key (st : State) (v : string) :
  let out := set_id (PStr v) st in
  out.2 = Ok tt
  /\ id_value (self out.1) = Ok (Some v)
  /\ _resource_key__ (self out.1) = _resource_key__ (self st)
  /\ _object_id (self out.1) = _object_id (self st)
  /\ same_tables (cls st) (cls out.1)
  /\ emitted (cls st) (cls out.1)
     = if bool_decide (is_Some (_resource_key__ (self st))) then [IdOverwrite] else [].
Proof.
  intros out. subst out. unfold set_id. mprim. mprim. mprim.
  cbn [self _resource_key__ set_fixed].
  destruct (bool_decide (is_Some (_resource_key__ (self st)))).
  - mprim. mprim. cbn. repeat split.
    apply (emitted_app _ (add_warning IdOverwrite (cls st))). reflexivity.
  - mprim. mprim. cbn. repeat split. apply emitted_same.
Qed.

(** The prefix setter is atomic: a value that is not a string raises
    [TypeError] and changes nothing. A string is stored without any warning;
    it changes the id of a generated handle and not the id of a fixed one,
    and in both cases the resource key stays the one the handle had. *)
Theorem prefix_set_behaviour (st : State) :
  (forall value, (forall v, value <> PStr v) -> prefix_set value st = (st, Raise TypeError))
  /\ (forall v,
        let out := prefix_set (PStr v) st in
        out.2 = Ok tt
        /\ cls out.1 = cls st
        /\ _resource_key__ (self out.1) = _resource_key__ (self st)
        /\ (fixed (self st) = Some true -> id_value (self out.1) = id_value (self st))
        /\ (forall u, fixed (self st) = Some false -> _uuid (self st) = Some u ->
              id_value (self out.1)
              = Ok (Some ((if endswith_slash v then v else v +:+ "/") +:+ u)))).
Proof.
  split.
  - intros value Hv. destruct value; try reflexivity. exfalso. eapply Hv. reflexivity.
  - intros v out. subst out. cbn. repeat split.
    + intros Hf. unfold id_value. cbn. rewrite Hf. reflexivity.
    + intros u Hf Hu. unfold id_value. cbn. rewrite Hf, Hu. reflexivity.
Qed.

(** X14. A handle constructed from another handle gets the dict of that
    handle and nothing else happens: the arguments [prefix],
    [referred_object] and [parent] are not looked at, no key is interned and
    no object is bound. *)
Theorem new_from_handle_copies_dict
    (st : State) (other : RID) (prefix : string) (referred_object : option Obj)
    (parent : PyVal) (u : string) :
  new (AHandle other) prefix referred_object parent u st = (st, Ok other).
Proof.
  unfold new, call_on, __init__, bind, get_self, put_self, ret. cbn.
  rewrite dict_update_empty, state_eta. reflexivity.
Qed.

(** ** The debugging context *)

Lemma bind_class_state_run (d : StateDict) (st : State) :
  _bind_class_state d st
  = (mkState (self st)
       (set_map (id_object_map d) (set_order (id_order d) (set_tree (parent_id_tree d) (cls st))))
       (_get_object_hook st), Ok tt).
Proof. reflexivity. Qed.

(** The run of the context on a body that returns. *)
Lemma debug_class_state_core {A} (body : StateDict -> M A) (st : State) (a : A) (s' : State) :
  body (mkStateDict ∅ ∅ ∅ [])
       (mkState (self st) (set_map ∅ (set_order ∅ (set_tree ∅ (cls st))))
                (_get_object_hook st)) = (s', Ok a) ->
  (_debug_class_state body st).2 = Ok a
  /\ same_tables (cls st) (cls (_debug_class_state body st).1)
  /\ self (_debug_class_state body st).1 = self s'
  /\ _get_object_hook (_debug_class_state body st).1 = _get_object_hook s'
  /\ _singleton_cache (cls (_debug_class_state body st).1) = _singleton_cache (cls s')
  /\ warnings (cls (_debug_class_state body st).1) = warnings (cls s').
Proof.
  intros Hbody. unfold _debug_class_state.
  mprim. mprim. mstep ltac:(apply bind_class_state_run).
  cbn [parent_id_tree id_order id_object_map].
  mstep ltac:(exact Hbody).
  mstep ltac:(apply bind_class_state_run). cbn. repeat split.
Qed.

(** X15. [_debug_class_state] runs its body on three empty tables, with the
    registered hooks still in force. When the body returns, the three tables
    of before are bound again and everything else is as the body left it.
    When the body raises, the exception leaves the context and the old
    tables are not bound again: the state is the one the body left. *)
Theorem debug_class_state_restores_on_return_only
    {A} (body : StateDict -> M A) (st : State) :
  let new_state := mkStateDict ∅ ∅ ∅ [] in
  let inside := mkState (self st) (set_map ∅ (set_order ∅ (set_tree ∅ (cls st))))
                        (_get_object_hook st) in
  let out := _debug_class_state body st in
  (forall a s', body new_state inside = (s', Ok a) ->
     out.2 = Ok a
     /\ same_tables (cls st) (cls out.1)
     /\ self out.1 = self s'
     /\ _get_object_hook out.1 = _get_object_hook s'
     /\ _singleton_cache (cls out.1) = _singleton_cache (cls s')
     /\ warnings (cls out.1) = warnings (cls s'))
  /\ (forall e s', body new_state inside = (s', Raise e) -> out = (s', Raise e)).
Proof.
  intros new_state inside out. subst out. unfold _debug_class_state.
  mprim. mprim. mstep ltac:(apply bind_class_state_run).
  cbn [parent_id_tree id_order id_object_map]. fold new_state. fold inside.
  split.
  - intros a s' Hbody. mstep ltac:(exact Hbody).
    mstep ltac:(apply bind_class_state_run). cbn. repeat split.
  - intros e s' Hbody. erewrite bind_raise by exact Hbody. reflexivity.
Qed.

Lemma debug_class_state_witness :
  _debug_class_state (fun _ => raise (A := unit) KeyError) stale_tail_state
  = (mkState (self stale_tail_state)
       (set_map ∅ (set_order ∅ (set_tree ∅ (cls stale_tail_state)))) [],
     Raise KeyError).
Proof.
  destruct (debug_class_state_restores_on_return_only
              (fun _ => raise (A := unit) KeyError) stale_tail_state) as (_ & H).
  apply H. reflexivity.
Defined.

(** X16. Inside the debugging context a binding made outside is invisible:
    with no hook registered, [get_referred_object] on any handle returns
    [None] there, whatever the handle was bound to, and after the context
    the three tables are the ones of before. *)
Theorem bindings_invisible_in_debug_context (st : State) (rk : Key) (i : PyId) :
  _resource_key__ (self st) = Some rk -> id_value (self st) = Ok i ->
  _get_object_hook st = [] ->
  let out := _debug_class_state (fun _ => get_referred_object) st in
  out.2 = Ok None /\ same_tables (cls st) (cls out.1) /\ self out.1 = self st.
Proof.
  intros Hrk Hid Hhooks out.
  set (inside := mkState (self st) (set_map ∅ (set_order ∅ (set_tree ∅ (cls st))))
                         (_get_object_hook st)).
  assert (Hd : Spec.direct (cls inside) (self inside) i = None) by apply lookup_empty.
  assert (Hs : Spec.scoped (cls inside) (self inside) i = None).
  { unfold Spec.scoped. cbn [inside cls self _parent_id_tree set_map set_order set_tree].
    destruct (_parent_key__ (self st)); [|reflexivity].
    cbn [mbind option_bind]. rewrite lookup_empty. reflexivity. }
  assert (Hr : Spec.recency (cls inside) (self inside) i = None).
  { unfold Spec.recency, Spec.assignment_order.
    cbn [inside cls self _id_order set_map set_order]. rewrite Hrk.
    cbn [mbind option_bind]. rewrite lookup_empty. reflexivity. }
  assert (Hcase : is_Some (match Spec.scoped (cls inside) (self inside) i with
                           | Some o => Some o
                           | None => Spec.recency (cls inside) (self inside) i
                           end) \/ _get_object_hook inside = [])
    by (right; exact Hhooks).
  destruct (get_referred_object_fallback inside rk i Hrk Hid Hd Hcase)
    as (s' & Hrun & _ & _ & Hnone).
  rewrite Hs, Hr in Hrun, Hnone. specialize (Hnone eq_refl).
  destruct (debug_class_state_core (fun _ => get_referred_object) st None s' Hrun)
    as (H1 & H2 & H3 & _).
  subst out. split; [exact H1|]. split; [exact H2|].
  rewrite H3, Hnone. reflexivity.
Qed.

Lemma bindings_invisible_witness :
  let h := mkRID (Some true) None None (Some "s") (Some 1%positive) None (Some 1000) in
  let c := mkClass {[ RStr "s" := 1%positive ]} 2%positive ∅
             {[ 1%positive := [(Some 1000, Some "s")] ]}
             {[ (Some 1000, Some "s") := obj_X ]} [] in
  (get_referred_object (mkState h c [])).2 = Ok (Some obj_X)
  /\ (_debug_class_state (fun _ => get_referred_object) (mkState h c [])).2 = Ok None.
Proof.
  intros h c. split; [vm_compute; reflexivity|].
  destruct (bindings_invisible_in_debug_context (mkState h c []) 1%positive (Some "s")
              eq_refl eq_refl eq_refl) as (H & _).
  exact H.
Defined.

(** ** The QuakeML handle *)

Lemma uri_str_conforms (st : State) (a u : string) (i r : PyId) :
  id_value (self st) = Ok i ->
  (get_quakeml_uri_str a u st).2 = Ok r ->
  get_quakeml_uri_str a u st = (st, Ok r)
  /\ re_match_anchored quakeml_regex (py_str r) = true.
Proof.
  intros Hid Hrun. rewrite (uri_str_run st a u i Hid) in *. cbn [snd] in Hrun.
  destruct (re_match_anchored quakeml_regex
              (py_str (if all_space (py_str i) then Some u else i))) eqn:E1.
  - injection Hrun as <-. split; [reflexivity | exact E1].
  - destruct (re_match_anchored quakeml_regex _) eqn:E2 in Hrun; [|discriminate Hrun].
    injection Hrun as <-. rewrite E2. split; [reflexivity | exact E2].
Qed.

(** [ResourceIdentifier(s)] leaves the rows of the registry alone. *)
Lemma new_of_string_rows (s prefix : string) (u : string) (st : State) :
  exists st' h,
    new (AVal (PStr s)) prefix None PNone u st = (st', Ok h)
    /\ id_value h = Ok (Some s)
    /\ is_Some (_resource_key__ h)
    /\ self st' = self st
    /\ _get_object_hook st' = _get_object_hook st
    /\ same_rows (cls st) (cls st').
Proof.
  assert (Hinit : __init__ (AVal (PStr s)) prefix None PNone u
                    (mkState empty_dict (cls st) (_get_object_hook st))
                  = (mkState (set_resource_key (intern (RStr s) (cls st)).2
                                (set_id_ s (set_fixed true (set_fixed true empty_dict))))
                             (intern (RStr s) (cls st)).1 (_get_object_hook st), Ok tt)).
  { unfold __init__.
    set (st0 := mkState empty_dict (cls st) (_get_object_hook st)).
    assert (H1 : (let! s0 := get_self in
                  let! _ := put_self (set_fixed true s0) in set_id (PStr s)) st0
                 = (mkState (set_id_ s (set_fixed true (set_fixed true empty_dict)))
                            (cls st) (_get_object_hook st), Ok tt)) by reflexivity.
    rewrite (bind_ok _ _ _ _ _ H1).
    mstep ltac:(apply get_id_ok; reflexivity).
    cbn [pyval_of_id].
    mstep ltac:(apply descriptor_set_run).
    mstep ltac:(apply descriptor_set_run).
    reflexivity. }
  eexists _, _. split.
  { unfold new. mstep ltac:(apply call_on_ok; exact Hinit). reflexivity. }
  cbn [self cls _get_object_hook].
  split; [reflexivity|]. split; [eauto|]. split; [reflexivity|]. split; [reflexivity|].
  destruct (intern_tables (RStr s) (cls st)) as (_ & H2 & H3 & H4).
  repeat split; assumption.
Qed.

(** X17. [get_quakeml_id] of a handle that is bound to a live object: when
    the URI string can be formed, the call succeeds, leaves the handle and
    the log of warnings as they were, and returns a handle whose id is that
    string, is of the grammar, and which resolves to the same object. *)
Theorem quakeml_id_resolves_to_same_object
    (st : State) (rk : Key) (i : PyId) (o : Obj) (a u u2 new_id : string) :
  _resource_key__ (self st) = Some rk -> id_value (self st) = Ok i ->
  Spec.direct (cls st) (self st) i = Some o ->
  (get_quakeml_uri_str a u st).2 = Ok (Some new_id) ->
  exists st' rid,
    get_quakeml_id a u u2 st = (st', Ok rid)
    /\ id_value rid = Ok (Some new_id)
    /\ re_match_anchored quakeml_regex new_id = true
    /\ self st' = self st
    /\ warnings (cls st') = warnings (cls st)
    /\ (resolve_on rid st').2 = Ok (Some o).
Proof.
  intros Hrk Hid Hd Huri.
  destruct (uri_str_conforms st a u i (Some new_id) Hid Huri) as (Hrun0 & Hconf).
  cbn [py_str] in Hconf.
  destruct (new_of_string_rows new_id "smi:local" u2 st)
    as (st1 & rid & Hnew & Hidr & (k' & Hkr) & Hself1 & Hh1 & (Ro & Rm & Rw)).
  assert (Hrk1 : _resource_key__ (self st1) = Some rk) by (rewrite Hself1; exact Hrk).
  assert (Hid1 : id_value (self st1) = Ok i) by (rewrite Hself1; exact Hid).
  assert (Hd1 : Spec.direct (cls st1) (self st1) i = Some o).
  { unfold Spec.direct in *. rewrite Rm, Hself1. exact Hd. }
  destruct (get_referred_object_run st1 rk i Hrk1 Hid1) as (s1' & Hres & Hsame & _).
  rewrite (Hsame (ex_intro _ o Hd1)) in Hres.
  assert (Hval : Spec.resolve st1 i = Some o) by (unfold Spec.resolve; rewrite Hd1; reflexivity).
  rewrite Hval in Hres.
  set (sR := mkState rid (cls st1) (_get_object_hook st1)).
  destruct (set_referred_object_binds sR k' (Some new_id) o false
              (key_arg (_parent_key__ (self st1))) Hkr Hidr)
    as (s2 & Hrun2 & Hk2 & Hid2 & Hh2 & Hd2 & _ & Hw2).
  rewrite conflict_no_warn, app_nil_r in Hw2.
  exists (mkState (self st1) (cls s2) (_get_object_hook s2)), (self s2).
  split.
  { unfold get_quakeml_id.
    mstep ltac:(exact Hrun0). cbn [pyval_of_id].
    mstep ltac:(exact Hnew).
    mstep ltac:(exact Hres). cbv beta iota.
    mstep ltac:(apply parent_key_run).
    mstep ltac:(apply call_on_ok; exact Hrun2). reflexivity. }
  split; [exact Hid2|]. split; [exact Hconf|]. split; [exact Hself1|].
  split. { cbn [cls]. rewrite Hw2. subst sR. cbn [cls]. exact Rw. }
  set (sF := mkState (self s2) (cls s2) (_get_object_hook s2)).
  destruct (get_referred_object_run sF k' (Some new_id) Hk2 Hid2) as (sF' & HresF & _).
  assert (HvalF : Spec.resolve sF (Some new_id) = Some o)
    by (unfold Spec.resolve; subst sF; cbn [cls self]; rewrite Hd2; reflexivity).
  rewrite HvalF in HresF.
  unfold resolve_on. mstep ltac:(apply call_on_ok; exact HresF). reflexivity.
Qed.

Lemma quakeml_id_witness :
  let h := mkRID (Some true) None None (Some "some_id") (Some 1%positive) None (Some 1000) in
  let c := mkClass {[ RStr "some_id" := 1%positive ]} 2%positive ∅
             {[ 1%positive := [(Some 1000, Some "some_id")] ]}
             {[ (Some 1000, Some "some_id") := obj_X ]} [] in
  exists st' rid,
    get_quakeml_id "local" "" "" (mkState h c []) = (st', Ok rid)
    /\ id_value rid = Ok (Some "smi:local/some_id")
    /\ (resolve_on rid st').2 = Ok (Some obj_X).
Proof.
  intros h c.
  assert (Huri : (get_quakeml_uri_str "local" "" (mkState h c [])).2
                 = Ok (Some "smi:local/some_id")) by (vm_compute; reflexivity).
  destruct (quakeml_id_resolves_to_same_object (mkState h c []) 1%positive (Some "some_id")
              obj_X "local" "" "" "smi:local/some_id" eq_refl eq_refl eq_refl Huri)
    as (st' & rid & Hrun & Hid & _ & _ & _ & Hres).
  exists st', rid. split; [exact Hrun|]. split; [exact Hid | exact Hres].
Defined.

(** ** State restore, rescoping and the rows of the object map *)



Lemma intern_ext (raw : Raw) (c c' : ClassState) :
  _singleton_cache c' = _singleton_cache c -> next_key c' = next_key c ->
  (intern raw c').2 = (intern raw c).2.
Proof.
  intros Hc Hn. unfold intern. rewrite Hc.
  destruct (_singleton_cache c !! raw); simpl; [reflexivity | exact Hn].
Qed.

(** X19. Rescoping. A bind with a [parent] (an int, a string or any object,
    which stands for its address) replaces the parent key of the handle by
    the key interned for that value, and the row of that parent scope and of
    the handle's resource key holds the new CompositeKey. *)
Theorem bind_with_parent_rescopes
    (st : State) (rk : Key) (i : PyId) (o : Obj) (warn_ : bool)
    (parent : PyVal) (raw : Raw) :
  _resource_key__ (self st) = Some rk -> id_value (self st) = Ok i ->
  descriptor_raw parent = Some raw ->
  let out := set_referred_object o warn_ parent st in
  let pk := (intern raw (cls st)).2 in
  out.2 = Ok tt
  /\ _parent_key__ (self out.1) = Some pk
  /\ tree_row (cls out.1) pk rk = Some (Some (oid o), i).
Proof.
  intros Hrk Hid Hraw out pk. subst out. unfold set_referred_object.
  mstep ltac:(eapply last_bound_run; eassumption).
  mstep ltac:(eapply warn_if_rebinding_run; eassumption).
  set (st1 := if conflict _ _ _ then _ else st).
  assert (Hs1 : self st1 = self st
                /\ _singleton_cache (cls st1) = _singleton_cache (cls st)
                /\ next_key (cls st1) = next_key (cls st))
    by (subst st1; destruct (conflict _ _ _); repeat split).
  clearbody st1. destruct Hs1 as (Hs1 & Hc1 & Hn1). mprim. mprim.
  set (st2 := mkState (set_object_id (oid o) (self st1)) (cls st1) (_get_object_hook st1)).
  set (st3 := after_descriptor_set parent_key_attr parent st2).
  assert (Hst3 : st3 = mkState (set_parent_key (intern raw (cls st1)).2 (self st2))
                               (intern raw (cls st1)).1 (_get_object_hook st1)).
  { subst st3. unfold after_descriptor_set. rewrite Hraw. reflexivity. }
  assert (Hpk : (intern raw (cls st1)).2 = pk) by (apply intern_ext; assumption).
  assert (Hrk3 : _resource_key__ (self st3) = Some rk)
    by (rewrite Hst3; simpl; rewrite Hs1; exact Hrk).
  assert (Hid3 : id_value (self st3) = Ok i)
    by (rewrite Hst3, <- Hid, <- Hs1; reflexivity).
  assert (Hpk3 : _parent_key__ (self st3) = Some pk)
    by (rewrite Hst3; simpl; rewrite Hpk; reflexivity).
  assert (Hoid3 : _object_id (self st3) = Some (oid o)) by (rewrite Hst3; reflexivity).
  destruct (write_scope_row_tree st3 rk pk i Hrk3 Hid3 Hpk3) as (c4 & Hrun4 & _ & Hrow).
  assert (Hscope : scope_to_parent parent st2
                   = (mkState (self st3) c4 (_get_object_hook st3), Ok tt)).
  { unfold scope_to_parent. mstep ltac:(apply parent_key_run).
    assert (Hnn : is_none parent = false) by (destruct parent; [discriminate Hraw|..]; reflexivity).
    rewrite Hnn. cbn [negb orb].
    mstep ltac:(apply descriptor_set_run). exact Hrun4. }
  mstep ltac:(exact Hscope).
  erewrite record_assignment_run by eassumption.
  cbn [fst snd self cls]. split; [reflexivity|]. split; [exact Hpk3|].
  rewrite Hoid3 in Hrow. exact Hrow.
Qed.

Lemma bind_with_parent_witness :
  let h := mkRID (Some true) None None (Some "s") (Some 1%positive) (Some 9%positive) None in
  let c := mkClass {[ RStr "s" := 1%positive ]} 2%positive ∅ ∅ ∅ [] in
  let out := set_referred_object obj_X true (PObj obj_Y) (mkState h c []) in
  _parent_key__ (self out.1) = Some 2%positive
  /\ tree_row (cls out.1) 2%positive 1%positive = Some (Some 1000, Some "s").
Proof.
  intros h c out.
  destruct (bind_with_parent_rescopes (mkState h c []) 1%positive (Some "s") obj_X true
              (PObj obj_Y) (RInt 2000) eq_refl eq_refl eq_refl) as (_ & H1 & H2).
  split; [exact H1 | exact H2].
Defined.

(** X20. The rows of the object map stay keyed by the address of their
    object: a bind and a drop by the environment both keep this, and under
    it the object a handle finds by its own CompositeKey has the address the
    handle recorded. *)
Theorem object_map_keyed_by_address
    (st : State) (rk : Key) (i : PyId) (o : Obj) (warn_ : bool) (parent : PyVal) (a : Z) :
  _resource_key__ (self st) = Some rk -> id_value (self st) = Ok i ->
  map_ok (cls st) ->
  map_ok (cls (set_referred_object o warn_ parent st).1)
  /\ map_ok (gc_object a (cls st))
  /\ (forall x, Spec.direct (cls st) (self st) i = Some x ->
                _object_id (self st) = Some (oid x)).
Proof.
  intros Hrk Hid Hok.
  destruct (set_referred_object_run st rk i o warn_ parent Hrk Hid)
    as (st' & Hrun & Hmap & _).
  rewrite Hrun. cbn [fst]. split; [|split].
  - intros k x Hk. rewrite Hmap in Hk.
    destruct (decide ((Some (oid o), i) = k)) as [<-|N].
    + rewrite lookup_insert_eq in Hk. injection Hk as <-. reflexivity.
    + rewrite lookup_insert_ne in Hk by exact N. apply Hok. exact Hk.
  - intros k x Hk. simpl in Hk. apply map_lookup_filter_Some in Hk as [Hk _].
    apply Hok. exact Hk.
  - intros x Hx. apply Hok in Hx. exact Hx.
Qed.

Lemma object_map_witness :
  map_ok (cls (set_referred_object obj_X true PNone
                 (mkState (mkRID (Some true) None None (Some "s") (Some 1%positive) None None)
                          empty_class [])).1).
Proof.
  assert (Hok : map_ok empty_class).
  { intros k o H. cbn in H. rewrite lookup_empty in H. discriminate H. }
  destruct (object_map_keyed_by_address
              (mkState (mkRID (Some true) None None (Some "s") (Some 1%positive) None None)
                       empty_class [])
              1%positive (Some "s") obj_X true PNone 0 eq_refl eq_refl Hok) as (H & _).
  exact H.
Defined.
